(** * saas-backend: the PropiedadIA / ContenidoIA proxy

    A shallow embedding of [server.js].  The repository holds three
    revisions of that file, and the development keeps them apart:

    - [OpenRouter]: one upstream call per request to a single model
      (src/server.js, first part);
    - [Fallback]: the loop over four candidate models
      (the server.js embedded in src/README.md);
    - [Inaia]: one call through [callInaiaAPI], with a 30 s abort and
      the empty-response checks (src/server.js, second part).

    JavaScript strings are modelled by [string] holding their UTF-8
    bytes.  Every character the code inspects (brackets, quotes, JSON
    punctuation, digits) is ASCII, and an ASCII byte never occurs inside
    a multi-byte UTF-8 sequence, so searching and slicing at those
    characters agrees with the UTF-16 view of the engine. *)

From stdpp Require Import gmap strings.
From Stdlib Require Import ZArith Lia String Ascii List Bool DecimalString.
From Stdlib Require DecimalPos.
Import ListNotations.
Open Scope string_scope.

(** ** JavaScript values *)

(** The values that flow through the handlers: what [JSON.parse] builds,
    plus [undefined].  A number is kept as the decimal the text wrote,
    [m * 10^e], and stands for the double nearest to it; the handlers
    never compute with numbers coming from the upstream, they test them
    for truthiness and send them on. *)
#[warnings="-register-all"]
Inductive value : Type :=
| VUndefined
| VNull
| VBool (b : bool)
| VNum (m e : Z)
| VStr (s : string)
| VArr (items : list value)
| VObj (props : list (string * value)).

(** ToBoolean.  A decimal [m * 10^e] is read as the nearest double
    (ties to even); it becomes 0, hence falsy, exactly when its
    magnitude is at most 2^-1075, half of the smallest subnormal. *)
Definition number_is_zero (m e : Z) : bool :=
  if (m =? 0)%Z then true
  else if (0 <=? e)%Z then false
  else (2 ^ 1075 * Z.abs m <=? 10 ^ (- e))%Z.

Definition truthy (v : value) : bool :=
  match v with
  | VUndefined | VNull => false
  | VBool b => b
  | VNum m e => negb (number_is_zero m e)
  | VStr s => negb (s =? "")
  | VArr _ | VObj _ => true
  end.

(** [undefined] or [null]: the values a property cannot be read from. *)
Definition nullish (v : value) : bool :=
  match v with
  | VUndefined | VNull => true
  | _ => false
  end.

(** [a || b] *)
Definition js_or (a b : value) : value := if truthy a then a else b.

(** An exception object: [name] and [message]. *)
Record Exn := mkExn { exn_name : string; exn_message : string }.

(** [new Error(msg)] *)
Definition Error (msg : string) : Exn := mkExn "Error" msg.

(** Exceptions raised by the engine itself.  Their message text is the
    engine's own business; it enters the model through the
    [engine_message] parameter of the handlers. *)
Inductive EngineError :=
| JSONSyntaxError (text : string)          (* JSON.parse(text) *)
| PropertyOfNullish (base : value) (key : string)   (* base.key *)
| NotAFunction (callee : string)           (* callee(...) *)
| InvalidStatusCode (status : Z).          (* res.status(status).json(...) *)

Definition engine_error_name (e : EngineError) : string :=
  match e with
  | JSONSyntaxError _ => "SyntaxError"
  | PropertyOfNullish _ _ | NotAFunction _ => "TypeError"
  | InvalidStatusCode _ => "RangeError"
  end.

(** A computation that returns or throws. *)
Definition Result (A : Type) : Type := (Exn + A)%type.

Definition ret {A} (a : A) : Result A := inr a.
Definition throw {A} (e : Exn) : Result A := inl e.
Definition bind {A B} (r : Result A) (k : A -> Result B) : Result B :=
  match r with
  | inl e => inl e
  | inr a => k a
  end.

Notation "'let*' x ':=' r 'in' k" := (bind r (fun x => k))
  (at level 10, x name, r at level 100, k at level 200, only parsing).

(** ** Characters *)

Definition dquote : ascii := "034"%char.
Definition backslash : ascii := "092"%char.
Definition LF : ascii := "010"%char.

(** Source texts below write a JSON or prompt literal with apostrophes
    where the JavaScript has double quotes; [dq] puts the quotes back. *)
Fixpoint dq (s : string) : string :=
  match s with
  | EmptyString => EmptyString
  | String c s' => String (if (c =? "'")%char then dquote else c) (dq s')
  end.

Definition is_digit (c : ascii) : bool :=
  let n := nat_of_ascii c in (48 <=? n)%nat && (n <=? 57)%nat.

Definition digit_value (c : ascii) : Z := Z.of_nat (nat_of_ascii c) - 48.

Definition hex_value (c : ascii) : option Z :=
  let n := nat_of_ascii c in
  if (48 <=? n)%nat && (n <=? 57)%nat then Some (Z.of_nat n - 48)%Z
  else if (65 <=? n)%nat && (n <=? 70)%nat then Some (Z.of_nat n - 55)%Z
  else if (97 <=? n)%nat && (n <=? 102)%nat then Some (Z.of_nat n - 87)%Z
  else None.

Definition byte (z : Z) : ascii := ascii_of_nat (Z.to_nat z).

(** UTF-8 bytes of a code point (a lone surrogate keeps its three-byte
    form, so distinct JavaScript strings stay distinct). *)
Definition utf8 (cp : Z) : list ascii :=
  if (cp <? 128)%Z then [byte cp]
  else if (cp <? 2048)%Z then
    [byte (192 + cp / 64); byte (128 + cp mod 64)]
  else if (cp <? 65536)%Z then
    [byte (224 + cp / 4096); byte (128 + (cp / 64) mod 64); byte (128 + cp mod 64)]
  else
    [byte (240 + cp / 262144); byte (128 + (cp / 4096) mod 64);
     byte (128 + (cp / 64) mod 64); byte (128 + cp mod 64)].

Fixpoint string_of_chars (l : list ascii) : string :=
  match l with
  | [] => EmptyString
  | c :: l' => String c (string_of_chars l')
  end.

(** ** JSON.parse

    ECMA-404 in two passes, both by structural recursion: a lexer over
    the characters and a push-down recogniser over the tokens.  [None]
    stands for the SyntaxError the engine throws. *)

Inductive token :=
| TLBracket | TRBracket | TLBrace | TRBrace | TComma | TColon
| TString (s : string)
| TNumber (m e : Z)
| TTrue | TFalse | TNull.

(** *** Numbers: [-? int frac? exp?] *)

Fixpoint take_digits (l : list ascii) : list ascii * list ascii :=
  match l with
  | c :: l' =>
      if is_digit c then let '(ds, r) := take_digits l' in (c :: ds, r)
      else ([], l)
  | [] => ([], [])
  end.

Definition digits_value (ds : list ascii) : Z :=
  fold_left (fun acc c => (10 * acc + digit_value c)%Z) ds 0%Z.

(** The integer part: a single 0, or a non-empty run not starting with 0. *)
Definition valid_int (ds : list ascii) : bool :=
  match ds with
  | [] => false
  | [c] => true
  | c :: _ => negb (c =? "0")%char
  end.

Definition number_exponent (l : list ascii) : option Z :=
  match l with
  | [] => Some 0%Z
  | c :: l1 =>
      if (c =? "e")%char || (c =? "E")%char then
        let '(neg, l2) :=
          match l1 with
          | "-"%char :: l2 => (true, l2)
          | "+"%char :: l2 => (false, l2)
          | _ => (false, l1)
          end in
        match take_digits l2 with
        | ((_ :: _) as ds, []) =>
            Some (if neg then - digits_value ds else digits_value ds)%Z
        | _ => None
        end
      else None
  end.

Definition number_token (l : list ascii) : option token :=
  let '(neg, l0) :=
    match l with
    | "-"%char :: l0 => (true, l0)
    | _ => (false, l)
    end in
  let '(ints, l1) := take_digits l0 in
  if valid_int ints then
    let '(fracs, l2) :=
      match l1 with
      | "."%char :: l1' => let '(fs, r) := take_digits l1' in (Some fs, r)
      | _ => (None, l1)
      end in
    match fracs with
    | Some [] => None
    | _ =>
        let fs := match fracs with Some fs => fs | None => [] end in
        match number_exponent l2 with
        | Some ex =>
            let m := digits_value (ints ++ fs)%list in
            Some (TNumber (if neg then - m else m) (ex - Z.of_nat (length fs)))
        | None => None
        end
    end
  else None.

Definition is_number_char (c : ascii) : bool :=
  is_digit c || (c =? "-")%char || (c =? "+")%char || (c =? ".")%char
  || (c =? "e")%char || (c =? "E")%char.

(** The number whose characters were collected (in reverse) before the
    current position, if any, goes in front of the tokens that follow. *)
Definition flush (pending : list ascii) (rest : option (list token))
  : option (list token) :=
  match pending with
  | [] => rest
  | _ =>
      match number_token (rev pending), rest with
      | Some t, Some ts => Some (t :: ts)
      | _, _ => None
      end
  end.

Definition is_json_space (c : ascii) : bool :=
  (c =? " ")%char || (c =? "009")%char || (c =? "010")%char || (c =? "013")%char.

Definition hex4 (a b c d : ascii) : option Z :=
  match hex_value a, hex_value b, hex_value c, hex_value d with
  | Some x, Some y, Some z, Some w => Some (4096 * x + 256 * y + 16 * z + w)%Z
  | _, _, _, _ => None
  end.

Definition is_high_surrogate (u : Z) : bool := (55296 <=? u)%Z && (u <=? 56319)%Z.
Definition is_low_surrogate (u : Z) : bool := (56320 <=? u)%Z && (u <=? 57343)%Z.

Definition simple_escape (c : ascii) : option ascii :=
  match c with
  | "034"%char => Some dquote
  | "092"%char => Some backslash
  | "/"%char => Some "/"%char
  | "b"%char => Some "008"%char
  | "f"%char => Some "012"%char
  | "n"%char => Some "010"%char
  | "r"%char => Some "013"%char
  | "t"%char => Some "009"%char
  | _ => None
  end.

Definition cons_token (t : token) (rest : option (list token)) :=
  option_map (cons t) rest.

(** [lex pending s]: the tokens of [s], where [pending] holds the number
    characters read so far.  [lex_string acc s]: [s] continues a string
    literal whose bytes so far are [acc] (in reverse). *)
Fixpoint lex (pending : list ascii) (s : string) {struct s} : option (list token) :=
  match s with
  | EmptyString => flush pending (Some [])
  | String c s' =>
      if is_number_char c then lex (c :: pending) s'
      else flush pending
        match c with
        | "["%char => cons_token TLBracket (lex [] s')
        | "]"%char => cons_token TRBracket (lex [] s')
        | "{"%char => cons_token TLBrace (lex [] s')
        | "}"%char => cons_token TRBrace (lex [] s')
        | ","%char => cons_token TComma (lex [] s')
        | ":"%char => cons_token TColon (lex [] s')
        | "034"%char => lex_string [] s'
        | "t"%char =>
            match s' with
            | String "r" (String "u" (String "e" s'')) => cons_token TTrue (lex [] s'')
            | _ => None
            end
        | "f"%char =>
            match s' with
            | String "a" (String "l" (String "s" (String "e" s''))) =>
                cons_token TFalse (lex [] s'')
            | _ => None
            end
        | "n"%char =>
            match s' with
            | String "u" (String "l" (String "l" s'')) => cons_token TNull (lex [] s'')
            | _ => None
            end
        | _ => if is_json_space c then lex [] s' else None
        end
  end
with lex_string (acc : list ascii) (s : string) {struct s} : option (list token) :=
  match s with
  | EmptyString => None
  | String c s' =>
      if (c =? dquote)%char then
        cons_token (TString (string_of_chars (rev acc))) (lex [] s')
      else if (c =? backslash)%char then
        match s' with
        | String "u" (String h1 (String h2 (String h3 (String h4 s'')))) =>
            match hex4 h1 h2 h3 h4 with
            | None => None
            | Some hi =>
                let single := lex_string (rev (utf8 hi) ++ acc)%list s'' in
                if is_high_surrogate hi then
                  match s'' with
                  | String "092" (String "u" (String l1 (String l2 (String l3 (String l4 s3))))) =>
                      match hex4 l1 l2 l3 l4 with
                      | Some lo =>
                          if is_low_surrogate lo then
                            lex_string
                              (rev (utf8 (65536 + 1024 * (hi - 55296) + (lo - 56320))%Z)
                                 ++ acc)%list s3
                          else single
                      | None => single
                      end
                  | _ => single
                  end
                else single
            end
        | String e s'' =>
            match simple_escape e with
            | Some b => lex_string (b :: acc) s''
            | None => None
            end
        | EmptyString => None
        end
      else if (nat_of_ascii c <? 32)%nat then None
      else lex_string (c :: acc) s'
  end.

(** *** The grammar over tokens *)

Inductive frame :=
| FArr (done : list value)
| FObj (done : list (string * value)) (key : string).

Inductive pstate :=
| PValue (k : list frame)
| PArrFirst (k : list frame)
| PArrAfter (done : list value) (k : list frame)
| PObjFirst (k : list frame)
| PObjKey (done : list (string * value)) (k : list frame)
| PObjColon (done : list (string * value)) (key : string) (k : list frame)
| PObjAfter (done : list (string * value)) (k : list frame)
| PDone (v : value).

(** A value is complete: it goes into the enclosing container. *)
Definition complete (v : value) (k : list frame) : pstate :=
  match k with
  | [] => PDone v
  | FArr done :: k' => PArrAfter (v :: done) k'
  | FObj done key :: k' => PObjAfter ((key, v) :: done) k'
  end.

Definition value_step (k : list frame) (t : token) : option pstate :=
  match t with
  | TLBracket => Some (PArrFirst k)
  | TLBrace => Some (PObjFirst k)
  | TString s => Some (complete (VStr s) k)
  | TNumber m e => Some (complete (VNum m e) k)
  | TTrue => Some (complete (VBool true) k)
  | TFalse => Some (complete (VBool false) k)
  | TNull => Some (complete VNull k)
  | TRBracket | TRBrace | TComma | TColon => None
  end.

Definition pstep (st : pstate) (t : token) : option pstate :=
  match st, t with
  | PValue k, _ => value_step k t
  | PArrFirst k, TRBracket => Some (complete (VArr []) k)
  | PArrFirst k, _ => value_step (FArr [] :: k) t
  | PArrAfter done k, TComma => Some (PValue (FArr done :: k))
  | PArrAfter done k, TRBracket => Some (complete (VArr (rev done)) k)
  | PObjFirst k, TRBrace => Some (complete (VObj []) k)
  | PObjFirst k, TString key => Some (PObjColon [] key k)
  | PObjKey done k, TString key => Some (PObjColon done key k)
  | PObjColon done key k, TColon => Some (PValue (FObj done key :: k))
  | PObjAfter done k, TComma => Some (PObjKey done k)
  | PObjAfter done k, TRBrace => Some (complete (VObj (rev done)) k)
  | _, _ => None
  end.

Fixpoint prun (st : pstate) (ts : list token) : option pstate :=
  match ts with
  | [] => Some st
  | t :: ts' =>
      match pstep st t with
      | Some st' => prun st' ts'
      | None => None
      end
  end.

(** [JSON.parse(text)]; [None] when it throws. *)
Definition JSON_parse (text : string) : option value :=
  match lex [] text with
  | Some ts =>
      match prun (PValue []) ts with
      | Some (PDone v) => Some v
      | _ => None
      end
  | None => None
  end.

(** ** String built-ins *)

(** [s.trimStart()]: drops the leading WhiteSpace and LineTerminator
    characters of ECMA-262, read off their UTF-8 bytes. *)
Fixpoint trimStart (s : string) : string :=
  match s with
  | EmptyString => EmptyString
  | String c s1 =>
      match nat_of_ascii c with
      | 9 | 10 | 11 | 12 | 13 | 32 => trimStart s1
      | 194 => (* U+00A0 *)
          match s1 with
          | String "160" s2 => trimStart s2
          | _ => s
          end
      | 225 => (* U+1680 *)
          match s1 with
          | String "154" (String "128" s3) => trimStart s3
          | _ => s
          end
      | 226 => (* U+2000..U+200A, U+2028, U+2029, U+202F, U+205F *)
          match s1 with
          | String "128" (String d s3) =>
              let n := nat_of_ascii d in
              if ((128 <=? n)%nat && (n <=? 138)%nat)
                 || (n =? 168)%nat || (n =? 169)%nat || (n =? 175)%nat
              then trimStart s3 else s
          | String "129" (String "159" s3) => trimStart s3
          | _ => s
          end
      | 227 => (* U+3000 *)
          match s1 with
          | String "128" (String "128" s3) => trimStart s3
          | _ => s
          end
      | 239 => (* U+FEFF *)
          match s1 with
          | String "187" (String "191" s3) => trimStart s3
          | _ => s
          end
      | _ => s
      end
  end.

(** [s.trim() === '']: nothing is left once the leading white space is
    gone. *)
Definition blank (s : string) : bool := trimStart s =? "".

(** The regular expression [/\[[\s\S]*\]/] of [content.match], as a
    backtracking matcher runs it.  [star_then_close r] is the tail
    [[\s\S]*\]] at [r]: the star first takes the next character and only
    when the rest then fails does it stop and ask for the bracket. *)
Fixpoint star_then_close (r : string) : option string :=
  match r with
  | EmptyString => None
  | String c r' =>
      match star_then_close r' with
      | Some m => Some (String c m)
      | None => if (c =? "]")%char then Some "]" else None
      end
  end.

Definition match_here (s : string) : option string :=
  match s with
  | String "[" r => option_map (String "[") (star_then_close r)
  | _ => None
  end.

(** [content.match(/\[[\s\S]*\]/)]: the match at the leftmost position
    that has one ([jsonMatch[0]]), or [None] for [null]. *)
Fixpoint match_array (s : string) : option string :=
  match match_here s with
  | Some m => Some m
  | None =>
      match s with
      | EmptyString => None
      | String _ s' => match_array s'
      end
  end.

(** [hay.includes(needle)] *)
Fixpoint contains (needle hay : string) : bool :=
  String.prefix needle hay ||
  match hay with
  | EmptyString => false
  | String _ hay' => contains needle hay'
  end.

(** [c] occurs in [s]. *)
Fixpoint has_char (c : ascii) (s : string) : bool :=
  match s with
  | EmptyString => false
  | String d s' => (d =? c)%char || has_char c s'
  end.

(** [Z] in decimal, as a template literal prints an integer. *)
Definition string_of_Z (n : Z) : string := NilEmpty.string_of_int (Z.to_int n).

(** ** The request bodies

    Fields as the API's data model has them: JSON strings, or absent
    ([None] is [undefined]).  [postCount] may be a number written as an
    integer, or a string such as a form field sends.  Fields of other
    JSON types are outside the model. *)

Record PropertyFields := {
  propertyType : option string;
  rooms : option string;
  bathrooms : option string;
  size : option string;
  location : option string;
  features : option string;
  style : option string
}.

Inductive CountField :=
| CountNumber (n : Z)
| CountString (s : string).

Record ContentBody := {
  businessType : option string;
  businessDesc : option string;
  tone : option string;
  network : option string;
  postCount : option CountField
}.

(** The argument of [buildContentPrompt]: the body's fields with
    [postCount: count]. *)
Record ContentFields := {
  cf_businessType : option string;
  cf_businessDesc : option string;
  cf_tone : option string;
  cf_network : option string;
  cf_postCount : Z
}.

(** ToBoolean of a field: [undefined] and [''] are falsy. *)
Definition present (f : option string) : bool :=
  match f with
  | Some s => negb (s =? "")
  | None => false
  end.

(** [${f}] *)
Definition show (f : option string) : string :=
  match f with
  | Some s => s
  | None => "undefined"
  end.

(** [${f || d}] *)
Definition show_or (f : option string) (d : string) : string :=
  if present f then show f else d.

(** *** Numbers

    The Numbers that [parseInt] and [Math.min] handle here are whole or
    infinite.  A whole double is modelled by the integer it equals, and
    [infinity] and [- infinity], which no double equals, stand for
    Infinity and -Infinity. *)

Definition infinity : Z := 2 ^ 1024.

(** The double nearest to the integer [n], ties to even: the 53 leading
    bits are kept and the rest rounds them; a result of 2^1024 or more
    is Infinity. *)
Definition to_double (n : Z) : Z :=
  let a := Z.abs n in
  if (a <? 2 ^ 53)%Z then n
  else
    let shift := (Z.log2 a - 52)%Z in
    let q := Z.shiftr a shift in
    let r := (a - Z.shiftl q shift)%Z in
    let half := Z.shiftl 1 (shift - 1) in
    let q' := if (half <? r)%Z || ((r =? half)%Z && Z.odd q) then (q + 1)%Z else q in
    (Z.sgn n * Z.min (Z.shiftl q' shift) infinity)%Z.

(** The decimal with the fewest digits that reads back as the double
    [a] (a positive whole one): for 1, 2, ... significant digits, the
    two multiples of [p] (the weight of the last digit kept) around [a]
    are tried; of two that fit, the closer one is taken, the even one
    when they are as close. *)
Fixpoint shortest (fuel : nat) (a p : Z) : Z :=
  let lo := (a / p * p)%Z in
  let hi := (lo + p)%Z in
  let lo_fits := (to_double lo =? a)%Z in
  let hi_fits := (to_double hi =? a)%Z in
  if lo_fits && hi_fits then
    if (a - lo <? hi - a)%Z then lo
    else if (hi - a <? a - lo)%Z then hi
    else if Z.even (a / p) then lo else hi
  else if lo_fits then lo
  else if hi_fits then hi
  else
    match fuel with
    | O => a
    | S fuel' => shortest fuel' a (p / 10)
    end.

Fixpoint strip_zeros (digits : list ascii) : list ascii :=
  match digits with
  | [] => []
  | c :: l =>
      match strip_zeros l with
      | [] => if (c =? "0")%char then [] else [c]
      | l' => c :: l'
      end
  end.

(** Number::toString of a whole or infinite Number: the digits of
    [shortest], written out when there are at most 21 of them and in
    exponent form ([1e+21], [1.5e+21]) beyond. *)
Definition number_text (d : Z) : string :=
  let a := Z.abs d in
  let sign := if (d <? 0)%Z then "-" else "" in
  if (infinity <=? a)%Z then sign ++ "Infinity"
  else if (a <? 2 ^ 53)%Z then string_of_Z d
  else
    let len := String.length (string_of_Z a) in
    let digits := string_of_Z (shortest len a (10 ^ (Z.of_nat len - 1))) in
    if (String.length digits <=? 21)%nat then sign ++ digits
    else
      match strip_zeros (list_ascii_of_string digits) with
      | [] => sign ++ digits
      | [c] =>
          sign ++ String c ("e+" ++ string_of_Z (Z.of_nat (String.length digits) - 1))
      | c :: l =>
          sign ++ String c ("." ++ string_of_chars l ++ "e+"
                            ++ string_of_Z (Z.of_nat (String.length digits) - 1))
      end.

(** *** parseInt *)

Fixpoint leading_value (radix : Z) (acc : option Z) (s : string) : option Z :=
  match s with
  | EmptyString => acc
  | String c s' =>
      match hex_value c with
      | Some d =>
          if (d <? radix)%Z then
            leading_value radix
              (Some (radix * (match acc with Some a => a | None => 0 end) + d)%Z) s'
          else acc
      | None => acc
      end
  end.

(** [parseInt(s)] with no radix: leading white space, a sign, an
    optional [0x], then the longest run of digits, whose value is
    returned as a Number; [None] is NaN. *)
Definition parseInt_string (s : string) : option Z :=
  let s0 := trimStart s in
  let '(neg, s1) :=
    match s0 with
    | String "-" r => (true, r)
    | String "+" r => (false, r)
    | _ => (false, s0)
    end in
  let magnitude :=
    match s1 with
    | String "0" (String "x" r) | String "0" (String "X" r) => leading_value 16 None r
    | _ => leading_value 10 None s1
    end in
  option_map (fun n => to_double (if neg then (- n)%Z else n)) magnitude.

(** [parseInt(postCount)]: the argument is first turned into a string.
    A number of the body is the double nearest to what the body wrote;
    [undefined] prints as a word and gives NaN. *)
Definition parseInt (v : option CountField) : option Z :=
  match v with
  | None => None
  | Some (CountNumber n) => parseInt_string (number_text (to_double n))
  | Some (CountString s) => parseInt_string s
  end.

(** [Math.min(parseInt(postCount) || 5, 30)] *)
Definition count_of (v : option CountField) : Z :=
  Z.min (match parseInt v with
         | Some n => if (n =? 0)%Z then 5 else n
         | None => 5
         end) 30.

(** ** Helpers of server.js *)

(** Property access on an object literal with string values:
    [table[key]].  A key the literal lacks is looked up on
    [Object.prototype]; what is found there is a function (or, for
    [__proto__], the prototype object), truthy, and printed by a
    template literal as Node prints it. *)
Definition object_prototype_member (key : string) : option string :=
  if key =? "__proto__" then Some "[object Object]"
  else if key =? "constructor" then Some "function Object() { [native code] }"
  else if existsb (String.eqb key)
            ["toString"; "toLocaleString"; "valueOf"; "hasOwnProperty";
             "isPrototypeOf"; "propertyIsEnumerable"; "__defineGetter__";
             "__defineSetter__"; "__lookupGetter__"; "__lookupSetter__"]
  then Some ("function " ++ key ++ "() { [native code] }")
  else None.

Fixpoint own_property (table : list (string * string)) (key : string) : option string :=
  match table with
  | [] => None
  | (k, v) :: table' => if k =? key then Some v else own_property table' key
  end.

Definition lookup_phrase (table : list (string * string)) (key : option string)
  : option string :=
  match own_property table (show key) with
  | Some v => Some v
  | None => object_prototype_member (show key)
  end.

(** [${table[key] || fallback}]: the table's phrases and the prototype's
    members are all truthy. *)
Definition phrase_or (table : list (string * string)) (key : option string)
    (fallback : string) : string :=
  match lookup_phrase table key with
  | Some v => v
  | None => fallback
  end.

Definition styleDescriptions : list (string * string) :=
  [("profesional", "formal y profesional");
   ("emocional", "emotivo y que conecte con el comprador");
   ("minimalista", "conciso y elegante");
   ("detallado", "muy detallado y exhaustivo")].

Definition buildPropertyPrompt (data : PropertyFields) : string :=
  "Genera una descripción atractiva para esta propiedad:

Tipo: " ++ show (propertyType data) ++ "
Habitaciones: " ++ show_or (rooms data) "No especificado" ++ "
Baños: " ++ show_or (bathrooms data) "No especificado" ++ "
Tamaño: " ++ show_or (size data) "No especificado" ++ " m²
Ubicación: " ++ show (location data) ++ "
Características: " ++ show_or (features data) "No especificadas" ++ "
Estilo de escritura: " ++ phrase_or styleDescriptions (style data) "profesional" ++ "

Escribe una descripción de 100-150 palabras que destaque los beneficios y genere interés.".

Definition toneDescriptions : list (string * string) :=
  [("profesional", "formal y profesional, enfocado en expertise");
   ("cercano", "amigable y cercano, como un amigo");
   ("inspiracional", "motivador e inspiracional");
   ("humoristico", "con humor ligero y entretenido");
   ("educativo", "informativo y educativo")].

Definition networkFormats : list (string * string) :=
  [("instagram", "posts visuales con 3-5 hashtags, máximo 150 palabras");
   ("facebook", "posts conversacionales, 1-3 hashtags");
   ("linkedin", "contenido profesional y de valor");
   ("twitter", "tweets de máximo 280 caracteres");
   ("tiktok", "descripciones cortas y llamativas")].

(** [table.key] for a key the literal has. *)
Definition member (table : list (string * string)) (key : string) : string :=
  match own_property table key with
  | Some v => v
  | None => "undefined"
  end.

Definition buildContentPrompt (data : ContentFields) : string :=
  "Genera " ++ number_text (cf_postCount data) ++ " posts para redes sociales:

Negocio: " ++ show (cf_businessType data) ++ "
" ++ (if present (cf_businessDesc data)
      then "Descripción: " ++ show (cf_businessDesc data) else "") ++ "
Tono: " ++ phrase_or toneDescriptions (cf_tone data) (member toneDescriptions "profesional") ++ "
Red social: " ++ show (cf_network data) ++ " ("
  ++ phrase_or networkFormats (cf_network data) (member networkFormats "instagram") ++ ")

Requisitos:
- Posts únicos y variados
- Emojis apropiados
- Mezcla tipos: tips, preguntas, promociones, behind the scenes
- Hashtags relevantes
- Español chileno/latinoamericano

Responde SOLO con el JSON array.".

Definition post (content : string) (hashtags : list string) : value :=
  VObj [("content", VStr content); ("hashtags", VArr (map VStr hashtags))].

(** [list.slice(0, count)] for an integer [count]. *)
Definition slice0 {A} (l : list A) (count : Z) : list A :=
  let len := Z.of_nat (length l) in
  let final := if (count <? 0)%Z then Z.max (len + count) 0 else Z.min count len in
  firstn (Z.to_nat final) l.

Definition generateFallbackPosts (businessType : string) (count : Z) : list value :=
  let templates :=
    [post ("✨ ¿Sabías que " ++ businessType ++ " puede transformar tu día? Descubre cómo 👆")
          ["#Emprendimiento"; "#Chile"];
     post ("🔥 ¡Nuevo en " ++ businessType ++ "! Estamos emocionados de compartir esto contigo 💯")
          ["#Novedades"; "#Tendencias"];
     post "💡 CONSEJO DEL DÍA: Un pequeño cambio puede hacer una gran diferencia 🙌"
          ["#Tips"; "#Consejos"];
     post ("📸 Behind the scenes de " ++ businessType ++ " ✨ Con pasión y dedicación ❤️")
          ["#BehindTheScenes"; "#Trabajo"];
     post "🎉 ¡GRACIAS por ser parte de nuestra comunidad! 🙏"
          ["#Comunidad"; "#Gracias"]] in
  slice0 templates count.

(** ** Responses *)

(** What the client receives: the status, and the body read back as
    JSON.  [VUndefined] is a reply without a body. *)
Record Response := { res_status : Z; res_body : value }.

(** A decimal [m * 10^e] is beyond the doubles, and read as Infinity,
    from [2^1024 - 2^970] on: half way from the largest double to
    2^1024. *)
Definition number_overflows (m e : Z) : bool :=
  let limit := (2 ^ 1024 - 2 ^ 970)%Z in
  if (0 <=? e)%Z then (limit <=? Z.abs m * 10 ^ e)%Z
  else (limit * 10 ^ (- e) <=? Z.abs m)%Z.

(** [JSON.stringify], seen from the reader's side: a number that is
    not finite is written [null] and a zero of either sign [0], a
    property whose value is [undefined] is left out, and [undefined] in
    an array is written [null]. *)
Fixpoint wire (v : value) : value :=
  match v with
  | VNum m e =>
      if number_overflows m e then VNull
      else if number_is_zero m e then VNum 0 0
      else v
  | VArr items =>
      VArr (map (fun x => match wire x with VUndefined => VNull | w => w end) items)
  | VObj props =>
      VObj ((fix wire_props (ps : list (string * value)) : list (string * value) :=
               match ps with
               | [] => []
               | (k, x) :: ps' =>
                   match wire x with
                   | VUndefined => wire_props ps'
                   | w => (k, w) :: wire_props ps'
                   end
               end) props)
  | _ => v
  end.

(** The status codes with which the server writes no body. *)
Definition no_body (status : Z) : bool :=
  ((100 <=? status)%Z && (status <=? 199)%Z) || (status =? 204)%Z || (status =? 304)%Z.

(** The status codes a response can be written with: three digits.
    With another one the server throws a [RangeError] where the
    response is about to be written. *)
Definition writable (status : Z) : bool := (100 <=? status)%Z && (status <=? 999)%Z.

(** [res.status(status).json(body)], for a status that can be
    written. *)
Definition json (status : Z) (body : list (string * value)) : Response :=
  {| res_status := status;
     res_body := if no_body status then VUndefined else wire (VObj body) |}.

(** A field of a response body, [VUndefined] when it has none of that
    name. *)
Definition field (name : string) (r : Response) : value :=
  match res_body r with
  | VObj props =>
      match find (fun p => fst p =? name) props with
      | Some p => snd p
      | None => VUndefined
      end
  | _ => VUndefined
  end.

(** ** The upstream *)

Record ChatMessage := { role : string; content : string }.

(** What a [fetch] of the handlers sends: the endpoint, the model and
    the messages (the fixed headers, [max_tokens] and [temperature] play
    no part in what the handlers do next). *)
Record Call := {
  call_url : string;
  call_model : string;
  call_messages : list ChatMessage
}.

(** How a [fetch] ends: the promise rejects (network failure, abort),
    or a response arrives with its status and its body text. *)
Inductive FetchResult :=
| FetchRejects (e : Exn)
| FetchResponds (status : Z) (text : string).

(** [response.ok] *)
Definition ok (status : Z) : bool := (200 <=? status)%Z && (status <=? 299)%Z.

(** The world a handler runs in: the upstream behind [fetch], and the
    message texts of the engine's own exceptions. *)
Record Env := {
  net : Call -> FetchResult;
  engine_message : EngineError -> string
}.

Definition engine_throws {A} (env : Env) (e : EngineError) : Result A :=
  throw (mkExn (engine_error_name e) (engine_message env e)).

(** A handler's effect on the upstream is the list of calls it made, in
    order. *)
Definition IO (A : Type) : Type := list Call -> A * list Call.

Definition io_ret {A} (a : A) : IO A := fun log => (a, log).
Definition io_bind {A B} (m : IO A) (k : A -> IO B) : IO B :=
  fun log => let '(a, log') := m log in k a log'.
Definition fetch (env : Env) (c : Call) : IO FetchResult :=
  fun log => (net env c, (log ++ [c])%list).

(** Runs a handler from an empty log. *)
Definition run {A} (m : IO A) : A * list Call := m [].

Notation "'do' x <- m ; k" := (io_bind m (fun x => k))
  (at level 10, x name, m at level 100, k at level 200, only parsing).

(** ** Property access *)

(** An object's own property; [JSON.parse] keeps the last of two equal
    keys. *)
Fixpoint own_prop (props : list (string * value)) (key : string) : value :=
  match props with
  | [] => VUndefined
  | (k, v) :: props' =>
      match own_prop props' key with
      | VUndefined => if k =? key then v else VUndefined
      | later => later
      end
  end.

(** [base.key] for the names the handlers read ([choices], [message],
    [content], [error]): none of them is inherited from a prototype, so
    on an array, a string, a number or a boolean the result is
    [undefined]. *)
Definition get (env : Env) (base : value) (key : string) : Result value :=
  match base with
  | VUndefined | VNull => engine_throws env (PropertyOfNullish base key)
  | VObj props => ret (own_prop props key)
  | _ => ret VUndefined
  end.

(** [base[0]] *)
Definition get0 (env : Env) (base : value) : Result value :=
  match base with
  | VUndefined | VNull => engine_throws env (PropertyOfNullish base "0")
  | VObj props => ret (own_prop props "0")
  | VArr (v :: _) => ret v
  | VStr (String c _) => ret (VStr (String c EmptyString))
  | _ => ret VUndefined
  end.

(** [base?.key] *)
Definition get_opt (base : value) (key : string) : value :=
  match base with
  | VObj props => own_prop props key
  | _ => VUndefined
  end.

(** [data.choices[0]?.message?.content || ''] *)
Definition choice_content (env : Env) (data : value) : Result value :=
  let* choices := get env data "choices" in
  let* first := get0 env choices in
  ret (js_or (get_opt (get_opt first "message") "content") (VStr "")).

(** [response.json()] *)
Definition response_json (env : Env) (text : string) : Result value :=
  match JSON_parse text with
  | Some v => ret v
  | None => engine_throws env (JSONSyntaxError text)
  end.

(** The two lines that read a 2xx reply:
<<
    const data = await response.json();
    ... = data.choices[0]?.message?.content || '';
>> *)
Definition read_content (env : Env) (text : string) : Result value :=
  let* data := response_json env text in
  choice_content env data.

(** The error text as a value: a string or, in the loop over the
    models, [null]. *)
Definition error_text_value (errorText : option string) : value :=
  match errorText with
  | Some s => VStr s
  | None => VNull
  end.

(** [try { errorJson = JSON.parse(errorText); } catch (e) { errorJson = { message: errorText }; }];
    [JSON.parse(null)] reads the word and yields [null]. *)
Definition parse_error_json (errorText : option string) : value :=
  match errorText with
  | Some s =>
      match JSON_parse s with
      | Some v => v
      | None => VObj [("message", VStr s)]
      end
  | None => VNull
  end.

(** The [details] of the OpenRouter error reports:
    [errorJson.error?.message || errorJson.message || errorText]. *)
Definition error_details (env : Env) (errorText : option string) : Result value :=
  let errorJson := parse_error_json errorText in
  let* e := get env errorJson "error" in
  let* m := get env errorJson "message" in
  ret (js_or (js_or (get_opt e "message") m) (error_text_value errorText)).

(** The [catch] that closes every route handler. *)
Definition internal_error (e : Exn) : Response :=
  json 500 [("error", VStr "Error interno del servidor");
            ("details", VStr (exn_message e))].

Definition success (key : string) (v : value) : Response :=
  json 200 [("success", VBool true); (key, v)].

(** [posts.length === 0] and [posts.length > 0] on whatever [posts]
    holds. *)
Definition length_is_zero (v : value) : bool :=
  match v with
  | VArr [] | VStr EmptyString => true
  | _ => false
  end.

Definition length_is_positive (v : value) : bool :=
  match v with
  | VArr (_ :: _) | VStr (String _ _) => true
  | _ => false
  end.

(** The [try] block around the parse:
<<
    const jsonMatch = content.match(/\[[\s\S]*\]/);
    if (jsonMatch) { posts = JSON.parse(jsonMatch[0]); }
>>
    [inr None]: nothing matched and [posts] keeps its value. *)
Definition parse_posts (env : Env) (content : value) : Result (option value) :=
  match content with
  | VStr s =>
      match match_array s with
      | Some span =>
          match JSON_parse span with
          | Some v => ret (Some v)
          | None => engine_throws env (JSONSyntaxError span)
          end
      | None => ret None
      end
  | _ => engine_throws env (NotAFunction "content.match")
  end.

(** The prompts sent as the system message. *)
Definition property_system_prompt : string :=
  "Eres un experto copywriter inmobiliario chileno. Tu trabajo es crear descripciones atractivas y profesionales para propiedades en venta o arriendo. Usa un lenguaje persuasivo pero natural, destaca los beneficios y crea una conexión emocional con el comprador potencial. Incluye emojis apropiados pero no exageres. Escribe en español chileno.".

(** The template's continuation lines are indented as the handler that
    holds it is. *)
Definition content_system_prompt (indent : string) : string :=
  "Eres un experto en marketing de redes sociales y community management. 
" ++ indent ++ "Creas contenido atractivo, con emojis apropiados y hashtags relevantes en español.
" ++ indent ++ "Cada post debe ser único y variado en formato (pregunta, consejo, historia, promoción, etc.).
" ++ indent ++ dq "Responde SOLO con un JSON array de objetos con formato: [{'content': 'texto del post', 'hashtags': ['#tag1', '#tag2']}]".

Definition chat (system user : string) : list ChatMessage :=
  [{| role := "system"; content := system |}; {| role := "user"; content := user |}].

Definition content_fields (body : ContentBody) (count : Z) : ContentFields :=
  {| cf_businessType := businessType body;
     cf_businessDesc := businessDesc body;
     cf_tone := tone body;
     cf_network := network body;
     cf_postCount := count |}.

Definition missing_property_fields : Response :=
  json 400 [("error", VStr "Faltan campos requeridos (propertyType, location)")].

Definition missing_business_type : Response :=
  json 400 [("error", VStr "Falta el tipo de negocio (businessType)")].

(** [for (const x of items) { body }] over a state, where the body says
    whether it ended in [break]. *)
Fixpoint for_of {A S} (items : list A) (body : A -> S -> IO (S * bool)) (st : S)
  : IO S :=
  match items with
  | [] => io_ret st
  | x :: rest =>
      do r <- body x st;
      if snd r then io_ret (fst r) else for_of rest body (fst r)
  end.

(** [s.substring(0, n)], counted in UTF-16 code units as the engine
    does: a four-byte character is two units, and a cut between them
    leaves its high surrogate. *)
Fixpoint substring0 (n : nat) (s : string) : string :=
  match n, s with
  | S n', String c s1 =>
      let b := nat_of_ascii c in
      if (b <? 192)%nat then String c (substring0 n' s1)
      else if (b <? 224)%nat then
        match s1 with
        | String c2 s2 => String c (String c2 (substring0 n' s2))
        | _ => s
        end
      else if (b <? 240)%nat then
        match s1 with
        | String c2 (String c3 s3) => String c (String c2 (String c3 (substring0 n' s3)))
        | _ => s
        end
      else
        match s1 with
        | String c2 (String c3 (String c4 s4)) =>
            match n' with
            | S n'' =>
                String c (String c2 (String c3 (String c4 (substring0 n'' s4))))
            | O =>
                let cp := (262144 * (Z.of_nat b - 240)
                           + 4096 * (Z.of_nat (nat_of_ascii c2) - 128)
                           + 64 * (Z.of_nat (nat_of_ascii c3) - 128)
                           + (Z.of_nat (nat_of_ascii c4) - 128))%Z in
                string_of_chars (utf8 (55296 + (cp - 65536) / 1024)%Z)
            end
        | _ => s
        end
  | _, _ => EmptyString
  end.

(** ** server.js, single-model revision (src/server.js, first part) *)

Module OpenRouter.
Section Handlers.
Context (env : Env).

Definition OPENROUTER_API : string := "https://openrouter.ai/api/v1/chat/completions".

Definition call (system prompt : string) : Call :=
  {| call_url := OPENROUTER_API;
     call_model := "google/gemma-7b-it:free";
     call_messages := chat system prompt |}.

(** The [fetch] of the property route. *)
Definition property_call (body : PropertyFields) : Call :=
  call property_system_prompt (buildPropertyPrompt body).

(** The [fetch] of the content route. *)
Definition content_call (body : ContentBody) : Call :=
  call (content_system_prompt "                        ")
       (buildContentPrompt (content_fields body (count_of (postCount body)))).

(** The [if (!response.ok)] branch.  The status is the upstream's; one
    that cannot be written makes [res.status(...).json(...)] throw, and
    the [catch] answers. *)
Definition upstream_error (status : Z) (errorText : string) : Response :=
  match error_details env (Some errorText) with
  | inr details =>
      if writable status then
        json status [("error", VStr "Error de OpenRouter"); ("details", details)]
      else
        internal_error (mkExn "RangeError" (engine_message env (InvalidStatusCode status)))
  | inl e => internal_error e
  end.

(** [app.post('/api/propiedadia/generate', ...)] *)
Definition propiedadia_generate (body : PropertyFields) : IO Response :=
  if negb (present (propertyType body)) || negb (present (location body)) then
    io_ret missing_property_fields
  else
    do r <- fetch env (property_call body);
    io_ret
      match r with
      | FetchRejects e => internal_error e
      | FetchResponds status text =>
          if negb (ok status) then upstream_error status text
          else
            match read_content env text with
            | inr description => success "description" description
            | inl e => internal_error e
            end
      end.

(** [app.post('/api/contenidoia/generate', ...)] *)
Definition contenidoia_generate (body : ContentBody) : IO Response :=
  if negb (present (businessType body)) then io_ret missing_business_type
  else
    let count := count_of (postCount body) in
    do r <- fetch env (content_call body);
    io_ret
      match r with
      | FetchRejects e => internal_error e
      | FetchResponds status text =>
          if negb (ok status) then upstream_error status text
          else
            match read_content env text with
            | inr content =>
                success "posts"
                  match parse_posts env content with
                  | inr (Some posts) => posts
                  | inr None => VArr []
                  | inl _ =>
                      VArr (generateFallbackPosts (show (businessType body)) count)
                  end
            | inl e => internal_error e
            end
      end.

End Handlers.
End OpenRouter.

(** ** server.js, revision with the model list (in src/README.md) *)

Module Fallback.
Section Handlers.
Context (env : Env).

Definition OPENROUTER_API : string := "https://openrouter.ai/api/v1/chat/completions".

Definition models : list string :=
  ["meta-llama/llama-3.1-8b-instruct:free";
   "mistralai/mistral-7b-instruct:free";
   "google/gemma-7b-it:free";
   "meta-llama/llama-3-8b-instruct:free"].

Definition call (system prompt modelId : string) : Call :=
  {| call_url := OPENROUTER_API;
     call_model := modelId;
     call_messages := chat system prompt |}.

(** The [fetch] of the property loop for one model. *)
Definition property_call (body : PropertyFields) (modelId : string) : Call :=
  call property_system_prompt (buildPropertyPrompt body) modelId.

(** The [fetch] of the content loop for one model. *)
Definition content_call (body : ContentBody) (modelId : string) : Call :=
  call (content_system_prompt "                                ")
       (buildContentPrompt (content_fields body (count_of (postCount body)))) modelId.

(** The loop's variables: [lastError] ([None] is [null]) and the
    result, [description] or [posts]. *)
Definition LoopState : Type := option string * value.

(** One turn of the property loop. *)
Definition try_property (body : PropertyFields) (modelId : string) (st : LoopState)
  : IO (LoopState * bool) :=
  let '(lastError, description) := st in
  do r <- fetch env (property_call body modelId);
  io_ret
    match r with
    | FetchRejects err => ((Some (exn_message err), description), false)
    | FetchResponds status text =>
        if ok status then
          match read_content env text with
          | inr d => ((lastError, d), truthy d)
          | inl err => ((Some (exn_message err), description), false)
          end
        else ((Some text, description), false)
    end.

(** The report once the list is used up. *)
Definition exhausted (lastError : option string) : Response :=
  match error_details env lastError with
  | inr details =>
      json 500 [("error", VStr "Error de IA (Agotado)"); ("details", details)]
  | inl e => internal_error e
  end.

Definition propiedadia_generate (body : PropertyFields) : IO Response :=
  if negb (present (propertyType body)) || negb (present (location body)) then
    io_ret missing_property_fields
  else
    do st <- for_of models (try_property body) (None, VStr "");
    let '(lastError, description) := st in
    io_ret (if negb (truthy description) then exhausted lastError
            else success "description" description).

(** One turn of the content loop. *)
Definition try_content (body : ContentBody) (modelId : string) (st : LoopState)
  : IO (LoopState * bool) :=
  let '(lastError, posts) := st in
  do r <- fetch env (content_call body modelId);
  io_ret
    match r with
    | FetchRejects err => ((Some (exn_message err), posts), false)
    | FetchResponds status text =>
        if ok status then
          match read_content env text with
          | inr content =>
              if truthy content then
                match parse_posts env content with
                | inr (Some parsed) => ((lastError, parsed), length_is_positive parsed)
                | inr None => (st, false)
                | inl _ => (st, false)
                end
              else (st, false)
          | inl err => ((Some (exn_message err), posts), false)
          end
        else ((Some text, posts), false)
    end.

Definition contenidoia_generate (body : ContentBody) : IO Response :=
  if negb (present (businessType body)) then io_ret missing_business_type
  else
    do st <- for_of models (try_content body) (None, VArr []);
    let '(lastError, posts) := st in
    io_ret (if length_is_zero posts then exhausted lastError
            else success "posts" posts).

End Handlers.
End Fallback.

(** ** server.js, Inaia revision (src/server.js, second part) *)

Module Inaia.
Section Handlers.
Context (env : Env).

Definition INAIA_API_URL : string := "https://inaia.vercel.app/api/chat".

(** The [catch] of [callInaiaAPI]: an abort becomes the timeout error,
    anything else is thrown again. *)
Definition rethrow {A} (r : Result A) : Result A :=
  match r with
  | inl error =>
      if exn_name error =? "AbortError"
      then throw (Error "Timeout: Inaia API no respondió en 30 segundos")
      else throw error
  | inr a => ret a
  end.

Definition callInaiaAPI (messages : list ChatMessage) (model : string)
  : IO (Result string) :=
  do r <- fetch env
       {| call_url := INAIA_API_URL; call_model := model; call_messages := messages |};
  io_ret
    (rethrow
       match r with
       | FetchRejects e => throw e
       | FetchResponds status text =>
           if negb (ok status) then
             throw (Error ("Inaia API error (" ++ string_of_Z status ++ "): " ++ text))
           else if blank text then throw (Error "Inaia returned empty response")
           else ret text
       end).

(** What [callInaiaAPI] sends. *)
Definition call (messages : list ChatMessage) (model : string) : Call :=
  {| call_url := INAIA_API_URL; call_model := model; call_messages := messages |}.

Definition property_call (body : PropertyFields) : Call :=
  call (chat property_system_prompt (buildPropertyPrompt body)) "kimi".

Definition content_call (body : ContentBody) : Call :=
  call (chat (content_system_prompt "                ")
          (buildContentPrompt (content_fields body (count_of (postCount body)))))
       "reasoning".

Definition propiedadia_generate (body : PropertyFields) : IO Response :=
  if negb (present (propertyType body)) || negb (present (location body)) then
    io_ret missing_property_fields
  else
    let prompt := buildPropertyPrompt body in
    do r <- callInaiaAPI (chat property_system_prompt prompt) "kimi";
    io_ret
      match r with
      | inr description =>
          if blank description then
            json 500 [("error", VStr "Error de IA: Inaia no retornó una respuesta válida");
                      ("details", VStr "La respuesta está vacía")]
          else success "description" (VStr description)
      | inl error => internal_error error
      end.

Definition contenidoia_generate (body : ContentBody) : IO Response :=
  if negb (present (businessType body)) then io_ret missing_business_type
  else
    let count := count_of (postCount body) in
    let prompt := buildContentPrompt (content_fields body count) in
    do r <- callInaiaAPI (chat (content_system_prompt "                ") prompt) "reasoning";
    io_ret
      match r with
      | inr content =>
          match parse_posts env (VStr content) with
          | inl e =>
              json 500 [("error", VStr "Error parseando respuesta de IA");
                        ("details", VStr (exn_message e));
                        ("raw_response", VStr (substring0 200 content))]
          | inr parsed =>
              let posts := match parsed with Some v => v | None => VArr [] end in
              if length_is_zero posts then
                json 500 [("error", VStr "Error de IA: No se generaron posts válidos");
                          ("details", VStr "La respuesta no contiene un array JSON válido");
                          ("raw_response", VStr (substring0 200 content))]
              else success "posts" posts
          end
      | inl error => internal_error error
      end.

End Handlers.
End Inaia.

(** ** Middleware *)

Record Request := {
  req_method : string;          (* as the HTTP parser hands it on: upper case *)
  req_path : string;            (* the path of the URL, as sent *)
  req_origin : option string;   (* the Origin header *)
  req_ip : string;
  req_time : Z                  (* arrival, in ms *)
}.

(** [s.split(',')] *)
Fixpoint split_commas (s : string) : list string :=
  match s with
  | EmptyString => [EmptyString]
  | String c s' =>
      if (c =? ",")%char then EmptyString :: split_commas s'
      else
        match split_commas s' with
        | p :: ps => String c p :: ps
        | [] => [String c EmptyString]
        end
  end.

(** [process.env.ALLOWED_ORIGINS?.split(',') || ['http://localhost:5500']] *)
Definition allowedOrigins (ALLOWED_ORIGINS : option string) : list string :=
  match ALLOWED_ORIGINS with
  | Some s => split_commas s
  | None => ["http://localhost:5500"]
  end.

(** [allowed.includes(origin)] *)
Definition includes (allowed : list string) (origin : string) : bool :=
  existsb (String.eqb origin) allowed.

(** The [origin] function handed to [cors]: [inr true] is
    [callback(null, true)], [inl e] is [callback(e)].  The first
    revision's error has a fixed message, the later ones append the
    origin ([detailed]). *)
Definition origin_callback (detailed : bool) (allowed : list string)
    (origin : option string) : Result bool :=
  if negb (present origin) then ret true
  else if includes allowed (show origin) then ret true
  else throw (Error (if detailed then "No permitido por CORS: " ++ show origin
                     else "No permitido por CORS")).

(** The limiter's options, as [rateLimit({...})] receives them. *)
Record LimiterOptions := {
  windowMs : Z;
  max : nat;
  message : value
}.

Definition limiter_options : LimiterOptions :=
  {| windowMs := 60 * 1000;
     max := 10;
     message := VObj [("error", VStr "Demasiadas solicitudes. Por favor espera un momento.")] |}.

(** Modelled from the spec: the counting behind [rateLimit] belongs to
    the express-rate-limit package, which src/ does not hold.  Per the
    spec it is a fixed window per client IP: the first request of a
    client opens a window of [windowMs], each request in the window adds
    one to the client's count, and a request whose count exceeds [max]
    is answered 429 with the configured message.  The store maps an IP
    to its count and the end of its window. *)
Definition increment (opts : LimiterOptions) (ip : string) (now : Z)
    (store : gmap string (nat * Z)) : nat * gmap string (nat * Z) :=
  match store !! ip with
  | Some (hits, resetTime) =>
      if (now <? resetTime)%Z then (S hits, <[ip := (S hits, resetTime)]> store)
      else (1%nat, <[ip := (1%nat, (now + windowMs opts)%Z)]> store)
  | None => (1%nat, <[ip := (1%nat, (now + windowMs opts)%Z)]> store)
  end.

(** Modelled from the spec: the limiter middleware; [Some r] answers the
    request, [None] hands it on. *)
Definition limiter (opts : LimiterOptions) (req : Request)
    (store : gmap string (nat * Z)) : option Response * gmap string (nat * Z) :=
  let '(hits, store') := increment opts (req_ip req) (req_time req) store in
  if (max opts <? hits)%nat
  then (Some {| res_status := 429; res_body := message opts |}, store')
  else (None, store').


Definition lower (c : ascii) : ascii :=
  let n := nat_of_ascii c in
  if (65 <=? n)%nat && (n <=? 90)%nat then ascii_of_nat (n + 32) else c.

Fixpoint lowercase (s : string) : string :=
  match s with
  | EmptyString => EmptyString
  | String c s' => String (lower c) (lowercase s')
  end.

(** [app.use('/api/', limiter)]: the limiter sees [/api] and the paths
    below it.  Express compares the mount path without regard to the
    case of its letters. *)
Definition under_api (path : string) : bool :=
  String.prefix "/api/" (lowercase path) || (lowercase path =? "/api").

(** How the middleware chain in front of the routes ends. *)
Inductive Outcome :=
| Failed (e : Exn)            (* next(err): the routes are skipped *)
| Preflight (r : Response)    (* answered by cors itself *)
| Limited (r : Response)      (* answered by the limiter *)
| Routed (r : Response).      (* answered by a route handler *)

(** The answer of [cors] to an OPTIONS request: 204 and no body. *)
Definition preflight : Response := {| res_status := 204; res_body := VUndefined |}.

(** What follows [cors] in the chain: the limiter on the paths below
    its mount point, then the routes. *)
Definition behind_cors (opts : LimiterOptions) (router : Request -> IO Response)
    (req : Request) (store : gmap string (nat * Z))
  : IO (Outcome * gmap string (nat * Z)) :=
  let '(verdict, store') :=
    if under_api (req_path req) then limiter opts req store else (None, store) in
  match verdict with
  | Some r => io_ret (Limited r, store')
  | None => do r <- router req; io_ret (Routed r, store')
  end.

(** The chain [cors], [limiter], routes, for any routes.  An origin
    the callback refuses ends the chain with its error.  Of the requests
    it accepts, [cors] answers an OPTIONS request itself and hands the
    others on; [router] is run only when [cors] and the limiter let the
    request through. *)
Definition app (detailed : bool) (allowed : list string) (opts : LimiterOptions)
    (router : Request -> IO Response) (req : Request)
    (store : gmap string (nat * Z)) : IO (Outcome * gmap string (nat * Z)) :=
  match origin_callback detailed allowed (req_origin req) with
  | inl e => io_ret (Failed e, store)
  | inr _ =>
      if req_method req =? "OPTIONS" then io_ret (Preflight preflight, store)
      else behind_cors opts router req store
  end.




(** ** Vocabulary of the statements *)

(** The text a failed turn leaves in [lastError], if it leaves one. *)
Definition failure_text (env : Env) (r : FetchResult) : option string :=
  match r with
  | FetchRejects err => Some (exn_message err)
  | FetchResponds status text =>
      if ok status then
        match read_content env text with
        | inl err => Some (exn_message err)
        | inr _ => None
        end
      else Some text
  end.

Definition record (lastError : option string) (t : option string) : option string :=
  match t with
  | Some s => Some s
  | None => lastError
  end.

Definition last_text (texts : list (option string)) : option string :=
  fold_left record texts None.

(** [errorJson.error?.message || errorJson.message || errorText] for a
    text [errorText]. *)
Definition details_of (errorText : string) : value :=
  let errorJson := parse_error_json (Some errorText) in
  js_or (js_or (get_opt (get_opt errorJson "error") "message")
               (get_opt errorJson "message"))
        (VStr errorText).

(** The ways a turn of the property loop fails. *)
Inductive property_attempt_fails (env : Env) : FetchResult -> Prop :=
| property_transport e :
    property_attempt_fails env (FetchRejects e)
| property_status status text :
    ok status = false -> property_attempt_fails env (FetchResponds status text)
| property_unreadable status text e :
    ok status = true -> read_content env text = inl e ->
    property_attempt_fails env (FetchResponds status text)
| property_empty status text d :
    ok status = true -> read_content env text = inr d -> truthy d = false ->
    property_attempt_fails env (FetchResponds status text).

Definition property_attempt_yields (env : Env) (r : FetchResult) (d : value) : Prop :=
  exists status text,
    r = FetchResponds status text /\ ok status = true /\
    read_content env text = inr d /\ truthy d = true.

(** The ways a turn of the content loop fails: as above, and the three
    ways the parse can end without a post. *)
Inductive content_attempt_fails (env : Env) : FetchResult -> Prop :=
| content_transport e :
    content_attempt_fails env (FetchRejects e)
| content_status status text :
    ok status = false -> content_attempt_fails env (FetchResponds status text)
| content_unreadable status text e :
    ok status = true -> read_content env text = inl e ->
    content_attempt_fails env (FetchResponds status text)
| content_empty status text c :
    ok status = true -> read_content env text = inr c -> truthy c = false ->
    content_attempt_fails env (FetchResponds status text)
| content_parse_throws status text c e :
    ok status = true -> read_content env text = inr c -> truthy c = true ->
    parse_posts env c = inl e ->
    content_attempt_fails env (FetchResponds status text)
| content_no_span status text c :
    ok status = true -> read_content env text = inr c -> truthy c = true ->
    parse_posts env c = inr None ->
    content_attempt_fails env (FetchResponds status text)
| content_no_items status text c parsed :
    ok status = true -> read_content env text = inr c -> truthy c = true ->
    parse_posts env c = inr (Some parsed) -> length_is_positive parsed = false ->
    content_attempt_fails env (FetchResponds status text).

Definition content_attempt_yields (env : Env) (r : FetchResult) (posts : value) : Prop :=
  exists status text c,
    r = FetchResponds status text /\ ok status = true /\
    read_content env text = inr c /\ truthy c = true /\
    parse_posts env c = inr (Some posts) /\ length_is_positive posts = true.

Definition is_array (v : value) : bool :=
  match v with
  | VArr _ => true
  | _ => false
  end.

(** The outermost open container is an array. *)
Fixpoint bottom_is_array (k : list frame) : bool :=
  match k with
  | [] => false
  | [FArr _] => true
  | [FObj _ _] => false
  | _ :: k' => bottom_is_array k'
  end.

Definition root_or_below (k : list frame) : bool :=
  match k with
  | [] => true
  | _ => bottom_is_array k
  end.

Definition within_array (st : pstate) : bool :=
  match st with
  | PValue k => bottom_is_array k
  | PArrFirst k | PArrAfter _ k => root_or_below k
  | PObjFirst k | PObjKey _ k | PObjColon _ _ k | PObjAfter _ k => bottom_is_array k
  | PDone v => is_array v
  end.

Definition with_style (data : PropertyFields) (s : option string) : PropertyFields :=
  {| propertyType := propertyType data; rooms := rooms data;
     bathrooms := bathrooms data; size := size data; location := location data;
     features := features data; style := s |}.

Definition with_tone (data : ContentFields) (t : option string) : ContentFields :=
  {| cf_businessType := cf_businessType data; cf_businessDesc := cf_businessDesc data;
     cf_tone := t; cf_network := cf_network data; cf_postCount := cf_postCount data |}.

Definition bare_property : PropertyFields :=
  {| propertyType := Some "casa"; rooms := None; bathrooms := None; size := None;
     location := Some "Valdivia"; features := None; style := None |}.

Definition sample_content_body (count : option CountField) : ContentBody :=
  {| businessType := Some "cafetería";
     businessDesc := None;
     tone := Some "cercano";
     network := Some "instagram";
     postCount := count |}.

Definition chatty_reply : string :=
  dq "Here you go:
[{'content':'hi','hashtags':['#a']}]
Enjoy!".

(** An OpenRouter reply whose first choice has the given content
    (written as JSON). *)
Definition reply (content_json : string) : string :=
  dq "{'choices':[{'message':{'role':'assistant','content':" ++ content_json ++ "}}]}".

(** A world whose upstream answers by the given script. *)
Definition scripted (answers : Call -> FetchResult) : Env :=
  {| net := answers; engine_message := fun _ => "engine message" |}.

(** An upstream where the first three models fail, each in its own way
    (rejected fetch, 503, empty content), and the fourth answers with a
    post. *)
Definition flaky_upstream : Env :=
  scripted (fun c =>
    if call_model c =? "meta-llama/llama-3.1-8b-instruct:free"
    then FetchRejects (mkExn "TypeError" "fetch failed")
    else if call_model c =? "mistralai/mistral-7b-instruct:free"
    then FetchResponds 503 "Service Unavailable"
    else if call_model c =? "google/gemma-7b-it:free"
    then FetchResponds 200 (reply (dq "''"))
    else FetchResponds 200
           (reply (dq "'[{\'content\':\'hi\',\'hashtags\':[\'#a\']}]'"))).

(** An upstream whose first model is down and whose other models
    answer 2xx with empty content. *)
Definition first_down_upstream : Env :=
  scripted (fun c =>
    if call_model c =? "meta-llama/llama-3.1-8b-instruct:free"
    then FetchResponds 503 "first model is down"
    else FetchResponds 200 (reply (dq "''"))).

(** An upstream where every model fails; the last text left behind is
    the JSON error of the second model. *)
Definition dead_upstream : Env :=
  scripted (fun c =>
    if call_model c =? "meta-llama/llama-3.1-8b-instruct:free"
    then FetchRejects (mkExn "TypeError" "fetch failed")
    else if call_model c =? "mistralai/mistral-7b-instruct:free"
    then FetchResponds 429 (dq "{'error':{'message':'Rate limit exceeded','code':429}}")
    else FetchResponds 200 (reply (dq "''"))).

(** An upstream that answers every call 2xx with the given content. *)
Definition steady_upstream (content_json : string) : Env :=
  scripted (fun _ => FetchResponds 200 (reply content_json)).



Definition evil_request : Request :=
  {| req_method := "GET";
     req_path := "/api/health";
     req_origin := Some "https://evil.example";
     req_ip := "203.0.113.7";
     req_time := 0 |}.

Definition body_without_location : PropertyFields :=
  {| propertyType := Some "casa"; rooms := Some "3"; bathrooms := None; size := None;
     location := None; features := None; style := None |}.

Definition body_without_business : ContentBody :=
  {| businessType := None; businessDesc := None; tone := None; network := None;
     postCount := Some (CountNumber 7) |}.

(** ** The error handler of the later revisions *)





(** ** More vocabulary *)


(** The length of a string in UTF-16 code units, read off its UTF-8
    bytes: one unit per character, two for a four-byte character. *)
Fixpoint units (s : string) : nat :=
  match s with
  | EmptyString => 0
  | String c s1 =>
      let b := nat_of_ascii c in
      if (b <? 192)%nat then S (units s1)
      else if (b <? 224)%nat then
        match s1 with
        | String _ s2 => S (units s2)
        | _ => 1
        end
      else if (b <? 240)%nat then
        match s1 with
        | String _ (String _ s3) => S (units s3)
        | _ => 1
        end
      else
        match s1 with
        | String _ (String _ (String _ s4)) => S (S (units s4))
        | _ => 1
        end
  end.

(** Every byte of [s] is ASCII. *)
Fixpoint ascii_only (s : string) : bool :=
  match s with
  | EmptyString => true
  | String c s' => (nat_of_ascii c <? 128)%nat && ascii_only s'
  end.

(** [f] with the empty text taken for a field that was not sent. *)
Definition blanked (f : option string) : option string :=
  match f with
  | Some EmptyString => None
  | _ => f
  end.

(** The two kinds of answer a client can tell apart: [success: true]
    under status 200, and an [error] text under any other status. *)
Definition is_success (r : Response) : Prop :=
  res_status r = 200%Z /\ field "success" r = VBool true /\ field "error" r = VUndefined.

Definition is_failure (r : Response) : Prop :=
  res_status r <> 200%Z /\ (exists msg, field "error" r = VStr msg) /\
  field "success" r = VUndefined.

(** * Properties *)

(** Unfolds the plumbing of [IO] around a handler. *)
Ltac unfold_io := unfold run, io_bind, fetch, io_ret.

(** ** The built-ins on small inputs *)

Example JSON_parse_reads_a_reply :
  JSON_parse (reply (dq "'hola'"))
  = Some (VObj [("choices",
                 VArr [VObj [("message",
                              VObj [("role", VStr "assistant");
                                    ("content", VStr "hola")])]])]).
Proof. reflexivity. Qed.

Example JSON_parse_numbers_and_escapes :
  JSON_parse (dq "[-2.50e3, 0, true, null, {'a': 'x\n', 'a': []}]")
  = Some (VArr [VNum (-250) 1; VNum 0 0; VBool true; VNull;
                VObj [("a", VStr (String "x" (String LF ""))); ("a", VArr [])]]).
Proof. reflexivity. Qed.

Example JSON_parse_rejects :
  map JSON_parse ["[1,]"; "01"; "[1 2]"; "nul"; "[[]"; ""; "Here [1]"]
  = [None; None; None; None; None; None; None].
Proof. reflexivity. Qed.

Example last_duplicate_key_wins :
  own_prop [("a", VNum 1 0); ("b", VNull); ("a", VNum 2 0)] "a" = VNum 2 0.
Proof. reflexivity. Qed.

Example underflowing_number_is_falsy :
  truthy (VNum 1 (-400)) = false /\ truthy (VNum 1 (-300)) = true.
Proof. split; reflexivity. Qed.

Example blank_texts :
  map blank [""; "  "; String LF " "; " a "]
  = [true; true; true; false].
Proof. reflexivity. Qed.

Example parseInt_texts :
  map parseInt_string ["7"; " -12px"; "0x1F"; "abc"; ""; "7.9"]
  = [Some 7%Z; Some (-12)%Z; Some 31%Z; None; None; Some 7%Z].
Proof. reflexivity. Qed.

Example doubles_of_integers :
  map to_double [7; 2 ^ 53 + 1; 2 ^ 53 + 3; - (2 ^ 53) - 1; 10 ^ 400; - 10 ^ 400]%Z
  = [7; 2 ^ 53; 2 ^ 53 + 4; - 2 ^ 53; infinity; - infinity]%Z.
Proof. vm_compute. reflexivity. Qed.

Example numbers_in_a_template :
  map number_text
    [7; -3; 0; 2 ^ 53; 2 ^ 64; 2 ^ 69; 2 ^ 70; 10 ^ 21; - 10 ^ 21; 15 * 10 ^ 20;
     infinity; - infinity]%Z
  = ["7"; "-3"; "0"; "9007199254740992"; "18446744073709552000";
     "590295810358705700000"; "1.1805916207174113e+21"; "1e+21"; "-1e+21"; "1.5e+21";
     "Infinity"; "-Infinity"].
Proof. vm_compute. reflexivity. Qed.

Example parseInt_of_numbers_and_long_texts :
  map parseInt
    [Some (CountNumber 7); Some (CountNumber (10 ^ 21)); Some (CountNumber (- 10 ^ 21));
     Some (CountNumber (10 ^ 400)); Some (CountString "-9007199254740993");
     Some (CountString "1000000000000000000000"); Some (CountString "-0.5"); None]
  = [Some 7; Some 1; Some (-1); None; Some (-9007199254740992);
     Some (10 ^ 21); Some 0; None]%Z.
Proof. vm_compute. reflexivity. Qed.

Example what_json_sends :
  res_body (json 200 [("a", VUndefined); ("b", VArr [VNum 1 400; VNum (-1) (-400); VUndefined]);
                      ("c", VNum 15 (-1))])
  = VObj [("b", VArr [VNull; VNum 0 0; VNull]); ("c", VNum 15 (-1))] /\
  res_body (json 304 [("error", VStr "x")]) = VUndefined /\
  res_body (json 429 [("error", VStr "x")]) = VObj [("error", VStr "x")].
Proof. repeat split. Qed.

Example status_that_cannot_be_written (env : Env) :
  OpenRouter.upstream_error env 42 "down"
  = internal_error (mkExn "RangeError" (engine_message env (InvalidStatusCode 42))) /\
  res_status (OpenRouter.upstream_error env 503 "down") = 503%Z.
Proof. split; reflexivity. Qed.

Example paths_under_the_mount :
  map under_api ["/api"; "/api/"; "/api/health"; "/API/health"; "/apiary"; "/"; "/x/api/"]
  = [true; true; true; true; false; false; false].
Proof. reflexivity. Qed.

Example slice0_counts :
  map (fun count => length (generateFallbackPosts "x" count)) [-7; -3; 0; 2; 5; 30]%Z
  = [0; 2; 0; 2; 5; 5]%nat.
Proof. reflexivity. Qed.

Example match_array_spans :
  map match_array ["Here [a] b ] c"; "] [ x"; "] [ [x] "; "no"]
  = [Some "[a] b ]"; None; Some "[ [x]"; None].
Proof. reflexivity. Qed.


(** ** What is sent *)

Lemma wire_undefined v : wire v = VUndefined -> v = VUndefined.
Proof.
  destruct v as [| | b | m e | t | items | props]; simpl; try discriminate; try reflexivity.
  destruct (number_overflows m e); [discriminate |].
  now destruct (number_is_zero m e).
Qed.

Lemma js_or_defined a b : b <> VUndefined -> js_or a b <> VUndefined.
Proof.
  unfold js_or. intros Hb. destruct (truthy a) eqn:Ha; [| exact Hb].
  intros ->. discriminate.
Qed.

Lemma details_of_defined text : details_of text <> VUndefined.
Proof. unfold details_of. apply js_or_defined. discriminate. Qed.

(** The body of a [res.status(status).json({k1: v1, k2: v2})] whose
    second value is not [undefined]. *)
Lemma json_two status k1 (s1 : string) k2 v2 :
  v2 <> VUndefined ->
  res_body (json status [(k1, VStr s1); (k2, v2)])
  = if no_body status then VUndefined else VObj [(k1, VStr s1); (k2, wire v2)].
Proof.
  intros Hv. unfold json. cbn [res_body]. destruct (no_body status); [reflexivity |].
  cbn [wire]. destruct (wire v2) eqn:E; try reflexivity.
  now apply wire_undefined in E.
Qed.

Lemma success_sent key v :
  v <> VUndefined ->
  res_body (success key v) = VObj [("success", VBool true); (key, wire v)].
Proof.
  intros Hv. unfold success, json. cbn [res_body]. change (no_body 200) with false.
  cbv iota. cbn [wire]. destruct (wire v) eqn:E; try reflexivity.
  now apply wire_undefined in E.
Qed.

Lemma error_details_defined env errorText details :
  error_details env errorText = inr details -> details <> VUndefined.
Proof.
  unfold error_details, bind.
  destruct (get env (parse_error_json errorText) "error") as [e | x]; [discriminate |].
  destruct (get env (parse_error_json errorText) "message") as [e | m]; [discriminate |].
  unfold ret. intros [= <-]. apply js_or_defined. destruct errorText; discriminate.
Qed.

Lemma read_content_defined env text d : read_content env text = inr d -> d <> VUndefined.
Proof.
  unfold read_content, response_json, choice_content, bind.
  destruct (JSON_parse text) as [data |]; [| discriminate]. simpl.
  destruct (get env data "choices") as [e | choices]; [discriminate |].
  destruct (get0 env choices) as [e | first]; [discriminate |].
  unfold ret. intros [= <-]. apply js_or_defined. discriminate.
Qed.

(** ** Validation (C5) *)

Section Validation.
Context (env : Env).

Lemma or_negb_false (a b : bool) : a = false \/ b = false -> negb a || negb b = true.
Proof. intros [-> | ->]; [reflexivity | apply orb_true_r]. Qed.

(** C5.  A property request without [propertyType] or without
    [location], and a content request without [businessType], is
    answered 400 in every revision, with a message that names the
    required fields, and no call to the upstream is made. *)
Theorem missing_field_is_400_without_upstream_call
    (pbody : PropertyFields) (cbody : ContentBody) :
  (present (propertyType pbody) = false \/ present (location pbody) = false ->
   run (OpenRouter.propiedadia_generate env pbody) = (missing_property_fields, []) /\
   run (Fallback.propiedadia_generate env pbody) = (missing_property_fields, []) /\
   run (Inaia.propiedadia_generate env pbody) = (missing_property_fields, [])) /\
  (present (businessType cbody) = false ->
   run (OpenRouter.contenidoia_generate env cbody) = (missing_business_type, []) /\
   run (Fallback.contenidoia_generate env cbody) = (missing_business_type, []) /\
   run (Inaia.contenidoia_generate env cbody) = (missing_business_type, [])) /\
  res_status missing_property_fields = 400%Z /\
  res_status missing_business_type = 400%Z /\
  (exists msg, field "error" missing_property_fields = VStr msg /\
     contains "propertyType" msg = true /\ contains "location" msg = true) /\
  (exists msg, field "error" missing_business_type = VStr msg /\
     contains "businessType" msg = true).
Proof.
  split; [| split; [| split; [| split; [| split]]]].
  - intros H. pose proof (or_negb_false _ _ H) as E.
    unfold OpenRouter.propiedadia_generate, Fallback.propiedadia_generate,
      Inaia.propiedadia_generate; unfold_io.
    rewrite E. auto.
  - intros H.
    unfold OpenRouter.contenidoia_generate, Fallback.contenidoia_generate,
      Inaia.contenidoia_generate; unfold_io.
    rewrite H. auto.
  - reflexivity.
  - reflexivity.
  - eexists. split; [reflexivity | split; reflexivity].
  - eexists. split; reflexivity.
Qed.

End Validation.

(** ** The post count (C4) *)

(** *** Whole numbers the doubles hold exactly *)

Lemma to_double_safe (n : Z) : (Z.abs n < 2 ^ 53)%Z -> to_double n = n.
Proof. intros H. unfold to_double. apply Z.ltb_lt in H. now rewrite H. Qed.

Lemma number_text_safe (n : Z) : (Z.abs n < 2 ^ 53)%Z -> number_text n = string_of_Z n.
Proof.
  intros H. unfold number_text.
  assert (Hfin : (infinity <=? Z.abs n)%Z = false).
  { apply Z.leb_gt. eapply Z.lt_trans; [exact H |]. reflexivity. }
  apply Z.ltb_lt in H. now rewrite Hfin, H.
Qed.

Lemma leading_value_positive (d : Decimal.uint) : forall p : positive,
  leading_value 10 (Some (Zpos p)) (NilEmpty.string_of_uint d)
  = Some (Zpos (Pos.of_uint_acc d p)).
Proof.
  induction d; intros p; [reflexivity | ..];
    simpl NilEmpty.string_of_uint; cbn [leading_value];
    match goal with |- context [hex_value ?c] =>
      let v := eval vm_compute in (hex_value c) in change (hex_value c) with v
    end; cbv beta iota;
    match goal with |- context [(?a <? 10)%Z] => change (a <? 10)%Z with true end;
    cbv iota; cbn [Pos.of_uint_acc]; rewrite <- IHd; do 2 f_equal; lia.
Qed.

Lemma leading_value_zero (d : Decimal.uint) :
  leading_value 10 (Some 0%Z) (NilEmpty.string_of_uint d)
  = Some (Z.of_N (Pos.of_uint d)).
Proof.
  induction d; [reflexivity | exact IHd | ..]; apply (leading_value_positive d).
Qed.

Lemma leading_value_digits (d : Decimal.uint) :
  d <> Decimal.Nil ->
  leading_value 10 None (NilEmpty.string_of_uint d) = Some (Z.of_N (Pos.of_uint d)).
Proof.
  destruct d; [congruence | intros _; exact (leading_value_zero d) | ..];
    intros _; apply (leading_value_positive d).
Qed.

Lemma parseInt_string_digits (d : Decimal.uint) :
  d <> Decimal.Nil ->
  parseInt_string (NilEmpty.string_of_uint d) = Some (to_double (Z.of_N (Pos.of_uint d))) /\
  parseInt_string (String "-" (NilEmpty.string_of_uint d))
  = Some (to_double (- Z.of_N (Pos.of_uint d)))%Z.
Proof.
  intros Hd. pose proof (leading_value_digits d Hd) as Hlead.
  assert (Hmag : match NilEmpty.string_of_uint d with
                 | String "0" (String "x" r) | String "0" (String "X" r) =>
                     leading_value 16 None r
                 | _ => leading_value 10 None (NilEmpty.string_of_uint d)
                 end = Some (Z.of_N (Pos.of_uint d))).
  { rewrite <- Hlead. destruct d; try reflexivity. destruct d; reflexivity. }
  split.
  - unfold parseInt_string.
    replace (trimStart (NilEmpty.string_of_uint d)) with (NilEmpty.string_of_uint d)
      by (destruct d; reflexivity).
    destruct d; try congruence; cbv zeta; cbn [NilEmpty.string_of_uint] in *;
      cbv beta iota; rewrite Hmag; reflexivity.
  - unfold parseInt_string.
    change (trimStart (String "-" (NilEmpty.string_of_uint d)))
      with (String "-" (NilEmpty.string_of_uint d)).
    cbv beta iota zeta. rewrite Hmag. reflexivity.
Qed.

(** [parseInt] reads the decimal text of an integer as the double
    nearest to that integer. *)
Lemma parseInt_string_of_Z (n : Z) : parseInt_string (string_of_Z n) = Some (to_double n).
Proof.
  unfold string_of_Z. destruct n as [| p | p]; [reflexivity | |];
    simpl Z.to_int; simpl NilEmpty.string_of_int.
  - assert (Hd : Pos.to_uint p <> Decimal.Nil).
    { intros E. pose proof (DecimalPos.Unsigned.of_to p) as H. rewrite E in H.
      discriminate. }
    rewrite (proj1 (parseInt_string_digits _ Hd)), DecimalPos.Unsigned.of_to. reflexivity.
  - assert (Hd : Pos.to_uint p <> Decimal.Nil).
    { intros E. pose proof (DecimalPos.Unsigned.of_to p) as H. rewrite E in H.
      discriminate. }
    rewrite (proj2 (parseInt_string_digits _ Hd)), DecimalPos.Unsigned.of_to. reflexivity.
Qed.

Lemma parseInt_safe (n : Z) :
  (Z.abs n < 2 ^ 53)%Z ->
  parseInt (Some (CountNumber n)) = Some n /\
  parseInt (Some (CountString (string_of_Z n))) = Some n.
Proof.
  intros H. unfold parseInt.
  rewrite (to_double_safe n H), (number_text_safe n H), parseInt_string_of_Z.
  now rewrite (to_double_safe n H).
Qed.

Lemma count_of_at_most_30 (v : option CountField) :
  (count_of v <= 30)%Z /\ count_of v <> 0%Z.
Proof.
  unfold count_of. split; [lia |].
  destruct (parseInt v) as [n |]; [| lia]. destruct (n =? 0)%Z eqn:E; lia.
Qed.

(** C4, as stated, fails: a negative [postCount] is neither replaced by
    the default nor raised to 1; -3 stays -3 and is what the prompt
    asks for. *)
Lemma negative_postCount_is_kept :
  count_of (Some (CountNumber (-3))) = (-3)%Z /\
  count_of (Some (CountNumber (-3))) <> 5%Z /\
  ~ (1 <= count_of (Some (CountNumber (-3))) <= 30)%Z /\
  String.prefix "Genera -3 posts para redes sociales:"
    (buildContentPrompt
       (content_fields (sample_content_body (Some (CountNumber (-3))))
          (count_of (Some (CountNumber (-3)))))) = true.
Proof.
  repeat split; try reflexivity.
  - discriminate.
  - vm_compute. intros [H _]. apply H. reflexivity.
Qed.

Lemma prompt_opens_with_count (data : ContentFields) :
  exists rest,
    buildContentPrompt data
    = "Genera " ++ number_text (cf_postCount data) ++ " posts para redes sociales:" ++ rest.
Proof.
  unfold buildContentPrompt. eexists. simpl. reflexivity.
Qed.

Section PostCount.
Context (env : Env).

(** C4, amended.  The count is [min(parseInt(postCount) || 5, 30)],
    where [parseInt] reads the integer that the text of [postCount]
    opens with.  Whatever [postCount] is, the count is at most 30 and is
    not 0.  A missing [postCount] and a text that opens with no integer
    give 5, and so does an integer read as 0 (as in ["-0.5"]); a
    fraction is cut to its integer part (["-3.7"] gives -3).  For an
    integer [n] below 2^53 in magnitude, sent as a number or as its
    decimal text: 0 gives 5, 45 gives 30, 7 gives 7, [n >= 1] lands in
    [1,30], and a negative [n] is passed on unchanged.  The prompt opens
    with the count, and it is that prompt the handlers send. *)
Theorem count_is_capped_at_30 (body : ContentBody) (n : Z) :
  (Z.abs n < 2 ^ 53)%Z ->
  present (businessType body) = true ->
  let count := count_of (postCount body) in
  (count <= 30)%Z /\
  count <> 0%Z /\
  (postCount body = None -> count = 5%Z) /\
  (forall s, postCount body = Some (CountString s) -> parseInt_string s = None ->
     count = 5%Z) /\
  (postCount body = Some (CountNumber n) \/
   postCount body = Some (CountString (string_of_Z n)) ->
   count = (if (n =? 0)%Z then 5 else Z.min n 30)%Z /\
   (1 <= n -> 1 <= count <= 30)%Z /\
   (n < 0 -> count = n)%Z /\
   exists rest,
     buildContentPrompt (content_fields body count)
     = "Genera " ++ string_of_Z count ++ " posts para redes sociales:" ++ rest) /\
  count_of (Some (CountNumber 0)) = 5%Z /\
  count_of (Some (CountString "abc")) = 5%Z /\
  count_of (Some (CountNumber 45)) = 30%Z /\
  count_of (Some (CountNumber 7)) = 7%Z /\
  count_of (Some (CountString "7")) = 7%Z /\
  count_of (Some (CountString "-0.5")) = 5%Z /\
  count_of (Some (CountString "-3.7")) = (-3)%Z /\
  String.prefix "Genera 7 posts para redes sociales:"
    (buildContentPrompt
       (content_fields (sample_content_body (Some (CountNumber 7)))
          (count_of (Some (CountNumber 7))))) = true /\
  (exists rest,
     buildContentPrompt (content_fields body count)
     = "Genera " ++ number_text count ++ " posts para redes sociales:" ++ rest) /\
  snd (run (OpenRouter.contenidoia_generate env body)) = [OpenRouter.content_call body] /\
  snd (run (Inaia.contenidoia_generate env body)) = [Inaia.content_call body] /\
  (exists system,
     call_messages (OpenRouter.content_call body)
     = chat system (buildContentPrompt (content_fields body count))) /\
  (exists system,
     call_messages (Inaia.content_call body)
     = chat system (buildContentPrompt (content_fields body count))).
Proof.
  intros Hsafe Hb count.
  repeat match goal with |- _ /\ _ => split end; try reflexivity.
  - apply count_of_at_most_30.
  - apply count_of_at_most_30.
  - intros Hnone. unfold count. now rewrite Hnone.
  - intros s Hs Hnan. unfold count, count_of. rewrite Hs. simpl parseInt. now rewrite Hnan.
  - intros Hn.
    assert (Hparse : parseInt (postCount body) = Some n)
      by (destruct Hn as [-> | ->]; apply parseInt_safe; exact Hsafe).
    assert (Hc : count = (if (n =? 0)%Z then 5 else Z.min n 30)%Z).
    { unfold count, count_of. rewrite Hparse. destruct (n =? 0)%Z; reflexivity. }
    split; [exact Hc | split; [| split]].
    + rewrite Hc. destruct (Z.eqb_spec n 0); lia.
    + rewrite Hc. destruct (Z.eqb_spec n 0); lia.
    + destruct (prompt_opens_with_count (content_fields body count)) as (rest & Hrest).
      exists rest. rewrite Hrest. cbn [cf_postCount content_fields].
      rewrite number_text_safe; [reflexivity |].
      rewrite Hc. destruct (Z.eqb_spec n 0); lia.
  - apply (prompt_opens_with_count (content_fields body count)).
  - unfold run, OpenRouter.contenidoia_generate, io_bind, fetch. rewrite Hb. reflexivity.
  - unfold run, Inaia.contenidoia_generate, Inaia.callInaiaAPI, io_bind, fetch.
    rewrite Hb. reflexivity.
  - eexists. reflexivity.
  - eexists. reflexivity.
Qed.

End PostCount.

(** ** Prompts (C9) *)

(** C9.  The lookups [table[key] || default] miss the default for a
    name that every object inherits: [constructor] is no key of
    [styleDescriptions], yet the lookup finds [Object.prototype]'s
    member, and the prompt carries the text of that function where a
    missing style, and any other unknown style, gets [profesional].  The
    tone and the network are looked up the same way. *)
Lemma inherited_name_is_not_defaulted :
  own_property styleDescriptions "constructor" = None /\
  own_property styleDescriptions "moderno" = None /\
  contains "Estilo de escritura: profesional"
    (buildPropertyPrompt (with_style bare_property None)) = true /\
  contains "Estilo de escritura: profesional"
    (buildPropertyPrompt (with_style bare_property (Some "moderno"))) = true /\
  contains "Estilo de escritura: function Object() { [native code] }"
    (buildPropertyPrompt (with_style bare_property (Some "constructor"))) = true /\
  contains "Estilo de escritura: profesional"
    (buildPropertyPrompt (with_style bare_property (Some "constructor"))) = false /\
  buildPropertyPrompt (with_style bare_property (Some "constructor"))
  <> buildPropertyPrompt (with_style bare_property None) /\
  contains "Tono: function Object() { [native code] }"
    (buildContentPrompt
       (with_tone (content_fields (sample_content_body None) 5) (Some "constructor")))
  = true.
Proof.
  repeat match goal with |- _ /\ _ => split end; try (vm_compute; reflexivity).
  apply String.eqb_neq. vm_compute. reflexivity.
Qed.

Lemma phrase_or_unrecognized table key fallback :
  own_property table key = None ->
  object_prototype_member key = None ->
  own_property table "undefined" = None ->
  phrase_or table (Some key) fallback = fallback /\
  phrase_or table None fallback = fallback.
Proof.
  intros Hown Hproto Hundef. unfold phrase_or, lookup_phrase. simpl show.
  rewrite Hown, Hproto, Hundef. split; reflexivity.
Qed.

(** X17.  A style, tone or network that is neither a key of its table
    nor a name inherited from [Object.prototype] gives the same prompt
    as a missing one: the word [profesional] for the style, the table's
    [profesional] phrase for the tone, the table's [instagram] phrase
    for the network.  Missing rooms, bathrooms, size and features are
    written with their placeholders. *)
Theorem unrecognized_choice_gets_the_default
    (pdata : PropertyFields) (cdata : ContentFields) (key : string) :
  object_prototype_member key = None ->
  (own_property styleDescriptions key = None ->
   buildPropertyPrompt (with_style pdata (Some key))
   = buildPropertyPrompt (with_style pdata None) /\
   phrase_or styleDescriptions (Some key) "profesional" = "profesional") /\
  (own_property toneDescriptions key = None ->
   buildContentPrompt (with_tone cdata (Some key))
   = buildContentPrompt (with_tone cdata None) /\
   phrase_or toneDescriptions (Some key) (member toneDescriptions "profesional")
   = "formal y profesional, enfocado en expertise") /\
  (own_property networkFormats key = None ->
   phrase_or networkFormats (Some key) (member networkFormats "instagram")
   = phrase_or networkFormats None (member networkFormats "instagram") /\
   phrase_or networkFormats None (member networkFormats "instagram")
   = "posts visuales con 3-5 hashtags, máximo 150 palabras") /\
  phrase_or styleDescriptions (Some "profesional") "profesional" = "formal y profesional" /\
  phrase_or toneDescriptions (Some "profesional") (member toneDescriptions "profesional")
  = member toneDescriptions "profesional" /\
  phrase_or networkFormats (Some "instagram") (member networkFormats "instagram")
  = member networkFormats "instagram" /\
  (present (rooms pdata) = false -> show_or (rooms pdata) "No especificado" = "No especificado") /\
  (present (bathrooms pdata) = false ->
   show_or (bathrooms pdata) "No especificado" = "No especificado") /\
  (present (size pdata) = false -> show_or (size pdata) "No especificado" = "No especificado") /\
  (present (features pdata) = false ->
   show_or (features pdata) "No especificadas" = "No especificadas") /\
  buildPropertyPrompt bare_property
  = "Genera una descripción atractiva para esta propiedad:

Tipo: casa
Habitaciones: No especificado
Baños: No especificado
Tamaño: No especificado m²
Ubicación: Valdivia
Características: No especificadas
Estilo de escritura: profesional

Escribe una descripción de 100-150 palabras que destaque los beneficios y genere interés.".
Proof.
  intros Hproto.
  repeat match goal with |- _ /\ _ => split end; try reflexivity.
  - intros Hown.
    destruct (phrase_or_unrecognized styleDescriptions key "profesional" Hown Hproto eq_refl)
      as [E1 E2].
    split; [| exact E1].
    unfold buildPropertyPrompt. simpl style. rewrite E1, E2. reflexivity.
  - intros Hown.
    destruct (phrase_or_unrecognized toneDescriptions key
                (member toneDescriptions "profesional") Hown Hproto eq_refl) as [E1 E2].
    split; [| exact E1].
    unfold buildContentPrompt. simpl cf_tone. rewrite E1, E2. reflexivity.
  - intros Hown.
    destruct (phrase_or_unrecognized networkFormats key
                (member networkFormats "instagram") Hown Hproto eq_refl) as [E1 E2].
    split; [now rewrite E1, E2 | reflexivity].
  - unfold show_or. now intros ->.
  - unfold show_or. now intros ->.
  - unfold show_or. now intros ->.
  - unfold show_or. now intros ->.
Qed.

(** ** The span of the posts (C6) *)

Lemma append_cons x (a b : string) : String x a ++ b = String x (a ++ b).
Proof. reflexivity. Qed.

Lemma append_nil (b : string) : "" ++ b = b.
Proof. reflexivity. Qed.

Lemma append_assoc (a b c : string) : (a ++ b) ++ c = a ++ (b ++ c).
Proof.
  induction a as [| x a IH]; [reflexivity |].
  rewrite !append_cons. now f_equal.
Qed.

Lemma has_char_append c a b : has_char c (a ++ b) = has_char c a || has_char c b.
Proof.
  induction a as [| x a IH]; [reflexivity |].
  rewrite append_cons. simpl. rewrite <- orb_assoc. now f_equal.
Qed.

Lemma match_array_unfold c s :
  match_array (String c s)
  = match match_here (String c s) with
    | Some m => Some m
    | None => match_array s
    end.
Proof. reflexivity. Qed.

Lemma star_then_close_none r :
  star_then_close r = None <-> has_char "]" r = false.
Proof.
  induction r as [| c r IH]; simpl; [tauto |].
  destruct (star_then_close r) as [m |].
  - split; [discriminate |]. intros H. apply orb_false_iff in H.
    destruct IH as [_ IH]. now specialize (IH (proj2 H)).
  - destruct (c =? "]")%char; simpl.
    + split; discriminate.
    + tauto.
Qed.

(** The greedy star ends at the last closing bracket. *)
Lemma star_then_close_last mid post :
  has_char "]" post = false ->
  star_then_close (mid ++ "]" ++ post) = Some (mid ++ "]").
Proof.
  intros Hpost. induction mid as [| c mid IH].
  - rewrite append_nil, append_cons, append_nil. simpl.
    apply star_then_close_none in Hpost. now rewrite Hpost.
  - change (String c mid ++ "]" ++ post) with (String c (mid ++ "]" ++ post)).
    simpl. now rewrite IH.
Qed.

Lemma star_then_close_some r m :
  star_then_close r = Some m ->
  exists mid post,
    r = mid ++ "]" ++ post /\ m = mid ++ "]" /\ has_char "]" post = false.
Proof.
  revert m. induction r as [| c r IH]; simpl; [discriminate |]. intros m.
  destruct (star_then_close r) as [m' |] eqn:E.
  - intros [= <-]. destruct (IH m' eq_refl) as (mid & post & -> & -> & Hpost).
    now exists (String c mid), post.
  - destruct (Ascii.eqb_spec c "]") as [-> |]; [| discriminate].
    intros [= <-]. exists "", r. repeat split. now apply star_then_close_none.
Qed.

Lemma match_here_not_open c s : (c =? "[")%char = false -> match_here (String c s) = None.
Proof.
  intros H. unfold match_here.
  destruct c as [[] [] [] [] [] [] [] []]; try reflexivity. discriminate.
Qed.

(** The leftmost match starts at the first opening bracket. *)
Lemma match_array_span pre mid post :
  has_char "[" pre = false ->
  has_char "]" post = false ->
  match_array (pre ++ "[" ++ mid ++ "]" ++ post) = Some ("[" ++ mid ++ "]").
Proof.
  intros Hpre Hpost. induction pre as [| c pre IH].
  - rewrite append_nil, append_cons, append_nil, match_array_unfold. unfold match_here.
    now rewrite star_then_close_last.
  - simpl in Hpre. apply orb_false_iff in Hpre as [Hc Hpre].
    change (String c pre ++ "[" ++ mid ++ "]" ++ post)
      with (String c (pre ++ "[" ++ mid ++ "]" ++ post)).
    rewrite match_array_unfold, (match_here_not_open _ _ Hc). now apply IH.
Qed.

Lemma match_array_some s m :
  match_array s = Some m ->
  exists pre mid post,
    s = pre ++ "[" ++ mid ++ "]" ++ post /\
    has_char "[" pre = false /\ has_char "]" post = false /\
    m = "[" ++ mid ++ "]".
Proof.
  induction s as [| c s IH]; [discriminate |].
  rewrite match_array_unfold.
  destruct (match_here (String c s)) as [m0 |] eqn:E.
  - intros [= <-].
    destruct (Ascii.eqb_spec c "[") as [-> | Hc].
    + unfold match_here in E.
      destruct (star_then_close s) as [m' |] eqn:E'; [| discriminate].
      injection E as <-.
      destruct (star_then_close_some _ _ E') as (mid & post & -> & -> & Hpost).
      now exists "", mid, post.
    + apply Ascii.eqb_neq in Hc. rewrite (match_here_not_open _ _ Hc) in E. discriminate.
  - intros H. destruct (IH H) as (pre & mid & post & -> & Hpre & Hpost & ->).
    exists (String c pre), mid, post. repeat split; try assumption.
    simpl. rewrite Hpre, orb_false_r.
    destruct (Ascii.eqb_spec c "[") as [-> | Hc]; [| reflexivity].
    exfalso. unfold match_here in E.
    destruct (star_then_close _) as [m' |] eqn:E'; [discriminate |].
    apply star_then_close_none in E'.
    rewrite !has_char_append in E'. simpl in E'.
    rewrite !orb_true_r in E'. discriminate.
Qed.

Section PostSpan.
Context (env : Env).

(** C6.  [content.match(/\[[\s\S]*\]/)] yields exactly the span from
    the first [[] to the last []] of the text, whatever prose stands
    before and after, and that span is what [JSON.parse] reads; the
    reply [Here you go: ... Enjoy!] parses to the single post with
    content [hi] and hashtags [[#a]]. *)
Theorem posts_span_is_first_open_to_last_close (s m : string) :
  (match_array s = Some m <->
   exists pre mid post,
     s = pre ++ "[" ++ mid ++ "]" ++ post /\
     has_char "[" pre = false /\ has_char "]" post = false /\
     m = "[" ++ mid ++ "]") /\
  (match_array s = Some m ->
   parse_posts env (VStr s)
   = match JSON_parse m with
     | Some v => ret (Some v)
     | None => engine_throws env (JSONSyntaxError m)
     end) /\
  match_array chatty_reply = Some (dq "[{'content':'hi','hashtags':['#a']}]") /\
  parse_posts env (VStr chatty_reply) = ret (Some (VArr [post "hi" ["#a"]])).
Proof.
  split; [split |].
  - apply match_array_some.
  - intros (pre & mid & post & -> & Hpre & Hpost & ->). now apply match_array_span.
  - split; [| split; reflexivity].
    intros H. unfold parse_posts. now rewrite H.
Qed.

End PostSpan.

(** ** The single-model content route (C10) *)

Lemma slice0_length {A} (l : list A) (count : Z) : (length (slice0 l count) <= length l)%nat.
Proof. unfold slice0. rewrite length_firstn. lia. Qed.

Lemma generateFallbackPosts_at_most_5 businessType count :
  (length (generateFallbackPosts businessType count) <= 5)%nat.
Proof.
  unfold generateFallbackPosts.
  eapply Nat.le_trans; [apply slice0_length | apply Nat.le_refl].
Qed.

Lemma slice0_of_five {A} (l : list A) (count : Z) :
  length l = 5%nat ->
  slice0 l count
  = if (count <? 0)%Z then firstn (Z.to_nat (5 + count)) l else firstn (Z.to_nat count) l.
Proof.
  intros Hlen. unfold slice0. rewrite Hlen.
  destruct (count <? 0)%Z eqn:E.
  - f_equal. lia.
  - apply Z.ltb_ge in E. destruct (Z.le_gt_cases count 5) as [H | H].
    + f_equal. lia.
    + replace (Z.to_nat (Z.min count (Z.of_nat 5))) with (length l) by lia.
      rewrite firstn_all. symmetry. apply firstn_all2. lia.
Qed.

(** Template posts hold texts only: they are sent as they are. *)
Lemma wire_firstn k (l : list value) :
  map (fun x => match wire x with VUndefined => VNull | w => w end) l = l ->
  wire (VArr (firstn k l)) = VArr (firstn k l).
Proof.
  intros Hl. cbn [wire]. f_equal.
  rewrite <- firstn_map. now rewrite Hl.
Qed.

Section SingleModelContent.
Context (env : Env).

(** C10.  In the single-model revision, once the upstream has answered
    2xx with a readable [choices[0].message.content], the content route
    answers 200 however the parse goes.  When the parse throws, the
    posts are the first [count] of the five built-in templates, written
    with the business type, so never more than 5 ([slice(0, count)]: a
    negative count leaves off that many from the end).  When the text
    has no bracketed span, the posts are the empty array. *)
Theorem parse_failure_is_still_a_200
    (body : ContentBody) (status : Z) (text : string) (content : value) :
  present (businessType body) = true ->
  net env (OpenRouter.content_call body) = FetchResponds status text ->
  ok status = true ->
  read_content env text = inr content ->
  let r := fst (run (OpenRouter.contenidoia_generate env body)) in
  let count := count_of (postCount body) in
  let name := show (businessType body) in
  let five :=
    [VObj [("content",
            VStr ("✨ ¿Sabías que " ++ name ++ " puede transformar tu día? Descubre cómo 👆"));
           ("hashtags", VArr [VStr "#Emprendimiento"; VStr "#Chile"])];
     VObj [("content",
            VStr ("🔥 ¡Nuevo en " ++ name
                  ++ "! Estamos emocionados de compartir esto contigo 💯"));
           ("hashtags", VArr [VStr "#Novedades"; VStr "#Tendencias"])];
     VObj [("content",
            VStr "💡 CONSEJO DEL DÍA: Un pequeño cambio puede hacer una gran diferencia 🙌");
           ("hashtags", VArr [VStr "#Tips"; VStr "#Consejos"])];
     VObj [("content",
            VStr ("📸 Behind the scenes de " ++ name ++ " ✨ Con pasión y dedicación ❤️"));
           ("hashtags", VArr [VStr "#BehindTheScenes"; VStr "#Trabajo"])];
     VObj [("content", VStr "🎉 ¡GRACIAS por ser parte de nuestra comunidad! 🙏");
           ("hashtags", VArr [VStr "#Comunidad"; VStr "#Gracias"])]] in
  let templates :=
    if (count <? 0)%Z then firstn (Z.to_nat (5 + count)) five
    else firstn (Z.to_nat count) five in
  res_status r = 200%Z /\
  (forall e, parse_posts env content = inl e ->
     res_body r = VObj [("success", VBool true); ("posts", VArr templates)]) /\
  (forall s span,
     content = VStr s -> match_array s = Some span -> JSON_parse span = None ->
     res_body r = VObj [("success", VBool true); ("posts", VArr templates)]) /\
  (forall s, content = VStr s -> match_array s = None ->
     res_body r = VObj [("success", VBool true); ("posts", VArr [])]) /\
  (length templates <= 5)%nat /\
  ((5 <= count)%Z -> templates = five) /\
  ((0 <= count <= 5)%Z -> length templates = Z.to_nat count) /\
  generateFallbackPosts name count = templates.
Proof.
  intros Hb Hnet Hok Hcontent r count name five templates.
  assert (Hgen : generateFallbackPosts name count = templates).
  { unfold generateFallbackPosts. now rewrite slice0_of_five. }
  assert (Hr : r = success "posts"
                 match parse_posts env content with
                 | inr (Some posts) => posts
                 | inr None => VArr []
                 | inl _ => VArr templates
                 end).
  { unfold r, OpenRouter.contenidoia_generate; unfold_io.
    rewrite Hb. simpl. rewrite Hnet, Hok. simpl. rewrite Hcontent.
    fold name count. now rewrite Hgen. }
  assert (Hsent : res_body (success "posts" (VArr templates))
                  = VObj [("success", VBool true); ("posts", VArr templates)]).
  { assert (Hw : wire (VArr templates) = VArr templates)
      by (unfold templates; destruct (count <? 0)%Z; apply wire_firstn; reflexivity).
    rewrite success_sent by discriminate. now rewrite Hw. }
  repeat match goal with |- _ /\ _ => split end.
  - rewrite Hr. reflexivity.
  - intros e He. now rewrite Hr, He.
  - intros s span -> Hspan Hparse. rewrite Hr. unfold parse_posts.
    now rewrite Hspan, Hparse.
  - intros s -> Hspan. rewrite Hr. unfold parse_posts. now rewrite Hspan.
  - unfold templates. destruct (count <? 0)%Z; rewrite length_firstn; simpl length; lia.
  - intros H5. unfold templates. destruct (count <? 0)%Z eqn:E; [lia |].
    apply firstn_all2. simpl length. lia.
  - intros Hc. unfold templates. destruct (count <? 0)%Z eqn:E; [lia |].
    rewrite length_firstn. simpl length. lia.
  - exact Hgen.
Qed.

End SingleModelContent.

(** ** What the property route answers (C3) *)

(** C3, as stated, fails on the single-model revision: a 2xx reply
    whose content is the empty string is passed on as
    [{success: true, description: ''}] with status 200, and a 429 of
    the upstream is answered 429, not 500. *)
Lemma empty_description_is_answered_200 :
  run (OpenRouter.propiedadia_generate
         (scripted (fun _ => FetchResponds 200 (reply (dq "''")))) bare_property)
  = (json 200 [("success", VBool true); ("description", VStr "")],
     [OpenRouter.property_call bare_property]) /\
  res_status
    (fst (run (OpenRouter.propiedadia_generate
                 (scripted (fun _ => FetchResponds 429 "Too Many Requests"))
                 bare_property)))
  = 429%Z.
Proof. split; reflexivity. Qed.

Section PropertyResponses.
Context (env : Env).

Lemma inaia_call_result (messages : list ChatMessage) (model : string) log :
  exists r,
    Inaia.callInaiaAPI env messages model log
    = (r, (log ++ [Inaia.call messages model])%list) /\
    (forall text, r = inr text -> blank text = false).
Proof.
  unfold Inaia.callInaiaAPI, io_bind, fetch, io_ret. eexists. split; [reflexivity |].
  intros text. destruct (net env _) as [e | status body]; simpl.
  - destruct (exn_name e =? "AbortError"); discriminate.
  - destruct (ok status); simpl; [| discriminate].
    destruct (blank body) eqn:Hblank; simpl; [discriminate |].
    now intros [= <-].
Qed.

(** C3, amended.  With [propertyType] and [location] present: the
    Inaia revision answers either 200 with a description that is not
    blank (so not empty), or 500 with [{error, details}].  The
    single-model revision has no such check.  It answers 200 with
    [{success, description}], the description being what
    [choices[0].message.content] holds, or the empty string, as
    [JSON.stringify] writes it; or it relays the upstream's own non-2xx
    status, with [{error, details}] for a body unless the status is one
    that carries none (304); or it answers 500 with
    [{error, details}]. *)
Theorem property_route_answers (body : PropertyFields) :
  present (propertyType body) = true ->
  present (location body) = true ->
  let inaia := fst (run (Inaia.propiedadia_generate env body)) in
  let single := fst (run (OpenRouter.propiedadia_generate env body)) in
  ((exists d,
      res_status inaia = 200%Z /\
      res_body inaia = VObj [("success", VBool true); ("description", VStr d)] /\
      blank d = false /\ d <> "") \/
   (exists d,
      res_status inaia = 500%Z /\
      res_body inaia = VObj [("error", VStr "Error interno del servidor");
                             ("details", VStr d)])) /\
  ((exists status text d,
      net env (OpenRouter.property_call body) = FetchResponds status text /\
      ok status = true /\
      read_content env text = inr d /\
      res_status single = 200%Z /\
      res_body single = VObj [("success", VBool true); ("description", wire d)]) \/
   (exists status text details,
      net env (OpenRouter.property_call body) = FetchResponds status text /\
      ok status = false /\
      (100 <= status <= 999)%Z /\
      res_status single = status /\
      res_body single
      = if no_body status then VUndefined
        else VObj [("error", VStr "Error de OpenRouter"); ("details", wire details)]) \/
   (exists d,
      res_status single = 500%Z /\
      res_body single = VObj [("error", VStr "Error interno del servidor");
                              ("details", VStr d)])) /\
  no_body 304 = true /\
  (forall status, (400 <= status <= 599)%Z -> no_body status = false) /\
  (forall s, wire (VStr s) = VStr s) /\
  wire (VNum 1 400) = VNull.
Proof.
  intros Hp Hl inaia single. split; [| split; [| split; [| split; [| split]]]];
    [| | | | reflexivity | reflexivity].
  - unfold inaia, run, Inaia.propiedadia_generate, io_bind.
    rewrite Hp, Hl. cbn [negb orb]. cbv beta iota.
    destruct (inaia_call_result
                (chat property_system_prompt (buildPropertyPrompt body)) "kimi" [])
      as (r & -> & Hr).
    destruct r as [e | d]; simpl.
    + right. now exists (exn_message e).
    + rewrite (Hr d eq_refl). left. exists d. repeat split.
      * now apply Hr.
      * intros ->. now specialize (Hr "" eq_refl).
  - unfold single, OpenRouter.propiedadia_generate; unfold_io.
    rewrite Hp, Hl. cbn [negb orb]. cbv beta iota.
    destruct (net env (OpenRouter.property_call body)) as [e | status text] eqn:Hnet;
      cbn [fst].
    + right; right. now exists (exn_message e).
    + destruct (ok status) eqn:Hok; cbn [negb]; cbv iota.
      * destruct (read_content env text) as [e | d] eqn:Hread.
        -- right; right. now exists (exn_message e).
        -- left. exists status, text, d. repeat split; try assumption.
           apply success_sent. exact (read_content_defined env text d Hread).
      * unfold OpenRouter.upstream_error.
        destruct (error_details env (Some text)) as [e | details] eqn:Hdetails.
        -- right; right. now exists (exn_message e).
        -- destruct (writable status) eqn:Hw.
           ++ right; left. exists status, text, details.
              split; [reflexivity | split; [exact Hok | split; [| split; [reflexivity |]]]].
              ** unfold writable in Hw. lia.
              ** apply json_two. exact (error_details_defined env _ _ Hdetails).
           ++ right; right. now eexists.
  - reflexivity.
  - intros status Hs. unfold no_body.
    repeat match goal with
           | |- context [(?a <=? ?b)%Z] => destruct (Z.leb_spec a b)
           | |- context [(?a =? ?b)%Z] => destruct (Z.eqb_spec a b)
           end; simpl; try reflexivity; lia.
Qed.

End PropertyResponses.

(** ** What a bracketed text parses to *)

Lemma bottom_is_array_push f k :
  bottom_is_array k = true -> bottom_is_array (f :: k) = true.
Proof. destruct k as [| g k]; [discriminate |]. now destruct f. Qed.

Lemma complete_within v k :
  bottom_is_array k = true -> within_array (complete v k) = true.
Proof.
  destruct k as [| [done | done key] k]; [discriminate | |]; simpl.
  - now destruct k.
  - now destruct k.
Qed.

Lemma complete_array_within items k :
  root_or_below k = true -> within_array (complete (VArr items) k) = true.
Proof. destruct k as [| f k]; [reflexivity |]. apply complete_within. Qed.

Lemma value_step_within k t st :
  bottom_is_array k = true -> value_step k t = Some st -> within_array st = true.
Proof.
  intros Hk. destruct t; simpl; try discriminate; intros [= <-];
    try (now apply complete_within); simpl; try assumption.
  - now destruct k.
Qed.

Lemma pstep_within st t st' :
  within_array st = true -> pstep st t = Some st' -> within_array st' = true.
Proof.
  destruct st as [k | k | done k | k | done k | done key k | done k | v]; simpl; intros Hst.
  - now apply value_step_within.
  - destruct t; try (apply value_step_within; now destruct k).
    intros [= <-]. now apply complete_array_within.
  - destruct t; try discriminate; intros [= <-].
    + now apply complete_array_within.
    + simpl. now destruct k.
  - destruct t; try discriminate; intros [= <-]; [now apply complete_within | assumption].
  - destruct t; try discriminate; intros [= <-]. assumption.
  - destruct t; try discriminate; intros [= <-]. simpl. now destruct k.
  - destruct t; try discriminate; intros [= <-]; [now apply complete_within | assumption].
  - discriminate.
Qed.

Lemma prun_within ts : forall st st',
  within_array st = true -> prun st ts = Some st' -> within_array st' = true.
Proof.
  induction ts as [| t ts IH]; simpl; intros st st' Hst.
  - now intros [= <-].
  - destruct (pstep st t) as [st1 |] eqn:E; [| discriminate].
    apply IH. now apply (pstep_within st t).
Qed.

(** A text that opens with a bracket parses, if at all, to an array. *)
Lemma JSON_parse_bracket s v :
  JSON_parse (String "[" s) = Some v -> exists items, v = VArr items.
Proof.
  unfold JSON_parse. simpl lex. unfold cons_token.
  destruct (lex [] s) as [ts |]; simpl; [| discriminate].
  destruct (prun (PArrFirst []) ts) as [st |] eqn:E; [| discriminate].
  apply prun_within in E; [| reflexivity].
  destruct st; try discriminate. intros [= <-].
  destruct v0; try discriminate. now eexists.
Qed.

Lemma length_is_zero_or_positive v :
  is_array v = true -> length_is_positive v = false -> v = VArr [].
Proof. destruct v as [| | | | | [| x l] |]; try discriminate; reflexivity. Qed.

Lemma length_positive_not_zero v : length_is_positive v = true -> length_is_zero v = false.
Proof. destruct v as [| | | | [|] | [|] |]; try discriminate; reflexivity. Qed.

(** ** The model list (C1, C2) *)

Lemma for_of_continue {A S} (body : A -> S -> IO (S * bool)) x rest st st' log log' :
  body x st log = ((st', false), log') ->
  for_of (x :: rest) body st log = for_of rest body st' log'.
Proof. intros H. simpl. unfold io_bind. now rewrite H. Qed.

Lemma for_of_break {A S} (body : A -> S -> IO (S * bool)) x rest st st' log log' :
  body x st log = ((st', true), log') ->
  for_of (x :: rest) body st log = (st', log').
Proof. intros H. simpl. unfold io_bind. now rewrite H. Qed.

(** First success wins: once a turn breaks, the items after it are not
    visited; until then every item is. *)
Lemma for_of_first_break {A S} (body : A -> S -> IO (S * bool)) (call_of : A -> Call)
    (good : S -> Prop) tried x rest :
  Forall (fun y => forall st log, exists st',
            body y st log = ((st', false), (log ++ [call_of y])%list)) tried ->
  (forall st log, exists st',
      body x st log = ((st', true), (log ++ [call_of x])%list) /\ good st') ->
  forall st log, exists st',
    for_of (tried ++ x :: rest)%list body st log
    = (st', (log ++ map call_of (tried ++ [x]))%list) /\ good st'.
Proof.
  intros Htried Hx. induction Htried as [| y tried Hy _ IH]; intros st log.
  - destruct (Hx st log) as (st' & E & Hgood). exists st'. split; [| exact Hgood].
    exact (for_of_break body x rest st st' log _ E).
  - destruct (Hy st log) as (st1 & E).
    destruct (IH st1 (log ++ [call_of y])%list) as (st' & E' & Hgood).
    exists st'. split; [| exact Hgood].
    change ((y :: tried) ++ x :: rest)%list with (y :: (tried ++ x :: rest))%list.
    rewrite (for_of_continue body y _ st st1 log _ E), E'.
    now rewrite <- app_assoc.
Qed.

Section ModelList.
Context (env : Env).

(** Every way a [fetch] can end is a failure of the turn or a success,
    for either loop. *)
Lemma property_attempt_cases r :
  property_attempt_fails env r \/ exists d, property_attempt_yields env r d.
Proof.
  destruct r as [e | status text]; [left; constructor |].
  destruct (ok status) eqn:Hok; [| left; now constructor].
  destruct (read_content env text) as [e | d] eqn:Hread;
    [left; now apply (property_unreadable env status text e) |].
  destruct (truthy d) eqn:Hd.
  - right. exists d, status, text. now repeat split.
  - left. now apply (property_empty env status text d).
Qed.

Lemma content_attempt_cases r :
  content_attempt_fails env r \/ exists posts, content_attempt_yields env r posts.
Proof.
  destruct r as [e | status text]; [left; constructor |].
  destruct (ok status) eqn:Hok; [| left; now constructor].
  destruct (read_content env text) as [e | c] eqn:Hread;
    [left; now apply (content_unreadable env status text e) |].
  destruct (truthy c) eqn:Hc; [| left; now apply (content_empty env status text c)].
  destruct (parse_posts env c) as [e | [parsed |]] eqn:Hparse.
  - left. now apply (content_parse_throws env status text c e).
  - destruct (length_is_positive parsed) eqn:Hlen.
    + right. exists parsed, status, text, c. now repeat split.
    + left. now apply (content_no_items env status text c parsed).
  - left. now apply (content_no_span env status text c).
Qed.

Lemma read_content_falsy text d :
  read_content env text = inr d -> truthy d = false -> d = VStr "".
Proof.
  unfold read_content, response_json, choice_content, bind.
  destruct (JSON_parse text) as [data |]; [| discriminate]. simpl.
  destruct (get env data "choices") as [e | choices]; [discriminate |].
  destruct (get0 env choices) as [e | first]; [discriminate |].
  unfold ret, js_or. intros [= <-].
  destruct (truthy (get_opt (get_opt first "message") "content")) eqn:E;
    [now rewrite E | reflexivity].
Qed.

Lemma parse_posts_array c parsed :
  parse_posts env c = inr (Some parsed) -> is_array parsed = true.
Proof.
  unfold parse_posts. destruct c; try discriminate.
  destruct (match_array s) as [span |] eqn:Hspan; [| discriminate].
  destruct (JSON_parse span) as [v |] eqn:Hparse; [| discriminate].
  intros [= <-].
  destruct (match_array_some _ _ Hspan) as (pre & mid & post & _ & _ & _ & ->).
  destruct (JSON_parse_bracket _ _ Hparse) as (items & ->). reflexivity.
Qed.

(** A failed turn: the loop goes on, [lastError] takes the turn's text
    if it has one, and the result variable still holds its initial
    value. *)
Lemma try_property_failed body modelId lastError log :
  property_attempt_fails env (net env (Fallback.property_call body modelId)) ->
  Fallback.try_property env body modelId (lastError, VStr "") log
  = (((record lastError (failure_text env (net env (Fallback.property_call body modelId))),
       VStr ""), false),
     (log ++ [Fallback.property_call body modelId])%list).
Proof.
  unfold Fallback.try_property, io_bind, fetch, io_ret, failure_text.
  intros H. inversion H as [e E | status text Hok E | status text e Hok Hread E
                           | status text d Hok Hread Hd E]; simpl.
  - reflexivity.
  - now rewrite Hok.
  - now rewrite Hok, Hread.
  - rewrite Hok, Hread, Hd. now rewrite (read_content_falsy _ _ Hread Hd).
Qed.

Lemma try_property_yielded body modelId d st log :
  property_attempt_yields env (net env (Fallback.property_call body modelId)) d ->
  Fallback.try_property env body modelId st log
  = (((fst st, d), true), (log ++ [Fallback.property_call body modelId])%list).
Proof.
  intros (status & text & Hnet & Hok & Hread & Hd). destruct st as [lastError description].
  unfold Fallback.try_property, io_bind, fetch, io_ret.
  now rewrite Hnet, Hok, Hread, Hd.
Qed.

Lemma try_content_failed body modelId lastError log :
  content_attempt_fails env (net env (Fallback.content_call body modelId)) ->
  Fallback.try_content env body modelId (lastError, VArr []) log
  = (((record lastError (failure_text env (net env (Fallback.content_call body modelId))),
       VArr []), false),
     (log ++ [Fallback.content_call body modelId])%list).
Proof.
  unfold Fallback.try_content, io_bind, fetch, io_ret, failure_text.
  intros H.
  inversion H as [e E | status text Hok E | status text e Hok Hread E
                 | status text c Hok Hread Hc E
                 | status text c e Hok Hread Hc Hparse E
                 | status text c Hok Hread Hc Hparse E
                 | status text c parsed Hok Hread Hc Hparse Hlen E]; simpl.
  - reflexivity.
  - now rewrite Hok.
  - now rewrite Hok, Hread.
  - now rewrite Hok, Hread, Hc.
  - now rewrite Hok, Hread, Hc, Hparse.
  - now rewrite Hok, Hread, Hc, Hparse.
  - rewrite Hok, Hread, Hc, Hparse, Hlen.
    now rewrite (length_is_zero_or_positive parsed (parse_posts_array _ _ Hparse) Hlen).
Qed.

Lemma try_content_yielded body modelId posts st log :
  content_attempt_yields env (net env (Fallback.content_call body modelId)) posts ->
  Fallback.try_content env body modelId st log
  = (((fst st, posts), true), (log ++ [Fallback.content_call body modelId])%list).
Proof.
  intros (status & text & c & Hnet & Hok & Hread & Hc & Hparse & Hlen).
  destruct st as [lastError posts0].
  unfold Fallback.try_content, io_bind, fetch, io_ret.
  now rewrite Hnet, Hok, Hread, Hc, Hparse, Hlen.
Qed.

(** A loop whose every turn fails visits every item and ends with the
    last text recorded. *)
Lemma for_of_all_failed {A} (body : A -> Fallback.LoopState -> IO (Fallback.LoopState * bool))
    (call_of : A -> Call) (text_of : A -> option string) (initial : value) items :
  Forall (fun x => forall lastError log,
            body x (lastError, initial) log
            = (((record lastError (text_of x), initial), false),
               (log ++ [call_of x])%list)) items ->
  forall lastError log,
    for_of items body (lastError, initial) log
    = ((fold_left record (map text_of items) lastError, initial),
       (log ++ map call_of items)%list).
Proof.
  induction 1 as [| x items Hx _ IH]; intros lastError log.
  - simpl. unfold io_ret. now rewrite app_nil_r.
  - rewrite (for_of_continue body x items _ _ log _ (Hx lastError log)), IH.
    simpl. now rewrite <- app_assoc.
Qed.

End ModelList.

Section FallbackPolicy.
Context (env : Env).

(** C1.  The loops try the models of the list in order.  A turn that
    fails (rejected fetch, which is how a network error or a timeout
    shows, non-2xx status, unreadable or empty reply and, for the posts,
    a parse that throws, finds no span or yields no item) is followed by
    the next model; the first turn that succeeds ends the loop with its
    result as a 200, and no later model is called.  With the four models
    of the list, three failures and a success make exactly four calls.
    Every end of a [fetch] is one of these failures or a success. *)
Theorem first_success_ends_the_loop
    (pbody : PropertyFields) (cbody : ContentBody)
    (tried : list string) (winner : string) (rest : list string)
    (description posts : value) :
  Fallback.models = (tried ++ winner :: rest)%list ->
  present (propertyType pbody) = true ->
  present (location pbody) = true ->
  present (businessType cbody) = true ->
  (Forall (fun m => property_attempt_fails env (net env (Fallback.property_call pbody m)))
     tried ->
   property_attempt_yields env (net env (Fallback.property_call pbody winner)) description ->
   run (Fallback.propiedadia_generate env pbody)
   = (success "description" description,
      map (Fallback.property_call pbody) (tried ++ [winner]))) /\
  (Forall (fun m => content_attempt_fails env (net env (Fallback.content_call cbody m)))
     tried ->
   content_attempt_yields env (net env (Fallback.content_call cbody winner)) posts ->
   run (Fallback.contenidoia_generate env cbody)
   = (success "posts" posts, map (Fallback.content_call cbody) (tried ++ [winner]))) /\
  length Fallback.models = 4%nat /\
  (length tried = 3%nat ->
   length (map (Fallback.property_call pbody) (tried ++ [winner])) = 4%nat /\
   map call_model (map (Fallback.property_call pbody) (tried ++ [winner])) = Fallback.models) /\
  (forall r, property_attempt_fails env r \/ exists d, property_attempt_yields env r d) /\
  (forall r, content_attempt_fails env r \/ exists p, content_attempt_yields env r p).
Proof.
  intros Hmodels Hp Hl Hb.
  split; [| split; [| split; [| split; [| split;
    [apply property_attempt_cases | apply content_attempt_cases]]]]].
  - intros Hfail Hwin.
    unfold run, Fallback.propiedadia_generate, io_bind.
    rewrite Hp, Hl, Hmodels. cbn [negb orb]. cbv beta iota.
    destruct (for_of_first_break (Fallback.try_property env pbody)
                (Fallback.property_call pbody) (fun st => snd st = description)
                tried winner rest) with (st := (None : option string, VStr "")) (log := @nil Call)
      as ([lastError d] & -> & Hd).
    + eapply Forall_impl; [| exact Hfail]. intros m Hm [lastError d] log.
      inversion Hm as [e E | status text Hok E | status text e Hok Hread E
                      | status text d' Hok Hread Hd' E];
        unfold Fallback.try_property, io_bind, fetch, io_ret; rewrite <- E;
        try rewrite Hok; try rewrite Hread; try rewrite Hd'; eexists; reflexivity.
    + intros st log. eexists.
      split; [exact (try_property_yielded env pbody winner description st log Hwin) | reflexivity].
    + simpl in Hd. subst d. destruct Hwin as (status & text & _ & _ & _ & Ht).
      unfold io_ret. now rewrite Ht.
  - intros Hfail Hwin.
    unfold run, Fallback.contenidoia_generate, io_bind.
    rewrite Hb, Hmodels. cbn [negb]. cbv beta iota.
    destruct (for_of_first_break (Fallback.try_content env cbody)
                (Fallback.content_call cbody) (fun st => snd st = posts)
                tried winner rest) with (st := (None : option string, VArr [])) (log := @nil Call)
      as ([lastError d] & -> & Hd).
    + eapply Forall_impl; [| exact Hfail]. intros m Hm [lastError d] log.
      inversion Hm as [e E | status text Hok E | status text e Hok Hread E
                      | status text c Hok Hread Hc E
                      | status text c e Hok Hread Hc Hparse E
                      | status text c Hok Hread Hc Hparse E
                      | status text c parsed Hok Hread Hc Hparse Hlen E];
        unfold Fallback.try_content, io_bind, fetch, io_ret; rewrite <- E;
        try rewrite Hok; try rewrite Hread; try rewrite Hc; try rewrite Hparse;
        try rewrite Hlen; eexists; reflexivity.
    + intros st log. eexists.
      split; [exact (try_content_yielded env cbody winner posts st log Hwin) | reflexivity].
    + simpl in Hd. subst d.
      destruct Hwin as (status & text & c & _ & _ & _ & _ & _ & Hlen).
      unfold io_ret. now rewrite (length_positive_not_zero _ Hlen).
  - reflexivity.
  - intros Hlen. split.
    + now rewrite length_map, length_app, Hlen.
    + rewrite map_map. simpl. rewrite map_id, Hmodels.
      assert (Hrest : rest = []).
      { apply (f_equal (@length string)) in Hmodels.
        rewrite length_app in Hmodels. simpl in Hmodels. rewrite Hlen in Hmodels.
        destruct rest; [reflexivity | simpl in Hmodels; lia]. }
      now rewrite Hrest.
Qed.

(** C2, as stated, fails: the first model answers 503 with a text and
    the other three answer 2xx with empty content.  The last failure
    seen is an empty reply, yet [details] carries the first model's
    text: an empty reply leaves nothing in [lastError]. *)
Lemma details_can_come_from_an_earlier_failure :
  run (Fallback.propiedadia_generate first_down_upstream bare_property)
  = (json 500 [("error", VStr "Error de IA (Agotado)");
               ("details", VStr "first model is down")],
     map (Fallback.property_call bare_property) Fallback.models) /\
  net first_down_upstream
    (Fallback.property_call bare_property "meta-llama/llama-3.1-8b-instruct:free")
  = FetchResponds 503 "first model is down" /\
  net first_down_upstream
    (Fallback.property_call bare_property "meta-llama/llama-3-8b-instruct:free")
  = FetchResponds 200 (reply (dq "''")) /\
  read_content first_down_upstream (reply (dq "''")) = inr (VStr "").
Proof. repeat split. Qed.

(** C2, amended.  When every model fails, all of them have been called
    and the answer is a 500.  Its [details] come from the text left by
    the last failure that leaves one (a rejected fetch, a non-2xx reply,
    an unreadable 2xx reply): [error.message] or [message] of that text
    read as JSON when there is one, else the text itself.  Failures by
    empty content, and for the posts by a parse without items, leave
    that text as it was. *)
Theorem exhaustion_reports_the_last_recorded_text
    (pbody : PropertyFields) (cbody : ContentBody) :
  present (propertyType pbody) = true ->
  present (location pbody) = true ->
  present (businessType cbody) = true ->
  (Forall (fun m => property_attempt_fails env (net env (Fallback.property_call pbody m)))
     Fallback.models ->
   run (Fallback.propiedadia_generate env pbody)
   = (Fallback.exhausted env
        (last_text (map (fun m => failure_text env (net env (Fallback.property_call pbody m)))
                      Fallback.models)),
      map (Fallback.property_call pbody) Fallback.models)) /\
  (Forall (fun m => content_attempt_fails env (net env (Fallback.content_call cbody m)))
     Fallback.models ->
   run (Fallback.contenidoia_generate env cbody)
   = (Fallback.exhausted env
        (last_text (map (fun m => failure_text env (net env (Fallback.content_call cbody m)))
                      Fallback.models)),
      map (Fallback.content_call cbody) Fallback.models)) /\
  (forall lastError, res_status (Fallback.exhausted env lastError) = 500%Z) /\
  (forall text,
     nullish (parse_error_json (Some text)) = false ->
     Fallback.exhausted env (Some text)
     = json 500 [("error", VStr "Error de IA (Agotado)"); ("details", details_of text)]) /\
  (forall text, JSON_parse text = None -> details_of text = VStr text).
Proof.
  intros Hp Hl Hb. split; [| split; [| split; [| split]]].
  - intros Hfail. unfold run, Fallback.propiedadia_generate, io_bind.
    rewrite Hp, Hl. cbn [negb orb]. cbv beta iota.
    rewrite (for_of_all_failed (Fallback.try_property env pbody)
               (Fallback.property_call pbody)
               (fun m => failure_text env (net env (Fallback.property_call pbody m)))
               (VStr "")).
    + reflexivity.
    + eapply Forall_impl; [| exact Hfail]. intros m Hm lastError log.
      now apply try_property_failed.
  - intros Hfail. unfold run, Fallback.contenidoia_generate, io_bind.
    rewrite Hb. cbn [negb]. cbv beta iota.
    rewrite (for_of_all_failed (Fallback.try_content env cbody)
               (Fallback.content_call cbody)
               (fun m => failure_text env (net env (Fallback.content_call cbody m)))
               (VArr [])).
    + reflexivity.
    + eapply Forall_impl; [| exact Hfail]. intros m Hm lastError log.
      now apply try_content_failed.
  - intros lastError. unfold Fallback.exhausted.
    now destruct (error_details env lastError).
  - intros text Hnull. unfold Fallback.exhausted, error_details, details_of.
    destruct (parse_error_json (Some text)) as [| | b | m e | s | items | props];
      try reflexivity; discriminate.
  - intros text Hparse. unfold details_of, parse_error_json. rewrite Hparse.
    now destruct text.
Qed.

End FallbackPolicy.

(** ** The cross-origin check (C8) *)

(** C8, as stated, fails for an Origin header that is present but
    empty: the empty string is not in the allow-list, and [!origin]
    lets the request through all the same. *)
Lemma empty_origin_is_let_through :
  includes (allowedOrigins None) "" = false /\
  origin_callback false (allowedOrigins None) (Some "") = inr true /\
  origin_callback true (allowedOrigins None) (Some "") = inr true.
Proof. repeat split. Qed.

(** C8, amended.  A request with a non-empty origin outside the
    allow-list ends in the error of the callback, whatever its method
    and path: no route runs, no upstream call is made and the limiter
    does not count it.  A request with no Origin header, with an empty
    one, or with an origin of the allow-list is accepted by [cors]: an
    OPTIONS request is then answered by [cors] itself with 204 and goes
    no further; any other request goes on to the limiter (on the paths
    under [/api]) and the routes. *)
Theorem origin_outside_the_list_is_rejected
    (detailed : bool) (allowed : list string) (opts : LimiterOptions)
    (router : Request -> IO Response) (req : Request)
    (store : gmap string (nat * Z)) (log : list Call) :
  (forall origin,
     req_origin req = Some origin -> origin <> "" -> includes allowed origin = false ->
     app detailed allowed opts router req store log
     = ((Failed (Error (if detailed then "No permitido por CORS: " ++ origin
                        else "No permitido por CORS")), store), log)) /\
  (present (req_origin req) = false \/
   (exists origin, req_origin req = Some origin /\ includes allowed origin = true) ->
   (req_method req = "OPTIONS" ->
    app detailed allowed opts router req store log
    = ((Preflight {| res_status := 204; res_body := VUndefined |}, store), log)) /\
   (req_method req <> "OPTIONS" ->
    app detailed allowed opts router req store log
    = behind_cors opts router req store log)) /\
  (under_api (req_path req) = false ->
   behind_cors opts router req store log
   = ((Routed (fst (router req log)), store), snd (router req log))) /\
  (under_api (req_path req) = true ->
   forall verdict store', limiter opts req store = (verdict, store') ->
   behind_cors opts router req store log
   = match verdict with
     | Some r => ((Limited r, store'), log)
     | None => ((Routed (fst (router req log)), store'), snd (router req log))
     end).
Proof.
  split; [| split; [| split]].
  - intros origin Horigin Hne Hout. unfold app, origin_callback. rewrite Horigin. simpl.
    apply String.eqb_neq in Hne. now rewrite Hne, Hout.
  - intros Haccepted.
    assert (Hcb : origin_callback detailed allowed (req_origin req) = inr true).
    { unfold origin_callback. destruct Haccepted as [-> | (origin & -> & Hin)];
        [reflexivity |].
      simpl. rewrite Hin. now destruct (origin =? ""). }
    unfold app. rewrite Hcb. split.
    + intros ->. reflexivity.
    + intros Hmethod. apply String.eqb_neq in Hmethod. now rewrite Hmethod.
  - intros Hpath. unfold behind_cors, io_bind, io_ret. rewrite Hpath.
    now destruct (router req log).
  - intros Hpath verdict store' Hlimiter. unfold behind_cors, io_bind, io_ret.
    rewrite Hpath, Hlimiter. destruct verdict; [reflexivity |].
    now destruct (router req log).
Qed.

(** ** The limiter (C7) *)

Section Limiter.
Context (opts : LimiterOptions) (ip : string).






End Limiter.




(** * The theorems at work on concrete runs *)

Lemma missing_field_witness :
  (run (OpenRouter.propiedadia_generate flaky_upstream body_without_location)
   = (missing_property_fields, []) /\
   run (Fallback.propiedadia_generate flaky_upstream body_without_location)
   = (missing_property_fields, []) /\
   run (Inaia.propiedadia_generate flaky_upstream body_without_location)
   = (missing_property_fields, [])) /\
  (run (OpenRouter.contenidoia_generate flaky_upstream body_without_business)
   = (missing_business_type, []) /\
   run (Fallback.contenidoia_generate flaky_upstream body_without_business)
   = (missing_business_type, []) /\
   run (Inaia.contenidoia_generate flaky_upstream body_without_business)
   = (missing_business_type, [])).
Proof.
  destruct (missing_field_is_400_without_upstream_call flaky_upstream
              body_without_location body_without_business) as (Hp & Hc & _).
  split; [apply Hp; right; reflexivity | apply Hc; reflexivity].
Defined.

Lemma count_witness :
  count_of (Some (CountNumber 7)) = 7%Z /\
  snd (run (OpenRouter.contenidoia_generate flaky_upstream
              (sample_content_body (Some (CountNumber 7)))))
  = [OpenRouter.content_call (sample_content_body (Some (CountNumber 7)))].
Proof.
  destruct (count_is_capped_at_30 flaky_upstream
              (sample_content_body (Some (CountNumber 7))) 7)
    as (_ & _ & _ & _ & Hcount & _ & _ & _ & _ & _ & _ & _ & _ & _ & Hcall & _).
  - reflexivity.
  - reflexivity.
  - split; [| exact Hcall].
    destruct Hcount as (Hseven & _); [left; reflexivity | exact Hseven].
Defined.

Lemma unrecognized_style_witness :
  buildPropertyPrompt (with_style bare_property (Some "moderno"))
  = buildPropertyPrompt (with_style bare_property None).
Proof.
  destruct (unrecognized_choice_gets_the_default bare_property
              (content_fields (sample_content_body None) 5) "moderno" eq_refl)
    as (Hstyle & _).
  apply Hstyle. reflexivity.
Defined.

Lemma chatty_reply_witness :
  match_array chatty_reply = Some (dq "[{'content':'hi','hashtags':['#a']}]").
Proof.
  apply (proj1 (posts_span_is_first_open_to_last_close flaky_upstream chatty_reply
                  (dq "[{'content':'hi','hashtags':['#a']}]"))).
  exists (String.append "Here you go:" (String LF "")),
    (dq "{'content':'hi','hashtags':['#a']}"), (String LF "Enjoy!").
  repeat split.
Defined.

Lemma template_posts_witness :
  exists others,
    res_body (fst (run (OpenRouter.contenidoia_generate
                          (steady_upstream (dq "'Claro: [uno, dos]'"))
                          (sample_content_body (Some (CountNumber 7))))))
    = VObj [("success", VBool true);
            ("posts",
             VArr (post "✨ ¿Sabías que cafetería puede transformar tu día? Descubre cómo 👆"
                     ["#Emprendimiento"; "#Chile"] :: others))] /\
    length others = 4%nat.
Proof.
  destruct (parse_failure_is_still_a_200 (steady_upstream (dq "'Claro: [uno, dos]'"))
              (sample_content_body (Some (CountNumber 7))) 200
              (reply (dq "'Claro: [uno, dos]'")) (VStr "Claro: [uno, dos]")
              eq_refl eq_refl eq_refl eq_refl)
    as (_ & _ & Hspan & _).
  eexists. split.
  - rewrite (Hspan "Claro: [uno, dos]" "[uno, dos]"); reflexivity.
  - reflexivity.
Defined.

Lemma property_answers_witness :
  (exists d,
     res_status (fst (run (Inaia.propiedadia_generate
                             (scripted (fun _ => FetchResponds 200 "Casa luminosa"))
                             bare_property))) = 200%Z /\
     res_body (fst (run (Inaia.propiedadia_generate
                           (scripted (fun _ => FetchResponds 200 "Casa luminosa"))
                           bare_property)))
     = VObj [("success", VBool true); ("description", VStr d)] /\
     blank d = false /\ d <> "") \/
  (exists d,
     res_status (fst (run (Inaia.propiedadia_generate
                             (scripted (fun _ => FetchResponds 200 "Casa luminosa"))
                             bare_property))) = 500%Z /\
     res_body (fst (run (Inaia.propiedadia_generate
                           (scripted (fun _ => FetchResponds 200 "Casa luminosa"))
                           bare_property)))
     = VObj [("error", VStr "Error interno del servidor"); ("details", VStr d)]).
Proof.
  exact (proj1 (property_route_answers
                  (scripted (fun _ => FetchResponds 200 "Casa luminosa")) bare_property
                  eq_refl eq_refl)).
Defined.

Lemma four_attempts_witness :
  run (Fallback.propiedadia_generate flaky_upstream bare_property)
  = (success "description" (VStr (dq "[{'content':'hi','hashtags':['#a']}]")),
     map (Fallback.property_call bare_property) Fallback.models) /\
  run (Fallback.contenidoia_generate flaky_upstream (sample_content_body None))
  = (success "posts" (VArr [post "hi" ["#a"]]),
     map (Fallback.content_call (sample_content_body None)) Fallback.models).
Proof.
  destruct (first_success_ends_the_loop flaky_upstream bare_property
              (sample_content_body None)
              ["meta-llama/llama-3.1-8b-instruct:free";
               "mistralai/mistral-7b-instruct:free";
               "google/gemma-7b-it:free"]
              "meta-llama/llama-3-8b-instruct:free" []
              (VStr (dq "[{'content':'hi','hashtags':['#a']}]"))
              (VArr [post "hi" ["#a"]])
              eq_refl eq_refl eq_refl eq_refl) as (Hp & Hc & _).
  split.
  - apply Hp.
    + apply Forall_cons; [apply property_transport |].
      apply Forall_cons;
        [apply (property_status flaky_upstream 503 "Service Unavailable"); reflexivity |].
      apply Forall_cons; [| apply Forall_nil].
      apply (property_empty flaky_upstream 200 (reply (dq "''")) (VStr "")); reflexivity.
    + exists 200%Z. eexists. repeat split.
  - apply Hc.
    + apply Forall_cons; [apply content_transport |].
      apply Forall_cons;
        [apply (content_status flaky_upstream 503 "Service Unavailable"); reflexivity |].
      apply Forall_cons; [| apply Forall_nil].
      apply (content_empty flaky_upstream 200 (reply (dq "''")) (VStr "")); reflexivity.
    + exists 200%Z. eexists. eexists. repeat split.
Defined.

Lemma exhaustion_witness :
  run (Fallback.propiedadia_generate dead_upstream bare_property)
  = (json 500 [("error", VStr "Error de IA (Agotado)");
               ("details", VStr "Rate limit exceeded")],
     map (Fallback.property_call bare_property) Fallback.models).
Proof.
  destruct (exhaustion_reports_the_last_recorded_text dead_upstream bare_property
              (sample_content_body None) eq_refl eq_refl eq_refl) as (Hp & _).
  rewrite Hp; [reflexivity |].
  apply Forall_cons; [apply property_transport |].
  apply Forall_cons;
    [apply (property_status dead_upstream 429
              (dq "{'error':{'message':'Rate limit exceeded','code':429}}")); reflexivity |].
  apply Forall_cons;
    [apply (property_empty dead_upstream 200 (reply (dq "''")) (VStr "")); reflexivity |].
  apply Forall_cons; [| apply Forall_nil].
  apply (property_empty dead_upstream 200 (reply (dq "''")) (VStr "")); reflexivity.
Defined.

Lemma evil_origin_witness :
  app true (allowedOrigins None) limiter_options
    (fun _ => io_ret (json 200 [("status", VStr "ok")])) evil_request ∅ []
  = ((Failed (Error "No permitido por CORS: https://evil.example"), ∅), []).
Proof.
  destruct (origin_outside_the_list_is_rejected true (allowedOrigins None) limiter_options
              (fun _ => io_ret (json 200 [("status", VStr "ok")])) evil_request ∅ [])
    as (Hout & _).
  apply (Hout "https://evil.example"); [reflexivity | discriminate | reflexivity].
Defined.


(** * More of the code *)

(** ** How many calls a request costs *)

(** A loop whose turns each log one call logs a prefix of its items'
    calls, and at least one when there is an item. *)
Lemma for_of_calls_prefix {A St} (body : A -> St -> IO (St * bool)) (call_of : A -> Call)
    (items : list A) :
  (forall x st log, snd (body x st log) = (log ++ [call_of x])%list) ->
  forall st log, exists n,
    (n <= length items)%nat /\ (items <> [] -> 1 <= n)%nat /\
    snd (for_of items body st log) = (log ++ map call_of (firstn n items))%list.
Proof.
  intros Hone. induction items as [| x rest IH]; intros st log.
  - exists 0%nat. repeat split; [lia | congruence | simpl; now rewrite app_nil_r].
  - simpl for_of. unfold io_bind.
    destruct (body x st log) as [[st' stop] log'] eqn:E.
    assert (Hlog : log' = (log ++ [call_of x])%list)
      by (rewrite <- (Hone x st log), E; reflexivity).
    simpl snd. simpl fst. destruct stop.
    + exists 1%nat. repeat split; [simpl; lia | lia |]. now rewrite Hlog.
    + destruct (IH st' log') as (n & Hn & _ & E').
      exists (S n). repeat split; [simpl; lia | lia |].
      rewrite E', Hlog. simpl. now rewrite <- app_assoc.
Qed.

Section CallBudget.
Context (env : Env).

Lemma try_property_logs_one body modelId st log :
  snd (Fallback.try_property env body modelId st log)
  = (log ++ [Fallback.property_call body modelId])%list.
Proof. now destruct st. Qed.

Lemma try_content_logs_one body modelId st log :
  snd (Fallback.try_content env body modelId st log)
  = (log ++ [Fallback.content_call body modelId])%list.
Proof. now destruct st. Qed.

(** X1.  A request whose fields are JSON strings ([postCount] a whole
    number or a string) and which passes validation costs exactly one
    upstream call in the single-model and the Inaia revisions, however
    that call ends; in the revision with the model list it costs
    between one and four, made to the models of the list in order from
    the first. *)
Theorem upstream_call_budget (pbody : PropertyFields) (cbody : ContentBody) :
  present (propertyType pbody) = true ->
  present (location pbody) = true ->
  present (businessType cbody) = true ->
  snd (run (OpenRouter.propiedadia_generate env pbody)) = [OpenRouter.property_call pbody] /\
  snd (run (OpenRouter.contenidoia_generate env cbody)) = [OpenRouter.content_call cbody] /\
  snd (run (Inaia.propiedadia_generate env pbody)) = [Inaia.property_call pbody] /\
  snd (run (Inaia.contenidoia_generate env cbody)) = [Inaia.content_call cbody] /\
  (exists n, (1 <= n <= 4)%nat /\
     snd (run (Fallback.propiedadia_generate env pbody))
     = map (Fallback.property_call pbody) (firstn n Fallback.models)) /\
  (exists n, (1 <= n <= 4)%nat /\
     snd (run (Fallback.contenidoia_generate env cbody))
     = map (Fallback.content_call cbody) (firstn n Fallback.models)).
Proof.
  intros Hp Hl Hb.
  repeat match goal with |- _ /\ _ => split end.
  - unfold OpenRouter.propiedadia_generate; unfold_io. now rewrite Hp, Hl.
  - unfold OpenRouter.contenidoia_generate; unfold_io. now rewrite Hb.
  - unfold Inaia.propiedadia_generate, Inaia.callInaiaAPI; unfold_io. now rewrite Hp, Hl.
  - unfold Inaia.contenidoia_generate, Inaia.callInaiaAPI; unfold_io. now rewrite Hb.
  - destruct (for_of_calls_prefix (Fallback.try_property env pbody)
                (Fallback.property_call pbody) Fallback.models
                (try_property_logs_one pbody) (None, VStr "") [])
      as (n & Hn & Hone & E).
    exists n. split; [split; [apply Hone; discriminate | exact Hn] |].
    unfold run, Fallback.propiedadia_generate, io_bind. rewrite Hp, Hl.
    cbn [negb orb]. cbv beta iota.
    destruct (for_of Fallback.models (Fallback.try_property env pbody) (None, VStr "") [])
      as [[lastError d] log]. exact E.
  - destruct (for_of_calls_prefix (Fallback.try_content env cbody)
                (Fallback.content_call cbody) Fallback.models
                (try_content_logs_one cbody) (None, VArr []) [])
      as (n & Hn & Hone & E).
    exists n. split; [split; [apply Hone; discriminate | exact Hn] |].
    unfold run, Fallback.contenidoia_generate, io_bind. rewrite Hb.
    cbn [negb]. cbv beta iota.
    destruct (for_of Fallback.models (Fallback.try_content env cbody) (None, VArr []) [])
      as [[lastError d] log]. exact E.
Qed.

End CallBudget.

(** ** Which answer the model list gives *)

(** Either every item fails, or the list splits at its first success. *)
Lemma all_fail_or_first_success {A D} (fails : A -> Prop) (yields : A -> D -> Prop)
    (items : list A) :
  (forall x, fails x \/ exists d, yields x d) ->
  Forall fails items \/
  exists tried winner rest d,
    items = (tried ++ winner :: rest)%list /\ Forall fails tried /\ yields winner d.
Proof.
  intros Hcases. induction items as [| x items IH]; [left; constructor |].
  destruct (Hcases x) as [Hx | (d & Hx)].
  - destruct IH as [Hall | (tried & winner & rest & d & -> & Htried & Hwin)].
    + left. now constructor.
    + right. exists (x :: tried), winner, rest, d. repeat split; [| exact Hwin].
      now constructor.
  - right. exists [], x, items, d. repeat split; [constructor | exact Hx].
Qed.

Section ModelListAnswer.
Context (env : Env).

Lemma property_fails_not_yields r d :
  property_attempt_fails env r -> property_attempt_yields env r d -> False.
Proof.
  intros Hf (status & text & -> & Hok & Hread & Hd).
  inversion Hf; congruence.
Qed.

Lemma content_fails_not_yields r posts :
  content_attempt_fails env r -> content_attempt_yields env r posts -> False.
Proof.
  intros Hf (status & text & c & -> & Hok & Hread & Hc & Hparse & Hlen).
  inversion Hf; congruence.
Qed.

Lemma property_route_won body tried winner rest d :
  present (propertyType body) = true ->
  present (location body) = true ->
  Fallback.models = (tried ++ winner :: rest)%list ->
  Forall (fun m => property_attempt_fails env (net env (Fallback.property_call body m)))
    tried ->
  property_attempt_yields env (net env (Fallback.property_call body winner)) d ->
  fst (run (Fallback.propiedadia_generate env body)) = success "description" d.
Proof.
  intros Hp Hl Hmodels Hfail Hwin.
  unfold run, Fallback.propiedadia_generate, io_bind.
  rewrite Hp, Hl, Hmodels. cbn [negb orb]. cbv beta iota.
  destruct (for_of_first_break (Fallback.try_property env body)
              (Fallback.property_call body) (fun st => snd st = d)
              tried winner rest) with (st := (None : option string, VStr "")) (log := @nil Call)
    as ([lastError d'] & -> & Hd).
  - eapply Forall_impl; [| exact Hfail]. intros m Hm [lastError d'] log.
    inversion Hm as [e E | status text Hok E | status text e Hok Hread E
                    | status text d0 Hok Hread Hd0 E];
      unfold Fallback.try_property, io_bind, fetch, io_ret; rewrite <- E;
      try rewrite Hok; try rewrite Hread; try rewrite Hd0; eexists; reflexivity.
  - intros st log. eexists.
    split; [exact (try_property_yielded env body winner d st log Hwin) | reflexivity].
  - simpl in Hd. subst d'. destruct Hwin as (status & text & _ & _ & _ & Ht).
    unfold io_ret. now rewrite Ht.
Qed.

Lemma content_route_won body tried winner rest posts :
  present (businessType body) = true ->
  Fallback.models = (tried ++ winner :: rest)%list ->
  Forall (fun m => content_attempt_fails env (net env (Fallback.content_call body m)))
    tried ->
  content_attempt_yields env (net env (Fallback.content_call body winner)) posts ->
  fst (run (Fallback.contenidoia_generate env body)) = success "posts" posts.
Proof.
  intros Hb Hmodels Hfail Hwin.
  unfold run, Fallback.contenidoia_generate, io_bind.
  rewrite Hb, Hmodels. cbn [negb]. cbv beta iota.
  destruct (for_of_first_break (Fallback.try_content env body)
              (Fallback.content_call body) (fun st => snd st = posts)
              tried winner rest) with (st := (None : option string, VArr [])) (log := @nil Call)
    as ([lastError d'] & -> & Hd).
  - eapply Forall_impl; [| exact Hfail]. intros m Hm [lastError d'] log.
    inversion Hm as [e E | status text Hok E | status text e Hok Hread E
                    | status text c Hok Hread Hc E
                    | status text c e Hok Hread Hc Hparse E
                    | status text c Hok Hread Hc Hparse E
                    | status text c parsed Hok Hread Hc Hparse Hlen E];
      unfold Fallback.try_content, io_bind, fetch, io_ret; rewrite <- E;
      try rewrite Hok; try rewrite Hread; try rewrite Hc; try rewrite Hparse;
      try rewrite Hlen; eexists; reflexivity.
  - intros st log. eexists.
    split; [exact (try_content_yielded env body winner posts st log Hwin) | reflexivity].
  - simpl in Hd. subst d'.
    destruct Hwin as (status & text & c & _ & _ & _ & _ & _ & Hlen).
    unfold io_ret. now rewrite (length_positive_not_zero _ Hlen).
Qed.

Lemma property_route_lost body :
  present (propertyType body) = true ->
  present (location body) = true ->
  Forall (fun m => property_attempt_fails env (net env (Fallback.property_call body m)))
    Fallback.models ->
  fst (run (Fallback.propiedadia_generate env body))
  = Fallback.exhausted env
      (last_text (map (fun m => failure_text env (net env (Fallback.property_call body m)))
                    Fallback.models)).
Proof.
  intros Hp Hl Hfail. unfold run, Fallback.propiedadia_generate, io_bind.
  rewrite Hp, Hl. cbn [negb orb]. cbv beta iota.
  rewrite (for_of_all_failed (Fallback.try_property env body)
             (Fallback.property_call body)
             (fun m => failure_text env (net env (Fallback.property_call body m)))
             (VStr "")).
  - reflexivity.
  - eapply Forall_impl; [| exact Hfail]. intros m Hm lastError log.
    now apply try_property_failed.
Qed.

Lemma content_route_lost body :
  present (businessType body) = true ->
  Forall (fun m => content_attempt_fails env (net env (Fallback.content_call body m)))
    Fallback.models ->
  fst (run (Fallback.contenidoia_generate env body))
  = Fallback.exhausted env
      (last_text (map (fun m => failure_text env (net env (Fallback.content_call body m)))
                    Fallback.models)).
Proof.
  intros Hb Hfail. unfold run, Fallback.contenidoia_generate, io_bind.
  rewrite Hb. cbn [negb]. cbv beta iota.
  rewrite (for_of_all_failed (Fallback.try_content env body)
             (Fallback.content_call body)
             (fun m => failure_text env (net env (Fallback.content_call body m)))
             (VArr [])).
  - reflexivity.
  - eapply Forall_impl; [| exact Hfail]. intros m Hm lastError log.
    now apply try_content_failed.
Qed.

Lemma exhausted_is_500 lastError : res_status (Fallback.exhausted env lastError) = 500%Z.
Proof. unfold Fallback.exhausted. now destruct (error_details env lastError). Qed.

(** The two ends of the property loop. *)
Lemma property_route_ends body :
  present (propertyType body) = true ->
  present (location body) = true ->
  (Forall (fun m => property_attempt_fails env (net env (Fallback.property_call body m)))
     Fallback.models /\
   res_status (fst (run (Fallback.propiedadia_generate env body))) = 500%Z) \/
  (exists tried winner rest d,
     Fallback.models = (tried ++ winner :: rest)%list /\
     Forall (fun m => property_attempt_fails env (net env (Fallback.property_call body m)))
       tried /\
     property_attempt_yields env (net env (Fallback.property_call body winner)) d /\
     fst (run (Fallback.propiedadia_generate env body)) = success "description" d).
Proof.
  intros Hp Hl.
  destruct (all_fail_or_first_success
              (fun m => property_attempt_fails env (net env (Fallback.property_call body m)))
              (fun m d => property_attempt_yields env
                            (net env (Fallback.property_call body m)) d)
              Fallback.models (fun m => property_attempt_cases env _))
    as [Hall | (tried & winner & rest & d & Hsplit & Htried & Hwin)].
  - left. split; [exact Hall |].
    rewrite (property_route_lost body Hp Hl Hall). apply exhausted_is_500.
  - right. exists tried, winner, rest, d. repeat split; try assumption.
    exact (property_route_won body tried winner rest d Hp Hl Hsplit Htried Hwin).
Qed.

(** The two ends of the content loop. *)
Lemma content_route_ends body :
  present (businessType body) = true ->
  (Forall (fun m => content_attempt_fails env (net env (Fallback.content_call body m)))
     Fallback.models /\
   res_status (fst (run (Fallback.contenidoia_generate env body))) = 500%Z) \/
  (exists tried winner rest p,
     Fallback.models = (tried ++ winner :: rest)%list /\
     Forall (fun m => content_attempt_fails env (net env (Fallback.content_call body m)))
       tried /\
     content_attempt_yields env (net env (Fallback.content_call body winner)) p /\
     fst (run (Fallback.contenidoia_generate env body)) = success "posts" p).
Proof.
  intros Hb.
  destruct (all_fail_or_first_success
              (fun m => content_attempt_fails env (net env (Fallback.content_call body m)))
              (fun m p => content_attempt_yields env
                            (net env (Fallback.content_call body m)) p)
              Fallback.models (fun m => content_attempt_cases env _))
    as [Hall | (tried & winner & rest & p & Hsplit & Htried & Hwin)].
  - left. split; [exact Hall |].
    rewrite (content_route_lost body Hb Hall). apply exhausted_is_500.
  - right. exists tried, winner, rest, p. repeat split; try assumption.
    exact (content_route_won body tried winner rest p Hb Hsplit Htried Hwin).
Qed.

(** X2.  In the revision with the model list, whatever the upstream
    does, a valid request is answered 200 or 500: 200 exactly when at
    least one model of the list succeeds, and then with the result of
    the first model that does; 500 when none does. *)
Theorem model_list_answers_200_iff_a_model_succeeds
    (pbody : PropertyFields) (cbody : ContentBody) :
  present (propertyType pbody) = true ->
  present (location pbody) = true ->
  present (businessType cbody) = true ->
  let described := fst (run (Fallback.propiedadia_generate env pbody)) in
  let posted := fst (run (Fallback.contenidoia_generate env cbody)) in
  (res_status described = 200%Z <->
   exists m d, In m Fallback.models /\
     property_attempt_yields env (net env (Fallback.property_call pbody m)) d) /\
  (res_status described = 200%Z ->
   exists tried winner rest d,
     Fallback.models = (tried ++ winner :: rest)%list /\
     Forall (fun m => property_attempt_fails env (net env (Fallback.property_call pbody m)))
       tried /\
     property_attempt_yields env (net env (Fallback.property_call pbody winner)) d /\
     described = success "description" d) /\
  (res_status described = 200%Z \/ res_status described = 500%Z) /\
  (res_status posted = 200%Z <->
   exists m p, In m Fallback.models /\
     content_attempt_yields env (net env (Fallback.content_call cbody m)) p) /\
  (res_status posted = 200%Z ->
   exists tried winner rest p,
     Fallback.models = (tried ++ winner :: rest)%list /\
     Forall (fun m => content_attempt_fails env (net env (Fallback.content_call cbody m)))
       tried /\
     content_attempt_yields env (net env (Fallback.content_call cbody winner)) p /\
     posted = success "posts" p) /\
  (res_status posted = 200%Z \/ res_status posted = 500%Z).
Proof.
  intros Hp Hl Hb described posted.
  pose proof (property_route_ends pbody Hp Hl) as Hprop.
  pose proof (content_route_ends cbody Hb) as Hposts.
  fold described in Hprop. fold posted in Hposts.
  split; [| split; [| split; [| split; [| split]]]].
  - split.
    + intros H200.
      destruct Hprop as [[_ H500] | (tried & winner & rest & d & Hs & _ & Hw & _)];
        [congruence |].
      exists winner, d. split; [| exact Hw]. rewrite Hs. apply in_or_app. right. now left.
    + intros (m & d & Hin & Hy).
      destruct Hprop as [[Hall _] | (tried & winner & rest & d' & _ & _ & _ & ->)];
        [| reflexivity].
      exfalso. rewrite Forall_forall in Hall.
      exact (property_fails_not_yields _ _ (Hall m Hin) Hy).
  - intros H200. destruct Hprop as [[_ H500] | H]; [congruence | exact H].
  - destruct Hprop as [[_ H500] | (tried & winner & rest & d & _ & _ & _ & ->)];
      [now right | now left].
  - split.
    + intros H200.
      destruct Hposts as [[_ H500] | (tried & winner & rest & p & Hs & _ & Hw & _)];
        [congruence |].
      exists winner, p. split; [| exact Hw]. rewrite Hs. apply in_or_app. right. now left.
    + intros (m & p & Hin & Hy).
      destruct Hposts as [[Hall _] | (tried & winner & rest & p' & _ & _ & _ & ->)];
        [| reflexivity].
      exfalso. rewrite Forall_forall in Hall.
      exact (content_fails_not_yields _ _ (Hall m Hin) Hy).
  - intros H200. destruct Hposts as [[_ H500] | H]; [congruence | exact H].
  - destruct Hposts as [[_ H500] | (tried & winner & rest & p & _ & _ & _ & ->)];
      [now right | now left].
Qed.

End ModelListAnswer.

(** ** What the single-model revision makes of the provider's replies *)

Section ProviderReplies.
Context (env : Env).

Lemma upstream_error_relays status text :
  writable status = true ->
  nullish (parse_error_json (Some text)) = false ->
  OpenRouter.upstream_error env status text
  = json status [("error", VStr "Error de OpenRouter"); ("details", details_of text)].
Proof.
  intros Hw Hnull. unfold OpenRouter.upstream_error, error_details, details_of.
  destruct (parse_error_json (Some text)); try discriminate; simpl; now rewrite Hw.
Qed.

Lemma upstream_error_null status text :
  parse_error_json (Some text) = VNull ->
  OpenRouter.upstream_error env status text
  = internal_error (mkExn "TypeError" (engine_message env (PropertyOfNullish VNull "error"))).
Proof.
  intros Hnull. unfold OpenRouter.upstream_error, error_details. now rewrite Hnull.
Qed.

(** X3.  In the single-model revision a non-2xx reply of the provider
    is passed on with the provider's own status code.  The body is
    [{error: 'Error de OpenRouter', details}], except with a status that
    carries no body (304, and 1xx), where the client receives the status
    alone.  [details] is [error.message] of the reply when the reply is
    JSON with a truthy one, else its [message], else the reply's text,
    written as [JSON.stringify] writes it; a reply that is not JSON is
    passed on as it is.  Only a reply that is the JSON word [null]
    breaks this: it ends in the 500 of the [catch]. *)
Theorem provider_error_is_relayed
    (pbody : PropertyFields) (cbody : ContentBody) (status : Z) (text : string) :
  present (propertyType pbody) = true ->
  present (location pbody) = true ->
  present (businessType cbody) = true ->
  net env (OpenRouter.property_call pbody) = FetchResponds status text ->
  net env (OpenRouter.content_call cbody) = FetchResponds status text ->
  ok status = false ->
  (100 <= status <= 999)%Z ->
  let described := fst (run (OpenRouter.propiedadia_generate env pbody)) in
  let posted := fst (run (OpenRouter.contenidoia_generate env cbody)) in
  (nullish (parse_error_json (Some text)) = false ->
   described = posted /\
   res_status described = status /\
   (no_body status = false ->
    res_body described
    = VObj [("error", VStr "Error de OpenRouter"); ("details", wire (details_of text))]) /\
   (no_body status = true -> res_body described = VUndefined)) /\
  (no_body status = true <-> (status <= 199)%Z \/ status = 304%Z) /\
  (JSON_parse text = None ->
   details_of text = VStr text /\ wire (details_of text) = VStr text) /\
  (forall props message,
     JSON_parse text = Some (VObj props) ->
     get_opt (own_prop props "error") "message" = message ->
     truthy message = true ->
     details_of text = message) /\
  (forall props message,
     JSON_parse text = Some (VObj props) ->
     truthy (get_opt (own_prop props "error") "message") = false ->
     own_prop props "message" = message ->
     truthy message = true ->
     details_of text = message) /\
  (JSON_parse text = Some VNull ->
   described = posted /\
   res_status described = 500%Z /\
   res_body described
   = VObj [("error", VStr "Error interno del servidor");
           ("details", VStr (engine_message env (PropertyOfNullish VNull "error")))]) /\
  (forall s, wire (VStr s) = VStr s) /\
  wire (VNum 1 400) = VNull.
Proof.
  intros Hp Hl Hb Hnetp Hnetc Hok Hrange described posted.
  assert (Eprop : described = OpenRouter.upstream_error env status text).
  { unfold described, OpenRouter.propiedadia_generate; unfold_io.
    rewrite Hp, Hl. simpl. now rewrite Hnetp, Hok. }
  assert (Econt : posted = OpenRouter.upstream_error env status text).
  { unfold posted, OpenRouter.contenidoia_generate; unfold_io.
    rewrite Hb. simpl. now rewrite Hnetc, Hok. }
  split; [| split; [| split; [| split; [| split; [| split; [| split]]]]]];
    [| | | | | | reflexivity | reflexivity].
  - intros Hnull.
    assert (Hw : writable status = true) by (unfold writable; lia).
    rewrite Eprop, Econt, (upstream_error_relays status text Hw Hnull).
    split; [reflexivity | split; [reflexivity | split]].
    + intros Hbody. rewrite json_two by apply details_of_defined. now rewrite Hbody.
    + intros Hbody. rewrite json_two by apply details_of_defined. now rewrite Hbody.
  - unfold ok in Hok. unfold no_body.
    repeat match goal with
           | |- context [(?a <=? ?b)%Z] => destruct (Z.leb_spec a b)
           | |- context [(?a =? ?b)%Z] => destruct (Z.eqb_spec a b)
           | H : context [(?a <=? ?b)%Z] |- _ => destruct (Z.leb_spec a b)
           end; simpl in *; split; try discriminate; try reflexivity; lia.
  - intros Hparse.
    assert (E : details_of text = VStr text)
      by (unfold details_of, parse_error_json; rewrite Hparse; now destruct text).
    now rewrite E.
  - intros props message Hparse Hmsg Ht.
    unfold details_of, parse_error_json. rewrite Hparse. simpl get_opt at 2.
    rewrite Hmsg. unfold js_or at 2. rewrite Ht. unfold js_or. now rewrite Ht.
  - intros props message Hparse Hnone Hmsg Ht.
    unfold details_of, parse_error_json. rewrite Hparse. simpl get_opt.
    unfold js_or at 2. simpl get_opt in Hnone. rewrite Hnone, Hmsg.
    unfold js_or. now rewrite Ht.
  - intros Hparse. rewrite Eprop, Econt.
    rewrite upstream_error_null; [now repeat split |].
    unfold parse_error_json. now rewrite Hparse.
Qed.

(** X4.  How a 2xx reply is read in the single-model revision.  A text
    that is not JSON, and JSON without a [choices] entry, end in the 500
    of the [catch]; an empty [choices] array, or a first choice without
    [message.content], is read as the empty description and answered
    200; anything truthy under [choices[0].message.content] is passed
    on as the description, whatever its JSON type, and reaches the
    client as [JSON.stringify] writes it: a text as it is, a number too
    large for a double (1e400) as [null]. *)
Theorem reading_a_reply (pbody : PropertyFields) (status : Z) (text : string) :
  present (propertyType pbody) = true ->
  present (location pbody) = true ->
  net env (OpenRouter.property_call pbody) = FetchResponds status text ->
  ok status = true ->
  let r := fst (run (OpenRouter.propiedadia_generate env pbody)) in
  let described d :=
    res_status r = 200%Z /\
    res_body r = VObj [("success", VBool true); ("description", d)] in
  (JSON_parse text = None ->
   r = internal_error (mkExn "SyntaxError" (engine_message env (JSONSyntaxError text)))) /\
  (forall props,
     JSON_parse text = Some (VObj props) -> own_prop props "choices" = VUndefined ->
     r = internal_error
           (mkExn "TypeError" (engine_message env (PropertyOfNullish VUndefined "0")))) /\
  (forall props,
     JSON_parse text = Some (VObj props) -> own_prop props "choices" = VArr [] ->
     described (VStr "")) /\
  (forall props first rest,
     JSON_parse text = Some (VObj props) -> own_prop props "choices" = VArr (first :: rest) ->
     truthy (get_opt (get_opt first "message") "content") = false ->
     described (VStr "")) /\
  (forall props first rest,
     JSON_parse text = Some (VObj props) -> own_prop props "choices" = VArr (first :: rest) ->
     truthy (get_opt (get_opt first "message") "content") = true ->
     described (wire (get_opt (get_opt first "message") "content"))) /\
  (forall s, wire (VStr s) = VStr s) /\
  truthy (VNum 1 400) = true /\
  wire (VNum 1 400) = VNull /\
  (forall d, res_status (internal_error d) = 500%Z).
Proof.
  intros Hp Hl Hnet Hok r described.
  assert (Hr : r = match read_content env text with
                   | inr description => success "description" description
                   | inl e => internal_error e
                   end).
  { unfold r, OpenRouter.propiedadia_generate; unfold_io.
    rewrite Hp, Hl. simpl. now rewrite Hnet, Hok. }
  assert (Hd : forall d, read_content env text = inr d -> described (wire d)).
  { intros d Hread. unfold described. rewrite Hr, Hread. split; [reflexivity |].
    apply success_sent. exact (read_content_defined env text d Hread). }
  unfold read_content, response_json, choice_content, bind in Hr, Hd.
  repeat match goal with |- _ /\ _ => split end; try reflexivity.
  - intros Hparse. rewrite Hr, Hparse. reflexivity.
  - intros props Hparse Hc. rewrite Hr, Hparse. simpl. now rewrite Hc.
  - intros props Hparse Hc. apply (Hd (VStr "")). rewrite Hparse. simpl. now rewrite Hc.
  - intros props first rest Hparse Hc Ht. apply (Hd (VStr "")).
    rewrite Hparse. simpl. rewrite Hc. simpl. unfold js_or. now rewrite Ht.
  - intros props first rest Hparse Hc Ht. apply Hd.
    rewrite Hparse. simpl. rewrite Hc. simpl. unfold js_or. now rewrite Ht.
Qed.

End ProviderReplies.

(** ** The list used up without a recorded text *)

Lemma last_text_of_nothing {A} (text_of : A -> option string) (items : list A) acc :
  Forall (fun x => text_of x = None) items ->
  fold_left record (map text_of items) acc = acc.
Proof.
  intros H. revert acc. induction H as [| x items Hx _ IH]; intros acc; [reflexivity |].
  simpl. rewrite Hx. apply IH.
Qed.

Section SilentExhaustion.
Context (env : Env).

(** X5.  A turn of the loops can fail without leaving a text behind:
    a 2xx reply with empty content, and in the content loop also a
    reply whose content holds no array of posts.  When every model of
    the list fails that way, the report of the exhaustion itself fails:
    [JSON.parse(null)] gives [null] and reading [errorJson.error]
    throws.  The client gets the 500 of the outer [catch],
    [Error interno del servidor] with the engine's message, after all
    four models have been called; the [Error de IA (Agotado)] answer is
    not sent. *)
Theorem exhaustion_without_text_is_an_internal_error
    (pbody : PropertyFields) (cbody : ContentBody) :
  present (propertyType pbody) = true ->
  present (location pbody) = true ->
  present (businessType cbody) = true ->
  (Forall (fun m => property_attempt_fails env (net env (Fallback.property_call pbody m)) /\
                    failure_text env (net env (Fallback.property_call pbody m)) = None)
     Fallback.models ->
   run (Fallback.propiedadia_generate env pbody)
   = (json 500 [("error", VStr "Error interno del servidor");
                ("details", VStr (engine_message env (PropertyOfNullish VNull "error")))],
      map (Fallback.property_call pbody) Fallback.models)) /\
  (Forall (fun m => content_attempt_fails env (net env (Fallback.content_call cbody m)) /\
                    failure_text env (net env (Fallback.content_call cbody m)) = None)
     Fallback.models ->
   run (Fallback.contenidoia_generate env cbody)
   = (json 500 [("error", VStr "Error interno del servidor");
                ("details", VStr (engine_message env (PropertyOfNullish VNull "error")))],
      map (Fallback.content_call cbody) Fallback.models)).
Proof.
  intros Hp Hl Hb. split.
  - intros Hprop. unfold run, Fallback.propiedadia_generate, io_bind.
    rewrite Hp, Hl. cbn [negb orb]. cbv beta iota.
    rewrite (for_of_all_failed (Fallback.try_property env pbody)
               (Fallback.property_call pbody)
               (fun m => failure_text env (net env (Fallback.property_call pbody m)))
               (VStr "")).
    + rewrite last_text_of_nothing; [reflexivity |].
      eapply Forall_impl; [| exact Hprop]. now intros m [_ Hm].
    + eapply Forall_impl; [| exact Hprop]. intros m [Hm _] lastError log.
      now apply try_property_failed.
  - intros Hcont. unfold run, Fallback.contenidoia_generate, io_bind.
    rewrite Hb. cbn [negb]. cbv beta iota.
    rewrite (for_of_all_failed (Fallback.try_content env cbody)
               (Fallback.content_call cbody)
               (fun m => failure_text env (net env (Fallback.content_call cbody m)))
               (VArr [])).
    + rewrite last_text_of_nothing; [reflexivity |].
      eapply Forall_impl; [| exact Hcont]. now intros m [_ Hm].
    + eapply Forall_impl; [| exact Hcont]. intros m [Hm _] lastError log.
      now apply try_content_failed.
Qed.

End SilentExhaustion.

(** ** The Inaia revision, answer by answer *)

Section InaiaAnswers.
Context (env : Env).

Lemma inaia_property_run body :
  present (propertyType body) = true ->
  present (location body) = true ->
  fst (run (Inaia.propiedadia_generate env body))
  = match net env (Inaia.property_call body) with
    | FetchRejects e =>
        internal_error (if exn_name e =? "AbortError"
                        then Error "Timeout: Inaia API no respondió en 30 segundos"
                        else e)
    | FetchResponds status text =>
        if ok status then
          if blank text then internal_error (Error "Inaia returned empty response")
          else success "description" (VStr text)
        else internal_error
               (Error ("Inaia API error (" ++ string_of_Z status ++ "): " ++ text))
    end.
Proof.
  intros Hp Hl. unfold Inaia.propiedadia_generate, Inaia.callInaiaAPI; unfold_io.
  rewrite Hp, Hl. cbn [negb orb]. cbv beta iota.
  change {| call_url := Inaia.INAIA_API_URL; call_model := "kimi";
            call_messages := chat property_system_prompt (buildPropertyPrompt body) |}
    with (Inaia.property_call body).
  destruct (net env (Inaia.property_call body)) as [e | status text]; simpl.
  - now destruct (exn_name e =? "AbortError").
  - destruct (ok status); simpl; [| reflexivity].
    destruct (blank text) eqn:Hblank; simpl; [reflexivity |]. now rewrite Hblank.
Qed.

Lemma inaia_content_run body :
  present (businessType body) = true ->
  fst (run (Inaia.contenidoia_generate env body))
  = match net env (Inaia.content_call body) with
    | FetchRejects e =>
        internal_error (if exn_name e =? "AbortError"
                        then Error "Timeout: Inaia API no respondió en 30 segundos"
                        else e)
    | FetchResponds status text =>
        if ok status then
          if blank text then internal_error (Error "Inaia returned empty response")
          else
            match parse_posts env (VStr text) with
            | inl e =>
                json 500 [("error", VStr "Error parseando respuesta de IA");
                          ("details", VStr (exn_message e));
                          ("raw_response", VStr (substring0 200 text))]
            | inr parsed =>
                let posts := match parsed with Some v => v | None => VArr [] end in
                if length_is_zero posts then
                  json 500 [("error", VStr "Error de IA: No se generaron posts válidos");
                            ("details",
                             VStr "La respuesta no contiene un array JSON válido");
                            ("raw_response", VStr (substring0 200 text))]
                else success "posts" posts
            end
        else internal_error
               (Error ("Inaia API error (" ++ string_of_Z status ++ "): " ++ text))
    end.
Proof.
  intros Hb. unfold Inaia.contenidoia_generate, Inaia.callInaiaAPI; unfold_io.
  rewrite Hb. cbn [negb]. cbv beta iota zeta.
  change {| call_url := Inaia.INAIA_API_URL; call_model := "reasoning";
            call_messages :=
              chat (content_system_prompt "                ")
                (buildContentPrompt (content_fields body (count_of (postCount body)))) |}
    with (Inaia.content_call body).
  unfold Inaia.rethrow, throw, ret.
  destruct (net env (Inaia.content_call body)) as [e | status text].
  - now destruct (exn_name e =? "AbortError").
  - destruct (ok status); cbn [negb]; cbv iota; [| reflexivity].
    now destruct (blank text).
Qed.

(** X6.  What the client of the Inaia revision sees of
    [callInaiaAPI], on either route: a fetch aborted by the 30 second
    timer is reported as [Timeout: Inaia API no respondió en 30
    segundos]; any other rejected fetch with its own message; a non-2xx
    reply as [Inaia API error (<status>): <text>]; a 2xx reply that is
    empty or white space as [Inaia returned empty response], all four
    under status 500 and [Error interno del servidor].  On the property
    route any other 2xx reply is passed on verbatim as the description,
    and the handler's own answer for an empty description,
    [Error de IA: Inaia no retornó una respuesta válida], is never sent:
    [callInaiaAPI] has thrown before. *)
Theorem inaia_failures_case_by_case (pbody : PropertyFields) (cbody : ContentBody) :
  present (propertyType pbody) = true ->
  present (location pbody) = true ->
  present (businessType cbody) = true ->
  let internal details :=
    json 500 [("error", VStr "Error interno del servidor"); ("details", VStr details)] in
  let described := fst (run (Inaia.propiedadia_generate env pbody)) in
  let posted := fst (run (Inaia.contenidoia_generate env cbody)) in
  let preply := net env (Inaia.property_call pbody) in
  let creply := net env (Inaia.content_call cbody) in
  (forall e, exn_name e = "AbortError" ->
     (preply = FetchRejects e ->
      described = internal "Timeout: Inaia API no respondió en 30 segundos") /\
     (creply = FetchRejects e ->
      posted = internal "Timeout: Inaia API no respondió en 30 segundos")) /\
  (forall e, exn_name e <> "AbortError" ->
     (preply = FetchRejects e -> described = internal (exn_message e)) /\
     (creply = FetchRejects e -> posted = internal (exn_message e))) /\
  (forall status text, ok status = false ->
     (preply = FetchResponds status text ->
      described = internal ("Inaia API error (" ++ string_of_Z status ++ "): " ++ text)) /\
     (creply = FetchResponds status text ->
      posted = internal ("Inaia API error (" ++ string_of_Z status ++ "): " ++ text))) /\
  (forall status text, ok status = true -> blank text = true ->
     (preply = FetchResponds status text ->
      described = internal "Inaia returned empty response") /\
     (creply = FetchResponds status text ->
      posted = internal "Inaia returned empty response")) /\
  (forall status text, ok status = true -> blank text = false ->
     preply = FetchResponds status text ->
     described = json 200 [("success", VBool true); ("description", VStr text)]) /\
  described <> json 500 [("error",
                          VStr "Error de IA: Inaia no retornó una respuesta válida");
                         ("details", VStr "La respuesta está vacía")].
Proof.
  intros Hp Hl Hb internal described posted preply creply.
  assert (Hd := inaia_property_run pbody Hp Hl). fold described preply in Hd.
  assert (Hc := inaia_content_run cbody Hb). fold posted creply in Hc.
  repeat match goal with |- _ /\ _ => split end.
  - intros e Hname. apply String.eqb_eq in Hname.
    split; intros He; [rewrite Hd | rewrite Hc]; rewrite He, Hname; reflexivity.
  - intros e Hname. apply String.eqb_neq in Hname.
    split; intros He; [rewrite Hd | rewrite Hc]; rewrite He, Hname; reflexivity.
  - intros status text Hok.
    split; intros He; [rewrite Hd | rewrite Hc]; rewrite He, Hok; reflexivity.
  - intros status text Hok Hblank.
    split; intros He; [rewrite Hd | rewrite Hc]; rewrite He, Hok, Hblank; reflexivity.
  - intros status text Hok Hblank He. rewrite Hd, He, Hok, Hblank. reflexivity.
  - rewrite Hd. destruct preply as [e | status text].
    + discriminate.
    + destruct (ok status); [destruct (blank text) |]; discriminate.
Qed.

(** X7.  The content route of the Inaia revision, once Inaia has
    answered 2xx with a text that is not blank.  The posts are what the
    span from the first [[] to the last []] of the text parses to.  No
    span, or a span that parses to the empty array: 500 with
    [Error de IA: No se generaron posts válidos]; a span that is not
    JSON: 500 with [Error parseando respuesta de IA] and the engine's
    message; both carry [raw_response], the first 200 code units of the
    text.  Only a span that parses to an array with at least one item is
    answered 200, with that array.  Unlike the single-model revision,
    no template post is ever sent. *)
Theorem inaia_content_route_case_by_case
    (body : ContentBody) (status : Z) (text : string) :
  present (businessType body) = true ->
  net env (Inaia.content_call body) = FetchResponds status text ->
  ok status = true ->
  blank text = false ->
  let r := fst (run (Inaia.contenidoia_generate env body)) in
  let no_posts :=
    json 500 [("error", VStr "Error de IA: No se generaron posts válidos");
              ("details", VStr "La respuesta no contiene un array JSON válido");
              ("raw_response", VStr (substring0 200 text))] in
  (match_array text = None -> r = no_posts) /\
  (forall span, match_array text = Some span -> JSON_parse span = Some (VArr []) ->
     r = no_posts) /\
  (forall span, match_array text = Some span -> JSON_parse span = None ->
     r = json 500 [("error", VStr "Error parseando respuesta de IA");
                   ("details", VStr (engine_message env (JSONSyntaxError span)));
                   ("raw_response", VStr (substring0 200 text))]) /\
  (forall span p ps, match_array text = Some span ->
     JSON_parse span = Some (VArr (p :: ps)) ->
     r = json 200 [("success", VBool true); ("posts", VArr (p :: ps))]) /\
  (res_status r = 200%Z ->
   exists span p ps,
     match_array text = Some span /\ JSON_parse span = Some (VArr (p :: ps)) /\
     r = json 200 [("success", VBool true); ("posts", VArr (p :: ps))]) /\
  (res_status r = 200%Z \/ res_status r = 500%Z).
Proof.
  intros Hb Hnet Hok Hblank r no_posts.
  assert (Hr := inaia_content_run body Hb). fold r in Hr.
  rewrite Hnet, Hok, Hblank in Hr. unfold parse_posts in Hr.
  repeat match goal with |- _ /\ _ => split end.
  - intros Hspan. rewrite Hr, Hspan. reflexivity.
  - intros span Hspan Hparse. rewrite Hr, Hspan, Hparse. reflexivity.
  - intros span Hspan Hparse. rewrite Hr, Hspan, Hparse. reflexivity.
  - intros span p ps Hspan Hparse. rewrite Hr, Hspan, Hparse. reflexivity.
  - destruct (match_array text) as [span |] eqn:Hspan;
      [| rewrite Hr; discriminate].
    destruct (JSON_parse span) as [v |] eqn:Hparse;
      [| rewrite Hr; discriminate].
    assert (Harr : exists items, v = VArr items).
    { destruct (match_array_some _ _ Hspan) as (pre & mid & post & _ & _ & _ & Hshape).
      rewrite Hshape in Hparse. exact (JSON_parse_bracket _ _ Hparse). }
    destruct Harr as ([| p ps] & ->); [rewrite Hr; discriminate |].
    intros _. exists span, p, ps.
    split; [reflexivity |]. split; [exact Hparse |]. rewrite Hr. reflexivity.
  - rewrite Hr. destruct (match_array text) as [span |]; [| right; reflexivity].
    destruct (JSON_parse span) as [v |]; [| right; reflexivity].
    unfold ret. cbv beta iota zeta.
    destruct (length_is_zero v); [right | left]; reflexivity.
Qed.

End InaiaAnswers.

(** ** The posts of a 200 *)

Section PostsOfA200.
Context (env : Env).

Lemma upstream_error_is_not_200 status text :
  ok status = false -> res_status (OpenRouter.upstream_error env status text) <> 200%Z.
Proof.
  intros Hok. unfold OpenRouter.upstream_error.
  destruct (error_details env (Some text)); [discriminate |].
  destruct (writable status); [| discriminate].
  simpl. intros ->. discriminate.
Qed.

(** X8.  Whatever the upstream sends, the [posts] of a 200 are a JSON
    array: in the single-model revision possibly the empty one (a reply
    without a bracketed span), in the revision with the model list one
    with at least one item. *)
Theorem posts_of_a_200_are_an_array (body : ContentBody) :
  present (businessType body) = true ->
  let single := fst (run (OpenRouter.contenidoia_generate env body)) in
  let listed := fst (run (Fallback.contenidoia_generate env body)) in
  (res_status single = 200%Z -> exists items, single = success "posts" (VArr items)) /\
  (res_status listed = 200%Z -> exists p ps, listed = success "posts" (VArr (p :: ps))).
Proof.
  intros Hb single listed. split.
  - unfold single, OpenRouter.contenidoia_generate; unfold_io.
    rewrite Hb. cbn [negb]. cbv beta iota zeta.
    destruct (net env (OpenRouter.content_call body)) as [e | status text];
      cbn [fst]; [discriminate |].
    destruct (ok status) eqn:Hok; cbn [negb]; cbv iota.
    + destruct (read_content env text) as [e | c]; [discriminate |].
      intros _. destruct (parse_posts env c) as [e | [parsed |]] eqn:Hparse.
      * now eexists.
      * pose proof (parse_posts_array env c parsed Hparse) as Harr.
        destruct parsed; try discriminate. now eexists.
      * now eexists.
    + intros H200. now destruct (upstream_error_is_not_200 status text Hok).
  - intros H200.
    destruct (content_route_ends env body Hb)
      as [[_ H500] | (tried & winner & rest & p & _ & _ & Hwin & Hlisted)].
    + fold listed in H500. congruence.
    + fold listed in Hlisted.
      destruct Hwin as (status & text & c & _ & _ & _ & _ & Hparse & Hlen).
      pose proof (parse_posts_array env c p Hparse) as Harr.
      destruct p as [| | | | | [| x l] |]; try discriminate.
      now exists x, l.
Qed.

End PostsOfA200.

(** ** The template posts *)

Lemma firstn_of_length {A} (n : nat) (l : list A) :
  firstn (length (firstn n l)) l = firstn n l.
Proof.
  rewrite length_firstn. destruct (Nat.le_gt_cases n (length l)) as [H | H].
  - now rewrite Nat.min_l.
  - rewrite Nat.min_r by lia. rewrite firstn_all. symmetry. apply firstn_all2. lia.
Qed.

(** X9.  How many template posts [generateFallbackPosts] hands out for
    the count the content route computes.  The count is at most 30 and
    never 0.  A positive count gives [min count 5] posts; a negative one
    is counted from the end of the five templates by [slice], so -3
    gives the first two and -5 or less gives none.  The posts are always
    the first ones of the five templates, in order. *)
Theorem template_posts_by_count (businessType : string) (postCount : option CountField) :
  let count := count_of postCount in
  let posts := generateFallbackPosts businessType count in
  (count <= 30)%Z /\ count <> 0%Z /\
  length posts
  = Z.to_nat (if (count <? 0)%Z then Z.max (5 + count) 0 else Z.min count 5) /\
  (length posts = 0%nat <-> (count <= -5)%Z) /\
  ((5 <= count)%Z -> posts = generateFallbackPosts businessType 5) /\
  posts = firstn (length posts) (generateFallbackPosts businessType 5).
Proof.
  intros count posts.
  assert (Hcap : (count <= 30)%Z) by (unfold count, count_of; lia).
  assert (Hnz : count <> 0%Z).
  { unfold count, count_of. destruct (parseInt postCount) as [n |]; [| lia].
    destruct (n =? 0)%Z eqn:E; lia. }
  assert (Hlen : length posts
                 = Z.to_nat (if (count <? 0)%Z then Z.max (5 + count) 0 else Z.min count 5)).
  { unfold posts, generateFallbackPosts, slice0. rewrite length_firstn.
    cbn [length]. destruct (count <? 0)%Z eqn:E; lia. }
  repeat match goal with |- _ /\ _ => split end; try assumption.
  - rewrite Hlen. destruct (count <? 0)%Z eqn:E; lia.
  - intros H5. unfold posts, generateFallbackPosts, slice0. cbn [length].
    destruct (count <? 0)%Z eqn:E; [lia |].
    replace (Z.to_nat (Z.min count (Z.of_nat 5))) with 5%nat by lia. reflexivity.
  - unfold posts, generateFallbackPosts at 1 2. unfold slice0 at 1 2.
    rewrite firstn_of_length. reflexivity.
Qed.

(** ** The list of allowed origins *)






(** ** What a client with a refused origin receives *)


(** ** The prompt of a request without a network *)

(** X12.  The content route checks [businessType] only.  A request
    without [network] reaches the prompt, where the template prints the
    missing value as the word [undefined] and the format falls back to
    Instagram's; a [network] that is the empty text leaves the name
    blank, with the same format. *)
Theorem missing_network_is_printed_as_undefined (data : ContentFields) :
  (cf_network data = None ->
   exists before after,
     buildContentPrompt data
     = before
       ++ "Red social: undefined (posts visuales con 3-5 hashtags, máximo 150 palabras)"
       ++ after) /\
  (cf_network data = Some "" ->
   exists before after,
     buildContentPrompt data
     = before
       ++ "Red social:  (posts visuales con 3-5 hashtags, máximo 150 palabras)"
       ++ after).
Proof.
  split; intros Hnet; unfold buildContentPrompt; rewrite Hnet;
    exists ("Genera " ++ number_text (cf_postCount data) ++ " posts para redes sociales:

Negocio: " ++ show (cf_businessType data) ++ "
" ++ (if present (cf_businessDesc data)
      then "Descripción: " ++ show (cf_businessDesc data) else "") ++ "
Tono: " ++ phrase_or toneDescriptions (cf_tone data) (member toneDescriptions "profesional")
         ++ "
");
    eexists; rewrite !append_assoc; reflexivity.
Qed.

(** ** A count sent as text *)

(** X13.  A [postCount] sent as decimal text, as a form field does, is
    read as the same count as the number itself, for every integer below
    2^53 in magnitude: [parseInt] gives the number back, the route
    computes the same count, and the upstream receives the same call.
    Beyond that range the two can differ: the number 10^21 is printed
    as [1e+21] and read as 1, while its decimal text is read as 10^21
    and capped at 30. *)
Theorem count_as_text_is_the_count_as_number (body : ContentBody) (n : Z) :
  (Z.abs n < 2 ^ 53)%Z ->
  let as_number :=
    {| businessType := businessType body; businessDesc := businessDesc body;
       tone := tone body; network := network body;
       postCount := Some (CountNumber n) |} in
  let as_text :=
    {| businessType := businessType body; businessDesc := businessDesc body;
       tone := tone body; network := network body;
       postCount := Some (CountString (string_of_Z n)) |} in
  parseInt (postCount as_text) = Some n /\
  parseInt (postCount as_number) = Some n /\
  count_of (postCount as_text) = count_of (postCount as_number) /\
  OpenRouter.content_call as_text = OpenRouter.content_call as_number /\
  Inaia.content_call as_text = Inaia.content_call as_number /\
  (forall m, Fallback.content_call as_text m = Fallback.content_call as_number m) /\
  count_of (Some (CountNumber (10 ^ 21))) = 1%Z /\
  count_of (Some (CountString (string_of_Z (10 ^ 21)))) = 30%Z.
Proof.
  intros Hsafe as_number as_text.
  destruct (parseInt_safe n Hsafe) as [Hnumber Htext].
  assert (Hcount : count_of (postCount as_text) = count_of (postCount as_number))
    by (unfold count_of, as_text, as_number, postCount; now rewrite Hnumber, Htext).
  repeat match goal with |- _ /\ _ => split end.
  - exact Htext.
  - exact Hnumber.
  - exact Hcount.
  - unfold OpenRouter.content_call, content_fields. now rewrite Hcount.
  - unfold Inaia.content_call, content_fields. now rewrite Hcount.
  - intros m. unfold Fallback.content_call, content_fields. now rewrite Hcount.
  - vm_compute. reflexivity.
  - vm_compute. reflexivity.
Qed.

(** ** The reply quoted in an error *)

Lemma units_high_surrogate (b c2 c3 c4 : nat) :
  (240 <= b < 256)%nat -> (c2 < 256)%nat -> (c3 < 256)%nat -> (c4 < 256)%nat ->
  units (string_of_chars
           (utf8 (55296 + (262144 * (Z.of_nat b - 240) + 4096 * (Z.of_nat c2 - 128)
                           + 64 * (Z.of_nat c3 - 128) + (Z.of_nat c4 - 128) - 65536)
                          / 1024)%Z))
  = 1%nat.
Proof.
  intros Hb H2 H3 H4.
  set (x := (55296 + (262144 * (Z.of_nat b - 240) + 4096 * (Z.of_nat c2 - 128)
                      + 64 * (Z.of_nat c3 - 128) + (Z.of_nat c4 - 128) - 65536)
                     / 1024)%Z).
  assert (Hx : (2048 <= x < 65536)%Z).
  { unfold x. split.
    - apply (Z.le_trans _ (55296 + -1000)); [lia |].
      apply Z.add_le_mono_l. apply Z.div_le_lower_bound; lia.
    - apply (Z.lt_le_trans _ (55296 + 5000)); [| lia].
      apply Z.add_lt_mono_l. apply Z.div_lt_upper_bound; lia. }
  unfold utf8.
  destruct (x <? 128)%Z eqn:E1; [lia |].
  destruct (x <? 2048)%Z eqn:E2; [lia |].
  destruct (x <? 65536)%Z eqn:E3; [| lia].
  assert (Hlead : exists k, (224 <= k < 240)%nat /\ byte (224 + x / 4096) = ascii_of_nat k).
  { exists (Z.to_nat (224 + x / 4096)). split; [| reflexivity].
    assert (0 <= x / 4096 < 16)%Z; [| lia].
    split; [apply Z.div_pos; lia | apply Z.div_lt_upper_bound; lia]. }
  destruct Hlead as (k & Hk & ->).
  cbn [string_of_chars units]. rewrite nat_ascii_embedding by lia.
  destruct (k <? 192)%nat eqn:F1; [apply Nat.ltb_lt in F1; lia |].
  destruct (k <? 224)%nat eqn:F2; [apply Nat.ltb_lt in F2; lia |].
  destruct (k <? 240)%nat eqn:F3; [reflexivity | apply Nat.ltb_ge in F3; lia].
Qed.

Lemma nat_of_ascii_bound c : (nat_of_ascii c < 256)%nat.
Proof. destruct c as [[] [] [] [] [] [] [] []]; vm_compute; lia. Qed.

Lemma substring0_units : forall n s, (units (substring0 n s) <= n)%nat.
Proof.
  induction n as [n IH] using lt_wf_ind. intros s.
  destruct n as [| n']; [destruct s; simpl; lia |].
  destruct s as [| c s1]; [simpl; lia |].
  cbn [substring0]. cbv zeta.
  destruct (nat_of_ascii c <? 192)%nat eqn:E1.
  { cbn [units]. rewrite E1. specialize (IH n' (Nat.lt_succ_diag_r n') s1). lia. }
  destruct (nat_of_ascii c <? 224)%nat eqn:E2.
  { destruct s1 as [| c2 s2]; cbn [units]; rewrite E1, E2; [lia |].
    specialize (IH n' (Nat.lt_succ_diag_r n') s2). lia. }
  destruct (nat_of_ascii c <? 240)%nat eqn:E3.
  { destruct s1 as [| c2 [| c3 s3]]; cbn [units]; rewrite E1, E2, E3; try lia.
    specialize (IH n' (Nat.lt_succ_diag_r n') s3). lia. }
  destruct s1 as [| c2 [| c3 [| c4 s4]]]; try (cbn [units]; rewrite E1, E2, E3; lia).
  destruct n' as [| n''].
  - rewrite units_high_surrogate; [lia | | | |]; try apply nat_of_ascii_bound.
    apply Nat.ltb_ge in E3. pose proof (nat_of_ascii_bound c). lia.
  - cbn [units]. rewrite E1, E2, E3.
    assert (Hlt : (n'' < S (S n''))%nat) by lia.
    specialize (IH n'' Hlt s4). lia.
Qed.

Lemma substring0_ascii : forall n s,
  ascii_only s = true ->
  String.length (substring0 n s) = Nat.min n (String.length s) /\
  exists rest, s = substring0 n s ++ rest.
Proof.
  induction n as [| n IH]; intros s Hs.
  - split; [destruct s; reflexivity |]. exists s. destruct s; reflexivity.
  - destruct s as [| c s1]; [split; [reflexivity | now exists ""] |].
    simpl in Hs. apply andb_prop in Hs as [Hc Hs1].
    assert (E : (nat_of_ascii c <? 192)%nat = true).
    { apply Nat.ltb_lt. apply Nat.ltb_lt in Hc. lia. }
    cbn [substring0]. cbv zeta. rewrite E.
    destruct (IH s1 Hs1) as (Hlen & rest & Hrest).
    split; [simpl; now rewrite Hlen |].
    exists rest. rewrite append_cons. now rewrite <- Hrest.
Qed.

Lemma substring0_short : forall n s,
  ascii_only s = true -> (String.length s <= n)%nat -> substring0 n s = s.
Proof.
  induction n as [| n IH]; intros s Hs Hlen.
  - destruct s; [reflexivity | simpl in Hlen; lia].
  - destruct s as [| c s1]; [reflexivity |].
    simpl in Hs. apply andb_prop in Hs as [Hc Hs1].
    assert (E : (nat_of_ascii c <? 192)%nat = true).
    { apply Nat.ltb_lt. apply Nat.ltb_lt in Hc. lia. }
    cbn [substring0]. cbv zeta. rewrite E. simpl in Hlen.
    rewrite IH; [reflexivity | exact Hs1 | lia].
Qed.

(** X14.  The [raw_response] of the Inaia revision's parse errors,
    [content.substring(0, 200)], never holds more than 200 UTF-16 code
    units of the reply, whatever the reply's bytes; for an ASCII reply it
    is the reply's first 200 characters, or the whole reply when that is
    shorter. *)
Theorem raw_response_is_at_most_200_units (content : string) :
  (units (substring0 200 content) <= 200)%nat /\
  (ascii_only content = true ->
   String.length (substring0 200 content) = Nat.min 200 (String.length content) /\
   exists rest, content = substring0 200 content ++ rest) /\
  (ascii_only content = true -> (String.length content <= 200)%nat ->
   substring0 200 content = content).
Proof.
  split; [apply substring0_units |]. split; [apply substring0_ascii |].
  apply substring0_short.
Qed.

(** ** Optional fields sent empty *)

Lemma show_or_blanked f d : show_or (blanked f) d = show_or f d.
Proof. now destruct f as [[| c s] |]. Qed.

Lemma phrase_or_blanked table f d :
  own_property table "" = None -> own_property table "undefined" = None ->
  phrase_or table (blanked f) d = phrase_or table f d.
Proof.
  intros He Hu. destruct f as [[| c s] |]; try reflexivity.
  unfold phrase_or, lookup_phrase. simpl show. now rewrite He, Hu.
Qed.

(** X15.  An optional field sent as the empty text reads in the
    prompts as one that was not sent: [rooms], [bathrooms], [size],
    [features] and [style] of a property, [businessDesc] and [tone] of a
    content request.  ([network] is the exception, see X12.) *)
Theorem empty_optional_field_is_as_absent (data : PropertyFields) (cdata : ContentFields) :
  buildPropertyPrompt
    {| propertyType := propertyType data; rooms := blanked (rooms data);
       bathrooms := blanked (bathrooms data); size := blanked (size data);
       location := location data; features := blanked (features data);
       style := blanked (style data) |}
  = buildPropertyPrompt data /\
  buildContentPrompt
    {| cf_businessType := cf_businessType cdata;
       cf_businessDesc := blanked (cf_businessDesc cdata);
       cf_tone := blanked (cf_tone cdata); cf_network := cf_network cdata;
       cf_postCount := cf_postCount cdata |}
  = buildContentPrompt cdata.
Proof.
  split.
  - unfold buildPropertyPrompt. cbn [propertyType rooms bathrooms size location features style].
    rewrite !show_or_blanked, phrase_or_blanked; reflexivity.
  - unfold buildContentPrompt.
    cbn [cf_businessType cf_businessDesc cf_tone cf_network cf_postCount].
    rewrite phrase_or_blanked by reflexivity.
    now destruct (cf_businessDesc cdata) as [[| c s] |].
Qed.

(** ** Success, error, or a status alone *)

Lemma success_is_success v : is_success (success "description" v) /\ is_success (success "posts" v).
Proof.
  unfold is_success, field, success, json. cbn [res_status res_body].
  change (no_body 200) with false. cbv iota. cbn [wire].
  split; (split; [reflexivity | split; [reflexivity |]]); now destruct (wire v).
Qed.

Lemma relay_is_failure_or_bare (status : Z) (details : value) :
  status <> 200%Z ->
  let r := json status [("error", VStr "Error de OpenRouter"); ("details", details)] in
  is_failure r \/ (no_body status = true /\ res_status r = status /\ res_body r = VUndefined).
Proof.
  intros Hstatus r. unfold r, is_failure, field, json. cbn [res_status res_body].
  destruct (no_body status); [right; repeat split |].
  left. cbn [wire]. split; [exact Hstatus |].
  split; [eexists; reflexivity | now destruct (wire details)].
Qed.

Section AnswerShapes.
Context (env : Env).

Ltac shape :=
  first [ left; apply success_is_success
        | right; split; [discriminate | split; [eexists; reflexivity | reflexivity]] ].

Lemma exhausted_is_failure lastError : is_failure (Fallback.exhausted env lastError).
Proof.
  unfold Fallback.exhausted. destruct (error_details env lastError) as [e | details].
  - split; [discriminate | split; [eexists; reflexivity | reflexivity]].
  - unfold is_failure, field, json. cbn [res_status res_body].
    change (no_body 500) with false. cbv iota. cbn [wire].
    split; [discriminate |]. split; [eexists; reflexivity | now destruct (wire details)].
Qed.

(** X16.  Every answer of both routes, in the three revisions and
    whatever the request and the upstream, is of one of these kinds:
    status 200 with [success: true] and no [error]; another status with
    an [error] text and no [success]; or, in the single-model revision
    only, the upstream's own non-2xx status with no body at all, when
    that status is one that carries none (304, 1xx). *)
Theorem every_answer_is_a_success_an_error_or_a_status_alone
    (pbody : PropertyFields) (cbody : ContentBody) :
  let answers r := is_success r \/ is_failure r in
  let status_alone call r :=
    exists status text,
      net env call = FetchResponds status text /\ ok status = false /\
      no_body status = true /\ res_status r = status /\ res_body r = VUndefined in
  (answers (fst (run (OpenRouter.propiedadia_generate env pbody))) \/
   status_alone (OpenRouter.property_call pbody)
     (fst (run (OpenRouter.propiedadia_generate env pbody)))) /\
  (answers (fst (run (OpenRouter.contenidoia_generate env cbody))) \/
   status_alone (OpenRouter.content_call cbody)
     (fst (run (OpenRouter.contenidoia_generate env cbody)))) /\
  answers (fst (run (Fallback.propiedadia_generate env pbody))) /\
  answers (fst (run (Fallback.contenidoia_generate env cbody))) /\
  answers (fst (run (Inaia.propiedadia_generate env pbody))) /\
  answers (fst (run (Inaia.contenidoia_generate env cbody))) /\
  no_body 304 = true /\
  (forall status, (200 <= status)%Z -> no_body status = true ->
     status = 204%Z \/ status = 304%Z).
Proof.
  intros answers status_alone. unfold answers, status_alone.
  assert (Hvalid : (present (propertyType pbody) = true /\ present (location pbody) = true)
                   \/ negb (present (propertyType pbody)) || negb (present (location pbody))
                      = true)
    by (destruct (present (propertyType pbody)), (present (location pbody)); auto).
  assert (Hrelay : forall status text,
            ok status = false ->
            (is_success (OpenRouter.upstream_error env status text) \/
             is_failure (OpenRouter.upstream_error env status text)) \/
            exists status' text',
              FetchResponds status text = FetchResponds status' text' /\
              ok status' = false /\
              no_body status' = true /\
              res_status (OpenRouter.upstream_error env status text) = status' /\
              res_body (OpenRouter.upstream_error env status text) = VUndefined).
  { intros status text Hok. unfold OpenRouter.upstream_error.
    destruct (error_details env (Some text)) as [e | details]; [left; shape |].
    destruct (writable status); [| left; shape].
    destruct (relay_is_failure_or_bare status details) as [H | (Hbare & Hs & Hbody)].
    - intros ->. discriminate.
    - left. now right.
    - right. now exists status, text. }
  repeat match goal with |- _ /\ _ => split end.
  - destruct Hvalid as [[Hp Hl] | Hmissing].
    + unfold OpenRouter.propiedadia_generate; unfold_io.
      rewrite Hp, Hl. cbn [negb orb]. cbv beta iota.
      destruct (net env (OpenRouter.property_call pbody)) as [e | status text] eqn:Hnet;
        cbn [fst]; [left; shape |].
      destruct (ok status) eqn:Hok; cbn [negb]; cbv iota.
      * destruct (read_content env text) as [e | d]; left; shape.
      * now apply Hrelay.
    + unfold OpenRouter.propiedadia_generate; unfold_io. rewrite Hmissing. left; shape.
  - unfold OpenRouter.contenidoia_generate; unfold_io.
    destruct (present (businessType cbody)); cbn [negb]; cbv beta iota zeta; [| left; shape].
    destruct (net env (OpenRouter.content_call cbody)) as [e | status text] eqn:Hnet;
      cbn [fst]; [left; shape |].
    destruct (ok status) eqn:Hok; cbn [negb]; cbv iota.
    * destruct (read_content env text) as [e | d]; left; shape.
    * now apply Hrelay.
  - destruct Hvalid as [[Hp Hl] | Hmissing].
    + destruct (property_route_ends env pbody Hp Hl)
        as [[Hall _] | (tried & winner & rest & d & _ & _ & _ & ->)]; [| shape].
      rewrite (property_route_lost env pbody Hp Hl Hall). right.
      apply exhausted_is_failure.
    + unfold Fallback.propiedadia_generate; unfold_io. rewrite Hmissing. shape.
  - destruct (present (businessType cbody)) eqn:Hb.
    + destruct (content_route_ends env cbody Hb)
        as [[Hall _] | (tried & winner & rest & d & _ & _ & _ & ->)]; [| shape].
      rewrite (content_route_lost env cbody Hb Hall). right.
      apply exhausted_is_failure.
    + unfold Fallback.contenidoia_generate; unfold_io. rewrite Hb. shape.
  - destruct Hvalid as [[Hp Hl] | Hmissing].
    + rewrite (inaia_property_run env pbody Hp Hl).
      destruct (net env (Inaia.property_call pbody)) as [e | status text]; [shape |].
      destruct (ok status); [destruct (blank text) |]; shape.
    + unfold Inaia.propiedadia_generate; unfold_io. rewrite Hmissing. shape.
  - destruct (present (businessType cbody)) eqn:Hb.
    + rewrite (inaia_content_run env cbody Hb).
      destruct (net env (Inaia.content_call cbody)) as [e | status text]; [shape |].
      destruct (ok status); [destruct (blank text) |]; try shape.
      destruct (parse_posts env (VStr text)) as [e | parsed]; [shape |].
      cbv zeta. destruct (length_is_zero _); shape.
    + unfold Inaia.contenidoia_generate; unfold_io. rewrite Hb. shape.
  - reflexivity.
  - intros status Hs. unfold no_body.
    repeat match goal with
           | |- context [(?a <=? ?b)%Z] => destruct (Z.leb_spec a b)
           | |- context [(?a =? ?b)%Z] => destruct (Z.eqb_spec a b)
           end; simpl; try discriminate; intros _; lia.
Qed.

End AnswerShapes.

(** * More of the code, on concrete runs *)

Lemma call_budget_witness :
  snd (run (Inaia.propiedadia_generate flaky_upstream bare_property))
  = [Inaia.property_call bare_property] /\
  exists n, (1 <= n <= 4)%nat /\
    snd (run (Fallback.contenidoia_generate flaky_upstream (sample_content_body None)))
    = map (Fallback.content_call (sample_content_body None)) (firstn n Fallback.models).
Proof.
  destruct (upstream_call_budget flaky_upstream bare_property (sample_content_body None)
              eq_refl eq_refl eq_refl) as (_ & _ & Hinaia & _ & _ & Hlist).
  split; [exact Hinaia | exact Hlist].
Defined.

Lemma a_model_succeeded_witness :
  exists m d, In m Fallback.models /\
    property_attempt_yields flaky_upstream
      (net flaky_upstream (Fallback.property_call bare_property m)) d.
Proof.
  destruct (model_list_answers_200_iff_a_model_succeeds flaky_upstream bare_property
              (sample_content_body None) eq_refl eq_refl eq_refl) as ((H200 & _) & _).
  apply H200. vm_compute. reflexivity.
Defined.

Lemma rate_limited_provider_witness :
  (res_status (fst (run (OpenRouter.propiedadia_generate
                           (scripted (fun _ => FetchResponds 429
                              (dq "{'error':{'message':'Rate limit exceeded','code':429}}")))
                           bare_property))) = 429%Z /\
   res_body (fst (run (OpenRouter.propiedadia_generate
                         (scripted (fun _ => FetchResponds 429
                            (dq "{'error':{'message':'Rate limit exceeded','code':429}}")))
                         bare_property)))
   = VObj [("error", VStr "Error de OpenRouter"); ("details", VStr "Rate limit exceeded")]) /\
  (res_status (fst (run (OpenRouter.propiedadia_generate
                           (scripted (fun _ => FetchResponds 304 "")) bare_property)))
   = 304%Z /\
   res_body (fst (run (OpenRouter.propiedadia_generate
                         (scripted (fun _ => FetchResponds 304 "")) bare_property)))
   = VUndefined).
Proof.
  split.
  - destruct (provider_error_is_relayed
                (scripted (fun _ => FetchResponds 429
                   (dq "{'error':{'message':'Rate limit exceeded','code':429}}")))
                bare_property (sample_content_body None) 429
                (dq "{'error':{'message':'Rate limit exceeded','code':429}}")
                eq_refl eq_refl eq_refl eq_refl eq_refl eq_refl) as (Hrelay & _); [lia |].
    destruct (Hrelay eq_refl) as (_ & Hstatus & Hbody & _).
    split; [exact Hstatus | exact (Hbody eq_refl)].
  - destruct (provider_error_is_relayed
                (scripted (fun _ => FetchResponds 304 "")) bare_property
                (sample_content_body None) 304 ""
                eq_refl eq_refl eq_refl eq_refl eq_refl eq_refl) as (Hrelay & _); [lia |].
    destruct (Hrelay eq_refl) as (_ & Hstatus & _ & Hbare).
    split; [exact Hstatus | exact (Hbare eq_refl)].
Defined.

Lemma no_choices_witness :
  res_status (fst (run (OpenRouter.propiedadia_generate
                          (scripted (fun _ => FetchResponds 200 (dq "{'choices':[]}")))
                          bare_property))) = 200%Z /\
  res_body (fst (run (OpenRouter.propiedadia_generate
                        (scripted (fun _ => FetchResponds 200 (dq "{'choices':[]}")))
                        bare_property)))
  = VObj [("success", VBool true); ("description", VStr "")].
Proof.
  destruct (reading_a_reply
              (scripted (fun _ => FetchResponds 200 (dq "{'choices':[]}"))) bare_property
              200 (dq "{'choices':[]}") eq_refl eq_refl eq_refl eq_refl)
    as (_ & _ & Hempty & _).
  apply (Hempty [("choices", VArr [])]); reflexivity.
Defined.

Lemma silent_models_witness :
  fst (run (Fallback.propiedadia_generate (steady_upstream (dq "''")) bare_property))
  = json 500 [("error", VStr "Error interno del servidor");
              ("details", VStr "engine message")] /\
  fst (run (Fallback.contenidoia_generate
              (steady_upstream (dq "'No puedo ayudar con eso.'"))
              (sample_content_body None)))
  = json 500 [("error", VStr "Error interno del servidor");
              ("details", VStr "engine message")].
Proof.
  split.
  - destruct (exhaustion_without_text_is_an_internal_error (steady_upstream (dq "''"))
                bare_property (sample_content_body None) eq_refl eq_refl eq_refl)
      as (Hprop & _).
    rewrite Hprop; [reflexivity |].
    assert (Hone : forall m,
              property_attempt_fails (steady_upstream (dq "''"))
                (net (steady_upstream (dq "''")) (Fallback.property_call bare_property m)) /\
              failure_text (steady_upstream (dq "''"))
                (net (steady_upstream (dq "''")) (Fallback.property_call bare_property m))
              = None).
    { intros m. split; [| reflexivity].
      apply (property_empty (steady_upstream (dq "''")) 200 (reply (dq "''")) (VStr ""));
        reflexivity. }
    apply Forall_forall. intros m _. apply Hone.
  - destruct (exhaustion_without_text_is_an_internal_error
                (steady_upstream (dq "'No puedo ayudar con eso.'"))
                bare_property (sample_content_body None) eq_refl eq_refl eq_refl)
      as (_ & Hcont).
    rewrite Hcont; [reflexivity |].
    apply Forall_forall. intros m _. split; [| reflexivity].
    apply (content_no_span (steady_upstream (dq "'No puedo ayudar con eso.'")) 200
             (reply (dq "'No puedo ayudar con eso.'")) (VStr "No puedo ayudar con eso."));
      reflexivity.
Defined.

Lemma inaia_timeout_witness :
  fst (run (Inaia.contenidoia_generate
              (scripted (fun _ => FetchRejects (mkExn "AbortError" "This operation was aborted")))
              (sample_content_body None)))
  = json 500 [("error", VStr "Error interno del servidor");
              ("details", VStr "Timeout: Inaia API no respondió en 30 segundos")].
Proof.
  destruct (inaia_failures_case_by_case
              (scripted (fun _ => FetchRejects (mkExn "AbortError" "This operation was aborted")))
              bare_property (sample_content_body None) eq_refl eq_refl eq_refl)
    as (Habort & _).
  destruct (Habort (mkExn "AbortError" "This operation was aborted") eq_refl) as (_ & Hposted).
  exact (Hposted eq_refl).
Defined.

Lemma inaia_posts_witness :
  fst (run (Inaia.contenidoia_generate (scripted (fun _ => FetchResponds 200 chatty_reply))
              (sample_content_body None)))
  = json 200 [("success", VBool true); ("posts", VArr [post "hi" ["#a"]])].
Proof.
  destruct (inaia_content_route_case_by_case
              (scripted (fun _ => FetchResponds 200 chatty_reply))
              (sample_content_body None) 200 chatty_reply eq_refl eq_refl eq_refl eq_refl)
    as (_ & _ & _ & Hposts & _).
  apply (Hposts (dq "[{'content':'hi','hashtags':['#a']}]")); reflexivity.
Defined.

Lemma posts_array_witness :
  exists p ps,
    fst (run (Fallback.contenidoia_generate flaky_upstream (sample_content_body None)))
    = success "posts" (VArr (p :: ps)).
Proof.
  destruct (posts_of_a_200_are_an_array flaky_upstream (sample_content_body None) eq_refl)
    as (_ & Hlisted).
  apply Hlisted. vm_compute. reflexivity.
Defined.



Lemma count_as_text_witness :
  parseInt (Some (CountString "12")) = Some 12%Z /\
  parseInt (Some (CountNumber 12)) = Some 12%Z.
Proof.
  destruct (count_as_text_is_the_count_as_number (sample_content_body None) 12)
    as (Htext & Hnumber & _).
  - vm_compute. reflexivity.
  - split; [exact Htext | exact Hnumber].
Defined.
